(** * Bring-up of the Intel HD-Audio controller

    A shallow embedding of
    [system/udev/intel-hda/controller/intel-hda-controller-init.cpp]:
    the reset state machine, the stream-descriptor pool setup, the
    CORB/RIRB ring setup and the lifecycle orchestrator, together with
    the properties of these routines.

    The driver talks to three kinds of collaborators: the memory-mapped
    register block, the host services (PCI protocol, physical memory
    allocator, device framework, threads) and the log.  Every interaction
    is recorded, in program order, in a trace of events; what the
    collaborators answer is fixed by an environment [Env], so that every
    routine is a total, executable function of the environment and of the
    state it starts from.

    Bring-up runs on one thread: the [mxtl::AutoLock] guards taken by
    SetupStreamDescriptors and SetupCommandBuffer have no counterpart
    here. *)

From Stdlib Require Import ZArith List String Ascii Bool Lia.
From Stdlib Require Import DecimalString HexadecimalString.
From Stdlib Require Import DecimalFacts DecimalPos DecimalN.
From stdpp Require Import prelude strings.

Local Open Scope string_scope.
Local Open Scope list_scope.
Local Open Scope Z_scope.

(** ** Machine integers *)

(** An unsigned [bits]-wide integer is a [Z] reduced modulo [2^bits]. *)
Definition wrap (bits x : Z) : Z := x mod 2 ^ bits.
Definition u8 : Z -> Z := wrap 8.
Definition u16 : Z -> Z := wrap 16.
Definition u32 : Z -> Z := wrap 32.
Definition u64 : Z -> Z := wrap 64.

(** [a & b] used as a C condition. *)
Definition test_bits (a b : Z) : bool := negb (Z.land a b =? 0).

(** ** Status codes *)

Inductive mx_status : Type :=
| NO_ERROR
| ERR_INTERNAL
| ERR_NOT_SUPPORTED
| ERR_NO_MEMORY
| ERR_INVALID_ARGS
| ERR_BAD_STATE
| ERR_TIMED_OUT
| ERR_OTHER (code : Z).  (* any other failure reported by a host service *)

Definition is_ok (s : mx_status) : bool :=
  match s with NO_ERROR => true | _ => false end.

(** ** The register block *)

(** The fields of [hda_registers_t] that the bring-up code touches. *)
Inductive reg : Type :=
| GCAP | VMIN | VMAJ | GCTL
| CORBLBASE | CORBUBASE | CORBWP | CORBRP | CORBCTL | CORBSTS | CORBSIZE
| RIRBLBASE | RIRBUBASE | RIRBWP | RINTCNT | RIRBCTL | RIRBSTS | RIRBSIZE.

Definition reg_eqb (a b : reg) : bool :=
  match a, b with
  | GCAP, GCAP | VMIN, VMIN | VMAJ, VMAJ | GCTL, GCTL
  | CORBLBASE, CORBLBASE | CORBUBASE, CORBUBASE | CORBWP, CORBWP
  | CORBRP, CORBRP | CORBCTL, CORBCTL | CORBSTS, CORBSTS
  | CORBSIZE, CORBSIZE | RIRBLBASE, RIRBLBASE | RIRBUBASE, RIRBUBASE
  | RIRBWP, RIRBWP | RINTCNT, RINTCNT | RIRBCTL, RIRBCTL
  | RIRBSTS, RIRBSTS | RIRBSIZE, RIRBSIZE => true
  | _, _ => false
  end.

(** ** Constants and macros of the headers

    The register bit definitions, the field extractors of GCAP, the ring
    footprints, the pool bounds and the sizes of a few types are declared
    in headers ([intel-hda-registers.h], [intel-hda-controller.h],
    [intel-hda-stream.h], the bind macros) that the routines only use.
    They are parameters of the development. *)
Record Header : Type := mkHeader {
  HDA_REG_GCTL_HWINIT : Z;
  HDA_REG_CORBRP_RST : Z;
  HDA_REG_RIRBWP_RST : Z;
  HDA_REG_CORBSIZE_CAP_256ENT : Z;
  HDA_REG_CORBSIZE_CAP_16ENT : Z;
  HDA_REG_CORBSIZE_CAP_2ENT : Z;
  HDA_REG_CORBSIZE_CFG_256ENT : Z;
  HDA_REG_CORBSIZE_CFG_16ENT : Z;
  HDA_REG_CORBSIZE_CFG_2ENT : Z;
  HDA_REG_CORBSTS_MEI : Z;
  HDA_REG_RIRBSTS_INTFL : Z;
  HDA_REG_RIRBSTS_OIS : Z;
  HDA_REG_CORBCTL_MEIE : Z;
  HDA_REG_CORBCTL_DMA_EN : Z;
  HDA_REG_RIRBCTL_INTCTL : Z;
  HDA_REG_RIRBCTL_DMA_EN : Z;
  HDA_REG_RIRBCTL_OIC : Z;
  HDA_REG_GCAP_ISS : Z -> Z;
  HDA_REG_GCAP_OSS : Z -> Z;
  HDA_REG_GCAP_BSS : Z -> Z;
  HDA_REG_GCAP_64OK : Z -> bool;
  HDA_CORB_MAX_BYTES : Z;
  HDA_RIRB_MAX_BYTES : Z;
  RIRB_RESERVED_RESPONSE_SLOTS : Z;
  MAX_STREAMS_PER_CONTROLLER : Z;   (* = countof(regs_->stream_desc) *)
  sizeof_IntelHDABDLEntry : Z;
  MAX_BDL_LENGTH : Z;
  sizeof_all_regs : Z;              (* sizeof(hda_all_registers_t) *)
  sizeof_debug_tag : Z;             (* sizeof(debug_tag_) *)
  BIND_PCI_BDF_UNPACK_BUS : Z -> Z;
  BIND_PCI_BDF_UNPACK_DEV : Z -> Z;
  BIND_PCI_BDF_UNPACK_FUNC : Z -> Z;
  MX_PROTOCOL_IHDA : Z;
  MX_HANDLE_INVALID : Z
}.

(** Constants of the anonymous namespace of the source file. *)
Definition INTEL_HDA_RESET_HOLD_TIME_NSEC : Z := 100000.
Definition INTEL_HDA_RESET_TIMEOUT_NSEC : Z := 1000000.
Definition INTEL_HDA_RING_BUF_RESET_TIMEOUT_NSEC : Z := 1000000.
Definition INTEL_HDA_RESET_POLL_TIMEOUT_NSEC : Z := 10000.
Definition INTEL_HDA_CODEC_DISCOVERY_WAIT_NSEC : Z := 521000.
Definition CMD_BUFFER_SIZE : Z := 4096.

(** ** Data of the controller *)

Inductive State : Type := UNINITIALIZED | OPERATING | SHUTTING_DOWN | SHUT_DOWN.

Inductive StreamType : Type := INPUT | OUTPUT | BIDIR.

(** The arguments the constructor of [IntelHDAStream] is given. *)
Record IntelHDAStream : Type := mkStream {
  stream_type : StreamType;
  stream_id : Z;        (* uint16_t, 1-based *)
  stream_regs : Z;      (* index of the slot of regs_->stream_desc *)
  bdl_phys : Z;
  bdl_virt : Z
}.

(** The two physically contiguous allocations the controller owns. *)
Inductive mem_id : Type := BDL_MEM | CMD_BUF_MEM.

Record ContigPhysMem : Type := mkMem {
  mem_size : Z;
  mem_phys : Z;
  mem_virt : Z
}.

Inductive irq_mode : Type := MX_PCIE_IRQ_MODE_MSI | MX_PCIE_IRQ_MODE_LEGACY.

(** The device node handed to the device framework; its [protocol_ops] is
    always null. *)
Record mx_device : Type := mkDevice {
  dev_name : string;
  dev_protocol_id : Z;
  dev_ctx : bool        (* ctx points back to the controller *)
}.

Record IntelHDAController : Type := mkController {
  pci_dev_ : option Z;
  pci_proto_ : option Z;
  irq_handle_ : Z;
  regs_handle_ : Z;
  msi_irq_ : bool;
  regs_ : option Z;
  debug_tag_ : string;
  id_ : Z;
  state_ : State;
  bdl_mem_ : ContigPhysMem;
  all_streams_ : list (option IntelHDAStream);
  free_streams_ : list IntelHDAStream;
  cmd_buf_mem_ : ContigPhysMem;
  rirb_rd_ptr_ : Z;
  corb_entry_count_ : Z;
  rirb_entry_count_ : Z;
  corb_mask_ : Z;
  rirb_mask_ : Z;
  corb_max_in_flight_ : Z;
  corb_space_ : Z;
  corb_ : Z;
  rirb_ : Z;
  dev_node_ : mx_device;
  irq_thread_started_ : bool
}.

Definition set_pci_dev_ (x : option Z) (c : IntelHDAController) : IntelHDAController :=
  mkController x (pci_proto_ c) (irq_handle_ c) (regs_handle_ c) (msi_irq_ c)
    (regs_ c) (debug_tag_ c) (id_ c) (state_ c) (bdl_mem_ c) (all_streams_ c)
    (free_streams_ c) (cmd_buf_mem_ c) (rirb_rd_ptr_ c) (corb_entry_count_ c)
    (rirb_entry_count_ c) (corb_mask_ c) (rirb_mask_ c)
    (corb_max_in_flight_ c) (corb_space_ c) (corb_ c) (rirb_ c) (dev_node_ c)
    (irq_thread_started_ c).
Definition set_pci_proto_ (x : option Z) (c : IntelHDAController) : IntelHDAController :=
  mkController (pci_dev_ c) x (irq_handle_ c) (regs_handle_ c) (msi_irq_ c)
    (regs_ c) (debug_tag_ c) (id_ c) (state_ c) (bdl_mem_ c) (all_streams_ c)
    (free_streams_ c) (cmd_buf_mem_ c) (rirb_rd_ptr_ c) (corb_entry_count_ c)
    (rirb_entry_count_ c) (corb_mask_ c) (rirb_mask_ c)
    (corb_max_in_flight_ c) (corb_space_ c) (corb_ c) (rirb_ c) (dev_node_ c)
    (irq_thread_started_ c).
Definition set_irq_handle_ (x : Z) (c : IntelHDAController) : IntelHDAController :=
  mkController (pci_dev_ c) (pci_proto_ c) x (regs_handle_ c) (msi_irq_ c)
    (regs_ c) (debug_tag_ c) (id_ c) (state_ c) (bdl_mem_ c) (all_streams_ c)
    (free_streams_ c) (cmd_buf_mem_ c) (rirb_rd_ptr_ c) (corb_entry_count_ c)
    (rirb_entry_count_ c) (corb_mask_ c) (rirb_mask_ c)
    (corb_max_in_flight_ c) (corb_space_ c) (corb_ c) (rirb_ c) (dev_node_ c)
    (irq_thread_started_ c).
Definition set_regs_handle_ (x : Z) (c : IntelHDAController) : IntelHDAController :=
  mkController (pci_dev_ c) (pci_proto_ c) (irq_handle_ c) x (msi_irq_ c)
    (regs_ c) (debug_tag_ c) (id_ c) (state_ c) (bdl_mem_ c) (all_streams_ c)
    (free_streams_ c) (cmd_buf_mem_ c) (rirb_rd_ptr_ c) (corb_entry_count_ c)
    (rirb_entry_count_ c) (corb_mask_ c) (rirb_mask_ c)
    (corb_max_in_flight_ c) (corb_space_ c) (corb_ c) (rirb_ c) (dev_node_ c)
    (irq_thread_started_ c).
Definition set_msi_irq_ (x : bool) (c : IntelHDAController) : IntelHDAController :=
  mkController (pci_dev_ c) (pci_proto_ c) (irq_handle_ c) (regs_handle_ c) x
    (regs_ c) (debug_tag_ c) (id_ c) (state_ c) (bdl_mem_ c) (all_streams_ c)
    (free_streams_ c) (cmd_buf_mem_ c) (rirb_rd_ptr_ c) (corb_entry_count_ c)
    (rirb_entry_count_ c) (corb_mask_ c) (rirb_mask_ c)
    (corb_max_in_flight_ c) (corb_space_ c) (corb_ c) (rirb_ c) (dev_node_ c)
    (irq_thread_started_ c).
Definition set_regs_ (x : option Z) (c : IntelHDAController) : IntelHDAController :=
  mkController (pci_dev_ c) (pci_proto_ c) (irq_handle_ c) (regs_handle_ c)
    (msi_irq_ c) x (debug_tag_ c) (id_ c) (state_ c) (bdl_mem_ c)
    (all_streams_ c) (free_streams_ c) (cmd_buf_mem_ c) (rirb_rd_ptr_ c)
    (corb_entry_count_ c) (rirb_entry_count_ c) (corb_mask_ c) (rirb_mask_ c)
    (corb_max_in_flight_ c) (corb_space_ c) (corb_ c) (rirb_ c) (dev_node_ c)
    (irq_thread_started_ c).
Definition set_debug_tag_ (x : string) (c : IntelHDAController) : IntelHDAController :=
  mkController (pci_dev_ c) (pci_proto_ c) (irq_handle_ c) (regs_handle_ c)
    (msi_irq_ c) (regs_ c) x (id_ c) (state_ c) (bdl_mem_ c) (all_streams_ c)
    (free_streams_ c) (cmd_buf_mem_ c) (rirb_rd_ptr_ c) (corb_entry_count_ c)
    (rirb_entry_count_ c) (corb_mask_ c) (rirb_mask_ c)
    (corb_max_in_flight_ c) (corb_space_ c) (corb_ c) (rirb_ c) (dev_node_ c)
    (irq_thread_started_ c).
Definition set_id_ (x : Z) (c : IntelHDAController) : IntelHDAController :=
  mkController (pci_dev_ c) (pci_proto_ c) (irq_handle_ c) (regs_handle_ c)
    (msi_irq_ c) (regs_ c) (debug_tag_ c) x (state_ c) (bdl_mem_ c)
    (all_streams_ c) (free_streams_ c) (cmd_buf_mem_ c) (rirb_rd_ptr_ c)
    (corb_entry_count_ c) (rirb_entry_count_ c) (corb_mask_ c) (rirb_mask_ c)
    (corb_max_in_flight_ c) (corb_space_ c) (corb_ c) (rirb_ c) (dev_node_ c)
    (irq_thread_started_ c).
Definition set_state_ (x : State) (c : IntelHDAController) : IntelHDAController :=
  mkController (pci_dev_ c) (pci_proto_ c) (irq_handle_ c) (regs_handle_ c)
    (msi_irq_ c) (regs_ c) (debug_tag_ c) (id_ c) x (bdl_mem_ c)
    (all_streams_ c) (free_streams_ c) (cmd_buf_mem_ c) (rirb_rd_ptr_ c)
    (corb_entry_count_ c) (rirb_entry_count_ c) (corb_mask_ c) (rirb_mask_ c)
    (corb_max_in_flight_ c) (corb_space_ c) (corb_ c) (rirb_ c) (dev_node_ c)
    (irq_thread_started_ c).
Definition set_bdl_mem_ (x : ContigPhysMem) (c : IntelHDAController) : IntelHDAController :=
  mkController (pci_dev_ c) (pci_proto_ c) (irq_handle_ c) (regs_handle_ c)
    (msi_irq_ c) (regs_ c) (debug_tag_ c) (id_ c) (state_ c) x
    (all_streams_ c) (free_streams_ c) (cmd_buf_mem_ c) (rirb_rd_ptr_ c)
    (corb_entry_count_ c) (rirb_entry_count_ c) (corb_mask_ c) (rirb_mask_ c)
    (corb_max_in_flight_ c) (corb_space_ c) (corb_ c) (rirb_ c) (dev_node_ c)
    (irq_thread_started_ c).
Definition set_all_streams_ (x : list (option IntelHDAStream)) (c : IntelHDAController) : IntelHDAController :=
  mkController (pci_dev_ c) (pci_proto_ c) (irq_handle_ c) (regs_handle_ c)
    (msi_irq_ c) (regs_ c) (debug_tag_ c) (id_ c) (state_ c) (bdl_mem_ c) x
    (free_streams_ c) (cmd_buf_mem_ c) (rirb_rd_ptr_ c) (corb_entry_count_ c)
    (rirb_entry_count_ c) (corb_mask_ c) (rirb_mask_ c)
    (corb_max_in_flight_ c) (corb_space_ c) (corb_ c) (rirb_ c) (dev_node_ c)
    (irq_thread_started_ c).
Definition set_free_streams_ (x : list IntelHDAStream) (c : IntelHDAController) : IntelHDAController :=
  mkController (pci_dev_ c) (pci_proto_ c) (irq_handle_ c) (regs_handle_ c)
    (msi_irq_ c) (regs_ c) (debug_tag_ c) (id_ c) (state_ c) (bdl_mem_ c)
    (all_streams_ c) x (cmd_buf_mem_ c) (rirb_rd_ptr_ c) (corb_entry_count_ c)
    (rirb_entry_count_ c) (corb_mask_ c) (rirb_mask_ c)
    (corb_max_in_flight_ c) (corb_space_ c) (corb_ c) (rirb_ c) (dev_node_ c)
    (irq_thread_started_ c).
Definition set_cmd_buf_mem_ (x : ContigPhysMem) (c : IntelHDAController) : IntelHDAController :=
  mkController (pci_dev_ c) (pci_proto_ c) (irq_handle_ c) (regs_handle_ c)
    (msi_irq_ c) (regs_ c) (debug_tag_ c) (id_ c) (state_ c) (bdl_mem_ c)
    (all_streams_ c) (free_streams_ c) x (rirb_rd_ptr_ c)
    (corb_entry_count_ c) (rirb_entry_count_ c) (corb_mask_ c) (rirb_mask_ c)
    (corb_max_in_flight_ c) (corb_space_ c) (corb_ c) (rirb_ c) (dev_node_ c)
    (irq_thread_started_ c).
Definition set_rirb_rd_ptr_ (x : Z) (c : IntelHDAController) : IntelHDAController :=
  mkController (pci_dev_ c) (pci_proto_ c) (irq_handle_ c) (regs_handle_ c)
    (msi_irq_ c) (regs_ c) (debug_tag_ c) (id_ c) (state_ c) (bdl_mem_ c)
    (all_streams_ c) (free_streams_ c) (cmd_buf_mem_ c) x
    (corb_entry_count_ c) (rirb_entry_count_ c) (corb_mask_ c) (rirb_mask_ c)
    (corb_max_in_flight_ c) (corb_space_ c) (corb_ c) (rirb_ c) (dev_node_ c)
    (irq_thread_started_ c).
Definition set_corb_entry_count_ (x : Z) (c : IntelHDAController) : IntelHDAController :=
  mkController (pci_dev_ c) (pci_proto_ c) (irq_handle_ c) (regs_handle_ c)
    (msi_irq_ c) (regs_ c) (debug_tag_ c) (id_ c) (state_ c) (bdl_mem_ c)
    (all_streams_ c) (free_streams_ c) (cmd_buf_mem_ c) (rirb_rd_ptr_ c) x
    (rirb_entry_count_ c) (corb_mask_ c) (rirb_mask_ c)
    (corb_max_in_flight_ c) (corb_space_ c) (corb_ c) (rirb_ c) (dev_node_ c)
    (irq_thread_started_ c).
Definition set_rirb_entry_count_ (x : Z) (c : IntelHDAController) : IntelHDAController :=
  mkController (pci_dev_ c) (pci_proto_ c) (irq_handle_ c) (regs_handle_ c)
    (msi_irq_ c) (regs_ c) (debug_tag_ c) (id_ c) (state_ c) (bdl_mem_ c)
    (all_streams_ c) (free_streams_ c) (cmd_buf_mem_ c) (rirb_rd_ptr_ c)
    (corb_entry_count_ c) x (corb_mask_ c) (rirb_mask_ c)
    (corb_max_in_flight_ c) (corb_space_ c) (corb_ c) (rirb_ c) (dev_node_ c)
    (irq_thread_started_ c).
Definition set_corb_mask_ (x : Z) (c : IntelHDAController) : IntelHDAController :=
  mkController (pci_dev_ c) (pci_proto_ c) (irq_handle_ c) (regs_handle_ c)
    (msi_irq_ c) (regs_ c) (debug_tag_ c) (id_ c) (state_ c) (bdl_mem_ c)
    (all_streams_ c) (free_streams_ c) (cmd_buf_mem_ c) (rirb_rd_ptr_ c)
    (corb_entry_count_ c) (rirb_entry_count_ c) x (rirb_mask_ c)
    (corb_max_in_flight_ c) (corb_space_ c) (corb_ c) (rirb_ c) (dev_node_ c)
    (irq_thread_started_ c).
Definition set_rirb_mask_ (x : Z) (c : IntelHDAController) : IntelHDAController :=
  mkController (pci_dev_ c) (pci_proto_ c) (irq_handle_ c) (regs_handle_ c)
    (msi_irq_ c) (regs_ c) (debug_tag_ c) (id_ c) (state_ c) (bdl_mem_ c)
    (all_streams_ c) (free_streams_ c) (cmd_buf_mem_ c) (rirb_rd_ptr_ c)
    (corb_entry_count_ c) (rirb_entry_count_ c) (corb_mask_ c) x
    (corb_max_in_flight_ c) (corb_space_ c) (corb_ c) (rirb_ c) (dev_node_ c)
    (irq_thread_started_ c).
Definition set_corb_max_in_flight_ (x : Z) (c : IntelHDAController) : IntelHDAController :=
  mkController (pci_dev_ c) (pci_proto_ c) (irq_handle_ c) (regs_handle_ c)
    (msi_irq_ c) (regs_ c) (debug_tag_ c) (id_ c) (state_ c) (bdl_mem_ c)
    (all_streams_ c) (free_streams_ c) (cmd_buf_mem_ c) (rirb_rd_ptr_ c)
    (corb_entry_count_ c) (rirb_entry_count_ c) (corb_mask_ c) (rirb_mask_ c)
    x (corb_space_ c) (corb_ c) (rirb_ c) (dev_node_ c)
    (irq_thread_started_ c).
Definition set_corb_space_ (x : Z) (c : IntelHDAController) : IntelHDAController :=
  mkController (pci_dev_ c) (pci_proto_ c) (irq_handle_ c) (regs_handle_ c)
    (msi_irq_ c) (regs_ c) (debug_tag_ c) (id_ c) (state_ c) (bdl_mem_ c)
    (all_streams_ c) (free_streams_ c) (cmd_buf_mem_ c) (rirb_rd_ptr_ c)
    (corb_entry_count_ c) (rirb_entry_count_ c) (corb_mask_ c) (rirb_mask_ c)
    (corb_max_in_flight_ c) x (corb_ c) (rirb_ c) (dev_node_ c)
    (irq_thread_started_ c).
Definition set_corb_ (x : Z) (c : IntelHDAController) : IntelHDAController :=
  mkController (pci_dev_ c) (pci_proto_ c) (irq_handle_ c) (regs_handle_ c)
    (msi_irq_ c) (regs_ c) (debug_tag_ c) (id_ c) (state_ c) (bdl_mem_ c)
    (all_streams_ c) (free_streams_ c) (cmd_buf_mem_ c) (rirb_rd_ptr_ c)
    (corb_entry_count_ c) (rirb_entry_count_ c) (corb_mask_ c) (rirb_mask_ c)
    (corb_max_in_flight_ c) (corb_space_ c) x (rirb_ c) (dev_node_ c)
    (irq_thread_started_ c).
Definition set_rirb_ (x : Z) (c : IntelHDAController) : IntelHDAController :=
  mkController (pci_dev_ c) (pci_proto_ c) (irq_handle_ c) (regs_handle_ c)
    (msi_irq_ c) (regs_ c) (debug_tag_ c) (id_ c) (state_ c) (bdl_mem_ c)
    (all_streams_ c) (free_streams_ c) (cmd_buf_mem_ c) (rirb_rd_ptr_ c)
    (corb_entry_count_ c) (rirb_entry_count_ c) (corb_mask_ c) (rirb_mask_ c)
    (corb_max_in_flight_ c) (corb_space_ c) (corb_ c) x (dev_node_ c)
    (irq_thread_started_ c).
Definition set_dev_node_ (x : mx_device) (c : IntelHDAController) : IntelHDAController :=
  mkController (pci_dev_ c) (pci_proto_ c) (irq_handle_ c) (regs_handle_ c)
    (msi_irq_ c) (regs_ c) (debug_tag_ c) (id_ c) (state_ c) (bdl_mem_ c)
    (all_streams_ c) (free_streams_ c) (cmd_buf_mem_ c) (rirb_rd_ptr_ c)
    (corb_entry_count_ c) (rirb_entry_count_ c) (corb_mask_ c) (rirb_mask_ c)
    (corb_max_in_flight_ c) (corb_space_ c) (corb_ c) (rirb_ c) x
    (irq_thread_started_ c).
Definition set_irq_thread_started_ (x : bool) (c : IntelHDAController) : IntelHDAController :=
  mkController (pci_dev_ c) (pci_proto_ c) (irq_handle_ c) (regs_handle_ c)
    (msi_irq_ c) (regs_ c) (debug_tag_ c) (id_ c) (state_ c) (bdl_mem_ c)
    (all_streams_ c) (free_streams_ c) (cmd_buf_mem_ c) (rirb_rd_ptr_ c)
    (corb_entry_count_ c) (rirb_entry_count_ c) (corb_mask_ c) (rirb_mask_ c)
    (corb_max_in_flight_ c) (corb_space_ c) (corb_ c) (rirb_ c) (dev_node_ c)
    x.

(** ** Interactions with the outside *)

(** One event per interaction, in program order. *)
Inductive event : Type :=
| EvRead (r : reg) (v : Z)            (* REG_RD and the value the device gave *)
| EvWrite (r : reg) (v : Z)           (* REG_WR *)
| EvBarrier                           (* hw_rmb *)
| EvSleep (nsec : Z)                  (* mx_nanosleep *)
| EvLog (fmt : string)               (* LOG; only the format is recorded *)
| EvAssertFailed (what : string)      (* a DEBUG_ASSERT whose condition is false *)
| EvGetDevProperty
| EvGetProtocol
| EvClaimDevice
| EvSetIrqMode (m : irq_mode)
| EvMapInterrupt
| EvMapMmio
| EvEnableBusMaster
| EvAllocate (m : mem_id) (size : Z)
| EvMap (m : mem_id)
| EvNewStream (s : IntelHDAStream) (ok : bool)
| EvDeviceInit (name : string)
| EvThrdCreate (name : string)
| EvDeviceAdd (name : string)
| EvSetState (s : State)
| EvWakeupIRQThread
| EvAddRef
| EvDeviceShutdown.

(** What the collaborators answer.  The device may answer a register read
    with any value, depending on everything that happened before. *)
Record Env : Type := mkEnv {
  hw_read : list event -> reg -> Z;
  dev_property_bdf : option Z;            (* GetDevProperty(.., BIND_PCI_BDF_ADDR, ..) *)
  get_protocol_result : mx_status * option Z;
  claim_device_result : mx_status;
  set_irq_mode_result : irq_mode -> mx_status;
  map_interrupt_result : mx_status * Z;
  map_mmio_result : mx_status * (Z * Z * Z);  (* registers, window size, handle *)
  enable_bus_master_result : mx_status;
  allocate_result : mem_id -> Z -> mx_status * Z;   (* physical address *)
  map_result : mem_id -> mx_status * Z;             (* virtual address *)
  new_stream_ok : Z -> bool;              (* AllocChecker::check() for slot i *)
  thrd_create_result : Z;
  device_add_result : mx_status
}.

(** The controller object together with the history of its interactions. *)
Record World : Type := mkWorld {
  ctl : IntelHDAController;
  trace : list event
}.

(** ** The state monad of the driver *)

(** A routine maps the world it starts from to its result and the world it
    leaves. *)
Definition M (A : Type) : Type := World -> A * World.

#[global] Instance M_ret : MRet M := fun A a w => (a, w).

#[global] Instance M_bind : MBind M :=
  fun A B k m w => let (a, w') := m w in k a w'.

(** [return a;] *)
Definition ret {A} (a : A) : M A := mret a.

(** Reading a member of the controller. *)
Definition gets {A} (f : IntelHDAController -> A) : M A :=
  fun w => (f (ctl w), w).

(** Assigning to members of the controller. *)
Definition modify (f : IntelHDAController -> IntelHDAController) : M unit :=
  fun w => (tt, mkWorld (f (ctl w)) (trace w)).

(** An interaction with the outside: one more event, at the end. *)
Definition emit (e : event) : M unit :=
  fun w => (tt, mkWorld (ctl w) (trace w ++ [e])).

(** [if (b) m;] *)
Definition when (b : bool) (m : M unit) : M unit :=
  if b then m else ret tt.

(** Modelled from the spec: [LOG] is a macro of the absent
    [debug-logging.h]; failures "are logged with the specific failing
    step". *)
Definition LOG (fmt : string) : M unit := emit (EvLog fmt).

(** Modelled from the spec: [DEBUG_ASSERT] is a macro of an absent header,
    one of the "explicit consistency assertions".  A failed assertion is
    recorded; execution goes on as in a build without debug assertions. *)
Definition DEBUG_ASSERT (cond : bool) (what : string) : M unit :=
  when (negb cond) (emit (EvAssertFailed what)).

(** Modelled from the spec: [hw_rmb] comes from the absent [hw/arch_ops.h],
    "an explicit hardware read/write memory barrier". *)
Definition hw_rmb : M unit := emit EvBarrier.

(** Modelled from the spec: [mx_nanosleep] is a system call; the caller
    "may block for bounded durations inside ... the two mandated sleeps". *)
Definition mx_nanosleep (nsec : Z) : M unit := emit (EvSleep nsec).

Section Model.

Context (K : Header) (E : Env).

(** Modelled from the spec: [REG_RD] is a helper of the absent [utils.h];
    "all reads/writes are volatile".  The device answers, the answer is
    recorded.  Where the source assigns the value to a narrower variable
    the caller truncates it. *)
Definition REG_RD (r : reg) : M Z :=
  fun w => let v := hw_read E (trace w) r in
           (v, mkWorld (ctl w) (trace w ++ [EvRead r v])).

(** Modelled from the spec: [REG_WR] is a helper of the absent [utils.h];
    a volatile store of [v] to the register. *)
Definition REG_WR (r : reg) (v : Z) : M unit := emit (EvWrite r v).

(** Modelled from the spec: [REG_CLR_BITS] is a helper of the absent
    [utils.h]; "clear the hardware-init control bit" is a read-modify-write
    of the register that clears the given bits only.  It is used at type
    [uint32_t]. *)
Definition REG_CLR_BITS (r : reg) (bits : Z) : M unit :=
  v ← REG_RD r; REG_WR r (u32 (Z.land v (Z.lnot bits))).

(** Modelled from the spec: [REG_SET_BITS] is a helper of the absent
    [utils.h]; "set the bit" is a read-modify-write of the register that
    sets the given bits only.  It is used at type [uint32_t]. *)
Definition REG_SET_BITS (r : reg) (bits : Z) : M unit :=
  v ← REG_RD r; REG_WR r (u32 (Z.lor v bits)).

(** Modelled from the spec: the waits of [WaitCondition] between two
    evaluations of its predicate: the poll interval, as often as it fits
    the timeout, then what is left of the timeout, so that the wait "never
    blocks the caller past the stated timeout". *)
Definition poll_schedule (timeout poll : Z) : list Z :=
  if poll <=? 0 then []
  else replicate (Z.to_nat (timeout / poll)) poll
       ++ (if timeout mod poll =? 0 then [] else [timeout mod poll]).

(** Modelled from the spec: the loop of [WaitCondition], "repeatedly
    evaluate the predicate at the poll interval until it is true or the
    total timeout elapses". *)
Fixpoint WaitCondition_loop (sched : list Z) (cond : M bool) : M mx_status :=
  b ← cond;
  if b : bool then ret NO_ERROR
  else match sched with
       | [] => ret ERR_TIMED_OUT
       | s :: sched' => mx_nanosleep s ;; WaitCondition_loop sched' cond
       end.

(** Modelled from the spec: [WaitCondition] is a helper of the absent
    [utils.h].  "Parameters: total timeout, poll interval, a predicate over
    the register block"; it "returns success or a timeout failure". *)
Definition WaitCondition (timeout poll : Z) (cond : M bool) : M mx_status :=
  WaitCondition_loop (poll_schedule timeout poll) cond.

(** *** ResetControllerHW *)

Definition gctl_hwinit_clear : M bool :=
  v ← REG_RD GCTL; ret (Z.land v (HDA_REG_GCTL_HWINIT K) =? 0).

Definition gctl_hwinit_set : M bool :=
  v ← REG_RD GCTL; ret (negb (Z.land v (HDA_REG_GCTL_HWINIT K) =? 0)).

Definition ResetControllerHW : M mx_status :=
  (* Assert the reset signal and wait for the controller to ack. *)
  REG_CLR_BITS GCTL (HDA_REG_GCTL_HWINIT K) ;;
  hw_rmb ;;
  res ← WaitCondition INTEL_HDA_RESET_TIMEOUT_NSEC
                       INTEL_HDA_RESET_POLL_TIMEOUT_NSEC
                       gctl_hwinit_clear;
  res ← (if is_ok res then
            (* Wait the spec mandated hold time. *)
            mx_nanosleep INTEL_HDA_RESET_HOLD_TIME_NSEC ;;
            (* Deassert the reset signal and wait for the controller to ack. *)
            REG_SET_BITS GCTL (HDA_REG_GCTL_HWINIT K) ;;
            hw_rmb ;;
            res ← WaitCondition INTEL_HDA_RESET_TIMEOUT_NSEC
                                 INTEL_HDA_RESET_POLL_TIMEOUT_NSEC
                                 gctl_hwinit_set;
            if is_ok res then
              (* Wait the spec mandated discovery time. *)
              mx_nanosleep INTEL_HDA_CODEC_DISCOVERY_WAIT_NSEC ;; ret res
            else ret res
          else ret res);
  (* finished: *)
  match res with
  | ERR_TIMED_OUT => LOG "Timeout during reset\n" ;; ret res
  | _ => ret res
  end.

(** *** ResetCORBRdPtrLocked *)

Definition corbrp_rst_set : M bool :=
  v ← REG_RD CORBRP; ret (negb (Z.land v (HDA_REG_CORBRP_RST K) =? 0)).

Definition corbrp_rst_clear : M bool :=
  v ← REG_RD CORBRP; ret (Z.land v (HDA_REG_CORBRP_RST K) =? 0).

Definition ResetCORBRdPtrLocked : M mx_status :=
  (* Set the reset bit, then wait for ack from the HW. *)
  REG_WR CORBRP (HDA_REG_CORBRP_RST K) ;;
  res ← WaitCondition INTEL_HDA_RING_BUF_RESET_TIMEOUT_NSEC
                       INTEL_HDA_RESET_POLL_TIMEOUT_NSEC
                       corbrp_rst_set;
  if negb (is_ok res) then ret res else
  (* Clear the reset bit, then wait for ack *)
  REG_WR CORBRP 0 ;;
  res ← WaitCondition INTEL_HDA_RING_BUF_RESET_TIMEOUT_NSEC
                       INTEL_HDA_RESET_POLL_TIMEOUT_NSEC
                       corbrp_rst_clear;
  if negb (is_ok res) then ret res else
  ret NO_ERROR.

(** *** SetupCommandBufferSize *)

(** The [unsigned int*] the routine stores the entry count through: it is
    called on [&corb_entry_count_] and on [&rirb_entry_count_]. *)
Inductive entry_count_ptr : Type := corb_entry_count_ptr | rirb_entry_count_ptr.

Definition load (p : entry_count_ptr) (c : IntelHDAController) : Z :=
  match p with
  | corb_entry_count_ptr => corb_entry_count_ c
  | rirb_entry_count_ptr => rirb_entry_count_ c
  end.

Definition store (p : entry_count_ptr) (v : Z) : M unit :=
  match p with
  | corb_entry_count_ptr => modify (set_corb_entry_count_ v)
  | rirb_entry_count_ptr => modify (set_rirb_entry_count_ v)
  end.

Definition SetupCommandBufferSize (size_reg : reg) (entry_count : entry_count_ptr)
  : M mx_status :=
  raw ← REG_RD size_reg;
  let tmp := u8 raw in
  cmd ← (if test_bits tmp (HDA_REG_CORBSIZE_CAP_256ENT K) then
            store entry_count 256 ;;
            ret (Some (u8 (HDA_REG_CORBSIZE_CFG_256ENT K)))
          else if test_bits tmp (HDA_REG_CORBSIZE_CAP_16ENT K) then
            store entry_count 16 ;;
            ret (Some (u8 (HDA_REG_CORBSIZE_CFG_16ENT K)))
          else if test_bits tmp (HDA_REG_CORBSIZE_CAP_2ENT K) then
            store entry_count 2 ;;
            ret (Some (u8 (HDA_REG_CORBSIZE_CFG_2ENT K)))
          else
            LOG "Invalid ring buffer capabilities! (0x%02x)\n" ;;
            ret None);
  match cmd with
  | None => ret ERR_BAD_STATE
  | Some cmd => REG_WR size_reg cmd ;; ret NO_ERROR
  end.

(** *** Physically contiguous memory *)

Definition mem_of (m : mem_id) (c : IntelHDAController) : ContigPhysMem :=
  match m with BDL_MEM => bdl_mem_ c | CMD_BUF_MEM => cmd_buf_mem_ c end.

Definition set_mem (m : mem_id) (x : ContigPhysMem) : M unit :=
  match m with
  | BDL_MEM => modify (set_bdl_mem_ x)
  | CMD_BUF_MEM => modify (set_cmd_buf_mem_ x)
  end.

(** Modelled from the spec: the class of [bdl_mem_] and [cmd_buf_mem_] is
    absent.  "Physical memory allocator (external): provides
    physically-contiguous, mappable DMA buffers on request by byte size";
    the owned resource is "{physical address, mapped address, byte length}".
    A successful [Allocate] fixes size and physical address. *)
Definition Allocate (m : mem_id) (size : Z) : M mx_status :=
  emit (EvAllocate m size) ;;
  let '(res, phys) := allocate_result E m size in
  if is_ok res then
    old ← gets (mem_of m);
    set_mem m (mkMem size phys (mem_virt old)) ;; ret res
  else ret res.

(** Modelled from the spec: the core "maps each [allocation] before use";
    a successful [Map] fixes the virtual address. *)
Definition Map (m : mem_id) : M mx_status :=
  emit (EvMap m) ;;
  let '(res, virt) := map_result E m in
  if is_ok res then
    old ← gets (mem_of m);
    set_mem m (mkMem (mem_size old) (mem_phys old) virt) ;; ret res
  else ret res.

(** *** SetupStreamDescriptors *)

(** Modelled from the spec: [ReturnStreamLocked] is defined in an absent
    file; it must "insert into the free pool". *)
Definition ReturnStreamLocked (s : IntelHDAStream) : M unit :=
  modify (fun c => set_free_streams_ (free_streams_ c ++ [s]) c).

Definition bdl_size : Z := u32 (sizeof_IntelHDABDLEntry K * MAX_BDL_LENGTH K).

(** The body of the [for] loop, run for the [n] remaining values of [i];
    [i] and [bdl_off] are the two [uint32_t] loop variables. *)
Fixpoint SetupStreamDescriptors_loop (n : nat) (i bdl_off : Z)
    (input_stream_cnt output_stream_cnt total_stream_cnt : Z) : M mx_status :=
  match n with
  | O => ret NO_ERROR
  | S n' =>
    let stream_id := u16 (i + 1) in
    let type := if i <? input_stream_cnt then INPUT
                else if i <? u32 (input_stream_cnt + output_stream_cnt) then OUTPUT
                else BIDIR in
    mem ← gets bdl_mem_;
    let stream := mkStream type stream_id i
                           (u64 (mem_phys mem + bdl_off))
                           (u64 (mem_virt mem + bdl_off)) in
    let ok := new_stream_ok E i in
    emit (EvNewStream stream ok) ;;
    if negb ok then
      LOG "Failed to allocate IntelHDAStream %hu/%u!\n" ;;
      ret ERR_NO_MEMORY
    else
      slots ← gets all_streams_;
      DEBUG_ASSERT (i <? Z.of_nat (length slots)) "i < countof(all_streams_)" ;;
      DEBUG_ASSERT (match slots !! Z.to_nat i with Some None => true | _ => false end)
                   "all_streams_[i] == nullptr" ;;
      modify (set_all_streams_ (<[Z.to_nat i := Some stream]> slots)) ;;
      ReturnStreamLocked stream ;;
      SetupStreamDescriptors_loop n' (u32 (i + 1)) (u32 (bdl_off + bdl_size))
                                  input_stream_cnt output_stream_cnt total_stream_cnt
  end.

Definition SetupStreamDescriptors : M mx_status :=
  (* Sanity check our stream counts. *)
  raw ← REG_RD GCAP;
  let gcap := u16 raw in
  let input_stream_cnt := u32 (HDA_REG_GCAP_ISS K gcap) in
  let output_stream_cnt := u32 (HDA_REG_GCAP_OSS K gcap) in
  let bidir_stream_cnt := u32 (HDA_REG_GCAP_BSS K gcap) in
  let total_stream_cnt := u32 (input_stream_cnt + output_stream_cnt + bidir_stream_cnt) in
  if (total_stream_cnt =? 0) || (total_stream_cnt >? MAX_STREAMS_PER_CONTROLLER K) then
    LOG "Invalid stream counts in GCAP register (In %u Out %u Bidir %u; Max %zu)\n" ;;
    ret ERR_INTERNAL
  else
  (* Allocate and map storage for our buffer descriptor lists. *)
  let total_bdl_size := u32 (bdl_size * total_stream_cnt) in
  res ← Allocate BDL_MEM total_bdl_size;
  if negb (is_ok res) then
    LOG ("Failed to allocate %u bytes of contiguous physical memory for "
         +:+ "buffer descriptor lists!  (res %d)\n") ;;
    ret res
  else
  (* Map the memory in so that we can access it. *)
  res ← Map BDL_MEM;
  if negb (is_ok res) then
    LOG "Failed to map BDL memory!  (res %d)\n" ;;
    ret res
  else
  (* Allocate our stream descriptors and populate our free lists. *)
  SetupStreamDescriptors_loop (Z.to_nat total_stream_cnt) 0 0
                              input_stream_cnt output_stream_cnt total_stream_cnt.

(** *** SetupCommandBuffer *)

(** Modelled from the spec: [OR] is a helper of the absent [utils.h]; the
    control registers "use a DMA-enable bit and an interrupt-enable bit",
    combined bitwise. *)
Definition OR (a b : Z) : Z := Z.lor a b.

(** Modelled from the spec: [ComputeCORBSpaceLocked] is defined in an absent
    file.  "Compute remaining CORB free space from the current cursor pair
    (capacity minus in-flight slots, modulo capacity)." *)
Definition ComputeCORBSpaceLocked : M unit :=
  wp ← REG_RD CORBWP;
  rp ← REG_RD CORBRP;
  modify (fun c =>
    let capacity := corb_entry_count_ c in
    let in_flight := (wp - rp) mod capacity in
    set_corb_space_ ((capacity - in_flight) mod capacity) c).

(** Lines 304-350: allocate and map the command buffer, stop both rings,
    reset their pointers, negotiate the ring sizes. *)
Definition SetupCommandBuffer_rings : M mx_status :=
  (* Allocate our command buffer memory and map it into our address space. *)
  res ← Allocate CMD_BUF_MEM CMD_BUFFER_SIZE;
  if negb (is_ok res) then
    LOG "Failed to allocate %zu bytes for CORB/RIRB command buffers! (res %d)\n" ;;
    ret res
  else
  (* Now map it so we have access as well. *)
  res ← Map CMD_BUF_MEM;
  if negb (is_ok res) then
    LOG "Failed to map CORB/RIRB command buffer (res %d)\n" ;;
    ret res
  else
  (* Start by making sure that the output and response ring buffers are being
     held in the stopped state *)
  REG_WR CORBCTL 0 ;;
  REG_WR RIRBCTL 0 ;;
  (* Reset the read and write pointers for both ring buffers *)
  REG_WR CORBWP 0 ;;
  res ← ResetCORBRdPtrLocked;
  if negb (is_ok res) then ret res else
  (* The HW does not expose a Response Input Ring Buffer Read Pointer,
     we have to maintain our own. *)
  modify (set_rirb_rd_ptr_ 0) ;;
  REG_WR RIRBWP (HDA_REG_RIRBWP_RST K) ;;
  mem ← gets cmd_buf_mem_;
  DEBUG_ASSERT (negb (mem_virt mem =? 0)) "cmd_buf_mem_.virt() != 0" ;;
  (* Determine the ring buffer sizes.  If there are options, make them as
     large as possible. *)
  res ← SetupCommandBufferSize CORBSIZE corb_entry_count_ptr;
  if negb (is_ok res) then ret res else
  res ← SetupCommandBufferSize RIRBSIZE rirb_entry_count_ptr;
  if negb (is_ok res) then ret res else
  ret NO_ERROR.

(** Lines 352-358: stash the masks and the in-flight bound. *)
Definition SetupCommandBuffer_masks : M unit :=
  modify (fun c => set_corb_mask_ (u32 (corb_entry_count_ c - 1)) c) ;;
  modify (fun c => set_rirb_mask_ (u32 (rirb_entry_count_ c - 1)) c) ;;
  modify (fun c =>
    set_corb_max_in_flight_
      (if rirb_mask_ c >? RIRB_RESERVED_RESPONSE_SLOTS K
       then u32 (rirb_mask_ c - RIRB_RESERVED_RESPONSE_SLOTS K)
       else 1) c) ;;
  modify (fun c =>
    set_corb_max_in_flight_ (Z.min (corb_max_in_flight_ c) (corb_mask_ c)) c).

(** Lines 362-385: program the base address registers of both rings. *)
Definition SetupCommandBuffer_bases : M mx_status :=
  mem ← gets cmd_buf_mem_;
  let cmd_buf_paddr64 := u64 (mem_phys mem) in
  gcap ← REG_RD GCAP;
  let gcap_64bit_ok := HDA_REG_GCAP_64OK K gcap in
  if negb (Z.shiftr cmd_buf_paddr64 32 =? 0) && negb gcap_64bit_ok then
    LOG "Intel HDA controller does not support 64-bit physical addressing!\n" ;;
    ret ERR_NOT_SUPPORTED
  else
  (* Section 4.4.1.1; corb ring buffer base address must be 128 byte aligned. *)
  DEBUG_ASSERT (Z.land cmd_buf_paddr64 0x7F =? 0) "!(cmd_buf_paddr64 & 0x7F)" ;;
  REG_WR CORBLBASE (u32 (Z.land cmd_buf_paddr64 0xFFFFFFFF)) ;;
  REG_WR CORBUBASE (u32 (Z.shiftr cmd_buf_paddr64 32)) ;;
  modify (set_corb_ (mem_virt mem)) ;;
  let cmd_buf_paddr64 := u64 (cmd_buf_paddr64 + HDA_CORB_MAX_BYTES K) in
  (* Section 4.4.2.2; rirb ring buffer base address must be 128 byte aligned. *)
  DEBUG_ASSERT (Z.land cmd_buf_paddr64 0x7F =? 0) "!(cmd_buf_paddr64 & 0x7F)" ;;
  REG_WR RIRBLBASE (u32 (Z.land cmd_buf_paddr64 0xFFFFFFFF)) ;;
  REG_WR RIRBUBASE (u32 (Z.shiftr cmd_buf_paddr64 32)) ;;
  modify (set_rirb_ (u64 (mem_virt mem + HDA_CORB_MAX_BYTES K))) ;;
  ret NO_ERROR.

(** The interrupt threshold of lines 401-403. *)
Definition rirb_threshold (rirb_entry_count : Z) : Z :=
  let thresh := u32 (rirb_entry_count - 1) in
  if thresh >? RIRB_RESERVED_RESPONSE_SLOTS K
  then u32 (thresh - RIRB_RESERVED_RESPONSE_SLOTS K)
  else thresh.

(** Lines 387-416: free space, interrupt threshold, status, enable. *)
Definition SetupCommandBuffer_enable : M mx_status :=
  (* Make sure our current view of the space available in the CORB is
     up-to-date. *)
  ComputeCORBSpaceLocked ;;
  (* Set the response interrupt count threshold. *)
  rirb_entry_count ← gets rirb_entry_count_;
  let thresh := rirb_threshold rirb_entry_count in
  DEBUG_ASSERT (negb (thresh =? 0)) "thresh" ;;
  REG_WR RINTCNT thresh ;;
  (* Clear out any lingering interrupt status *)
  REG_WR CORBSTS (HDA_REG_CORBSTS_MEI K) ;;
  REG_WR RIRBSTS (OR (HDA_REG_RIRBSTS_INTFL K) (HDA_REG_RIRBSTS_OIS K)) ;;
  (* Enable the TX/RX IRQs and DMA engines. *)
  REG_WR CORBCTL (OR (HDA_REG_CORBCTL_MEIE K) (HDA_REG_CORBCTL_DMA_EN K)) ;;
  REG_WR RIRBCTL (OR (OR (HDA_REG_RIRBCTL_INTCTL K) (HDA_REG_RIRBCTL_DMA_EN K))
                     (HDA_REG_RIRBCTL_OIC K)) ;;
  ret NO_ERROR.

Definition SetupCommandBuffer : M mx_status :=
  res ← SetupCommandBuffer_rings;
  if negb (is_ok res) then ret res else
  SetupCommandBuffer_masks ;;
  res ← SetupCommandBuffer_bases;
  if negb (is_ok res) then ret res else
  SetupCommandBuffer_enable.

(** *** Formatting of the tags *)

Definition pad0 (width : nat) (s : string) : string :=
  string_of_list_ascii (replicate (width - String.length s) "0"%char) +:+ s.

(** [%0<width>x] and [%0<width>u] applied to an [unsigned int]. *)
Definition fmt_x (width : nat) (v : Z) : string :=
  pad0 width (HexadecimalString.NilZero.string_of_uint (N.to_hex_uint (Z.to_N (u32 v)))).

Definition fmt_u (width : nat) (v : Z) : string :=
  pad0 width (DecimalString.NilZero.string_of_uint (N.to_uint (Z.to_N (u32 v)))).

(** [snprintf(buf, size, ...)] keeps at most [size - 1] characters. *)
Definition snprintf (size : Z) (s : string) : string :=
  String.substring 0 (Z.to_nat (size - 1)) s.

Definition bdf_debug_tag (bdf_addr : Z) : string :=
  snprintf (sizeof_debug_tag K)
    ("IHDA Controller " +:+ fmt_x 2 (BIND_PCI_BDF_UNPACK_BUS K bdf_addr)
     +:+ ":" +:+ fmt_x 2 (BIND_PCI_BDF_UNPACK_DEV K bdf_addr)
     +:+ "." +:+ fmt_x 1 (BIND_PCI_BDF_UNPACK_FUNC K bdf_addr)).

Definition unknown_bdf_debug_tag : string :=
  snprintf (sizeof_debug_tag K) "IHDA Controller (unknown BDF)".

Definition device_name_tag (id : Z) : string :=
  snprintf (sizeof_debug_tag K) ("intel-hda-" +:+ fmt_u 3 id).

(** *** SetupPCIDevice *)

Definition set_dev_ctx (b : bool) : M unit :=
  modify (fun c => set_dev_node_
    (mkDevice (dev_name (dev_node_ c)) (dev_protocol_id (dev_node_ c)) b) c).

Definition SetupPCIDevice (pci_dev : option Z) : M mx_status :=
  match pci_dev with
  | None => ret ERR_INVALID_ARGS
  | Some _ =>
  (* Have we already been set up? *)
  cur ← gets pci_dev_;
  match cur with
  | Some _ => LOG "Device already initialized!\n" ;; ret ERR_BAD_STATE
  | None =>
  c ← gets id;
  DEBUG_ASSERT (irq_handle_ c =? MX_HANDLE_INVALID K) "irq_handle_ == MX_HANDLE_INVALID" ;;
  DEBUG_ASSERT (regs_handle_ c =? MX_HANDLE_INVALID K) "regs_handle_ == MX_HANDLE_INVALID" ;;
  DEBUG_ASSERT (match pci_proto_ c with None => true | Some _ => false end)
               "pci_proto_ == nullptr" ;;
  modify (set_pci_dev_ pci_dev) ;;
  (* Fetch our BDF address and use it to generate our debug tag. *)
  emit EvGetDevProperty ;;
  match dev_property_bdf E with
  | Some bdf_addr => modify (set_debug_tag_ (bdf_debug_tag bdf_addr))
  | None => modify (set_debug_tag_ unknown_bdf_debug_tag)
  end ;;
  (* The device had better be a PCI device, or we are very confused. *)
  emit EvGetProtocol ;;
  let '(res, proto) := get_protocol_result E in
  if negb (is_ok res) then
    LOG "PCI device does not support PCI protocol! (res %d)\n" ;; ret res
  else
  modify (set_pci_proto_ proto) ;;
  (* Claim the device. *)
  DEBUG_ASSERT (match proto with None => false | Some _ => true end)
               "pci_proto_ != nullptr" ;;
  emit EvClaimDevice ;;
  let res := claim_device_result E in
  if negb (is_ok res) then
    LOG "Failed to claim PCI device! (res %d)\n" ;; ret res
  else
  (* Configure our IRQ mode and map our IRQ handle.  Try to use MSI, but if
     that fails, fall back on legacy IRQs. *)
  emit (EvSetIrqMode MX_PCIE_IRQ_MODE_MSI) ;;
  let res := set_irq_mode_result E MX_PCIE_IRQ_MODE_MSI in
  res ← (if negb (is_ok res) then
           emit (EvSetIrqMode MX_PCIE_IRQ_MODE_LEGACY) ;;
           let res := set_irq_mode_result E MX_PCIE_IRQ_MODE_LEGACY in
           if negb (is_ok res) then
             LOG "Failed to set IRQ mode (%d)!\n" ;; ret res
           else
             LOG "Falling back on legacy IRQ mode!\n" ;;
             modify (set_msi_irq_ false) ;; ret res
         else
           modify (set_msi_irq_ true) ;; ret res);
  if negb (is_ok res) then ret res else
  h ← gets irq_handle_;
  DEBUG_ASSERT (h =? MX_HANDLE_INVALID K) "irq_handle_ == MX_HANDLE_INVALID" ;;
  emit EvMapInterrupt ;;
  let '(res, irq) := map_interrupt_result E in
  if negb (is_ok res) then
    LOG "Failed to map IRQ! (res %d)\n" ;; ret res
  else
  modify (set_irq_handle_ irq) ;;
  (* Map in the registers located at BAR 0.  Make sure that they are the size
     we expect them to be. *)
  h ← gets regs_handle_;
  DEBUG_ASSERT (h =? MX_HANDLE_INVALID K) "regs_handle_ == MX_HANDLE_INVALID" ;;
  emit EvMapMmio ;;
  let '(res, (all_regs, reg_window_size, handle)) := map_mmio_result E in
  if negb (is_ok res) then
    LOG "Error attempting to map registers (res %d)\n" ;; ret res
  else
  modify (set_regs_handle_ handle) ;;
  if negb (sizeof_all_regs K =? reg_window_size) then
    LOG "Bad register window size (expected 0x%zx got 0x%PRIx64)\n" ;;
    ret ERR_INVALID_ARGS
  else
  (* Enable Bus Mastering so we can DMA data and receive MSIs *)
  emit EvEnableBusMaster ;;
  let res := enable_bus_master_result E in
  if negb (is_ok res) then
    LOG "Failed to enable PCI bus mastering!\n" ;; ret res
  else
  modify (set_regs_ (Some all_regs)) ;;
  ret NO_ERROR
  end
  end.

(** *** InitInternal and Init *)

(** Modelled from the spec: [SetState] is defined in an absent file; the
    controller "transitions to OPERATING", or to SHUT_DOWN. *)
Definition SetState (s : State) : M unit :=
  emit (EvSetState s) ;; modify (set_state_ s).

(** Modelled from the spec: [device_init] belongs to the device framework;
    the device-publication service is "given a name and protocol tag".
    It names the node. *)
Definition device_init (name : string) : M unit :=
  emit (EvDeviceInit name) ;;
  modify (fun c => set_dev_node_
    (mkDevice name (dev_protocol_id (dev_node_ c)) (dev_ctx (dev_node_ c))) c).

(** Modelled from the spec: [device_add] belongs to the device framework;
    it "publishes a handle that higher layers discover", under the name the
    node has then. *)
Definition device_add : M mx_status :=
  node ← gets dev_node_;
  emit (EvDeviceAdd (dev_name node)) ;;
  ret (device_add_result E).

(** Modelled from the spec: the core starts the interrupt worker "as a
    separate thread"; [dev_name()] is the name of the device node. *)
Definition thrd_create_with_name : M Z :=
  node ← gets dev_node_;
  emit (EvThrdCreate (dev_name node)) ;;
  ret (thrd_create_result E).

(** Lines 422-449: acquire the PCI resources, check the hardware version,
    reset the controller, set up the streams and the rings. *)
Definition InitInternal_bringup (pci_dev : option Z) : M mx_status :=
  res ← SetupPCIDevice pci_dev;
  if negb (is_ok res) then ret res else
  (* Check our hardware version *)
  major ← REG_RD VMAJ;
  minor ← REG_RD VMIN;
  if negb (1 =? u8 major) || negb (0 =? u8 minor) then
    LOG "Unexpected HW revision %d.%d!\n" ;; ret ERR_NOT_SUPPORTED
  else
  (* Completely reset the hardware *)
  res ← ResetControllerHW;
  if negb (is_ok res) then ret res else
  (* Allocate and set up our stream descriptors. *)
  res ← SetupStreamDescriptors;
  if negb (is_ok res) then ret res else
  (* Allocate and set up the codec communication ring buffers (CORB/RIRB) *)
  res ← SetupCommandBuffer;
  if negb (is_ok res) then ret res else
  ret NO_ERROR.

(** Lines 451-506: name the device node, start the IRQ thread, publish. *)
Definition InitInternal_publish : M mx_status :=
  (* Generate a device name and initialize our device structure *)
  id ← gets id_;
  modify (set_debug_tag_ (device_name_tag id)) ;;
  tag ← gets debug_tag_;
  device_init tag ;;
  modify (fun c => set_dev_node_
    (mkDevice (dev_name (dev_node_ c)) (MX_PROTOCOL_IHDA K) (dev_ctx (dev_node_ c))) c) ;;
  (* Start the IRQ thread. *)
  musl_res ← thrd_create_with_name;
  if musl_res <? 0 then
    LOG "Failed create IRQ thread! (res = %d)\n" ;;
    SetState SHUT_DOWN ;;
    ret ERR_INTERNAL
  else
  modify (set_irq_thread_started_ true) ;;
  (* Publish our device. *)
  set_dev_ctx true ;;
  res ← device_add;
  (if is_ok res then
     emit EvAddRef ;;
     SetState OPERATING ;;
     emit EvWakeupIRQThread
   else
     set_dev_ctx false) ;;
  ret res.

Definition InitInternal (pci_dev : option Z) : M mx_status :=
  res ← InitInternal_bringup pci_dev;
  if negb (is_ok res) then ret res else
  InitInternal_publish.

(** Modelled from the spec: [DeviceShutdown] is defined in an absent file.
    The orchestrator "converts a failure into a full teardown (release all
    acquired resources, transition state to SHUT_DOWN, stop the worker
    thread if started)". *)
Definition DeviceShutdown : M unit :=
  emit EvDeviceShutdown ;; modify (set_state_ SHUT_DOWN).

Definition Init (pci_dev : option Z) : M mx_status :=
  res ← InitInternal pci_dev;
  (if negb (is_ok res) then DeviceShutdown else ret tt) ;;
  ret res.

End Model.

(** ** A concrete controller

    The header parameters instantiated with the register layout of the
    Intel High Definition Audio specification, and a well-behaved device
    whose control registers read back what was last written to them.  They
    serve to run the routines on examples. *)

Definition hda_header : Header := {|
  HDA_REG_GCTL_HWINIT := 0x1;
  HDA_REG_CORBRP_RST := 0x8000;
  HDA_REG_RIRBWP_RST := 0x8000;
  HDA_REG_CORBSIZE_CAP_256ENT := 0x40;
  HDA_REG_CORBSIZE_CAP_16ENT := 0x20;
  HDA_REG_CORBSIZE_CAP_2ENT := 0x10;
  HDA_REG_CORBSIZE_CFG_256ENT := 0x2;
  HDA_REG_CORBSIZE_CFG_16ENT := 0x1;
  HDA_REG_CORBSIZE_CFG_2ENT := 0x0;
  HDA_REG_CORBSTS_MEI := 0x1;
  HDA_REG_RIRBSTS_INTFL := 0x1;
  HDA_REG_RIRBSTS_OIS := 0x4;
  HDA_REG_CORBCTL_MEIE := 0x1;
  HDA_REG_CORBCTL_DMA_EN := 0x2;
  HDA_REG_RIRBCTL_INTCTL := 0x1;
  HDA_REG_RIRBCTL_DMA_EN := 0x2;
  HDA_REG_RIRBCTL_OIC := 0x4;
  HDA_REG_GCAP_ISS := fun v => Z.land (Z.shiftr v 8) 0xF;
  HDA_REG_GCAP_OSS := fun v => Z.land (Z.shiftr v 12) 0xF;
  HDA_REG_GCAP_BSS := fun v => Z.land (Z.shiftr v 3) 0x1F;
  HDA_REG_GCAP_64OK := fun v => negb (Z.land v 1 =? 0);
  HDA_CORB_MAX_BYTES := 1024;
  HDA_RIRB_MAX_BYTES := 2048;
  RIRB_RESERVED_RESPONSE_SLOTS := 8;
  MAX_STREAMS_PER_CONTROLLER := 30;
  sizeof_IntelHDABDLEntry := 16;
  MAX_BDL_LENGTH := 32;
  sizeof_all_regs := 0x2000;
  sizeof_debug_tag := 32;
  BIND_PCI_BDF_UNPACK_BUS := fun v => Z.land (Z.shiftr v 8) 0xFF;
  BIND_PCI_BDF_UNPACK_DEV := fun v => Z.land (Z.shiftr v 3) 0x1F;
  BIND_PCI_BDF_UNPACK_FUNC := fun v => Z.land v 0x7;
  MX_PROTOCOL_IHDA := 0x49484441;
  MX_HANDLE_INVALID := 0
|}.

(** The value last written to [r] in the history [t], [d] if there is none. *)
Fixpoint last_write (r : reg) (d : Z) (t : list event) : Z :=
  match t with
  | [] => d
  | EvWrite r' v :: t' => last_write r (if reg_eqb r r' then v else d) t'
  | _ :: t' => last_write r d t'
  end.

(** A device with capability registers [gcap], [corbsize], [rirbsize]. *)
Definition sim_read (gcap corbsize rirbsize : Z) (t : list event) (r : reg) : Z :=
  match r with
  | GCAP => gcap
  | VMAJ => 1
  | VMIN => 0
  | CORBSIZE => corbsize
  | RIRBSIZE => rirbsize
  | _ => last_write r 0 t
  end.

(** A device that never acknowledges anything: every register reads [v]. *)
Definition stuck_read (v : Z) (t : list event) (r : reg) : Z := v.

Definition sim_env (read : list event -> reg -> Z) (bdf : option Z) (cmd_phys : Z)
  : Env := {|
  hw_read := read;
  dev_property_bdf := bdf;
  get_protocol_result := (NO_ERROR, Some 0x5000);
  claim_device_result := NO_ERROR;
  set_irq_mode_result := fun _ => NO_ERROR;
  map_interrupt_result := (NO_ERROR, 7);
  map_mmio_result := (NO_ERROR, (0x7000000, 0x2000, 9));
  enable_bus_master_result := NO_ERROR;
  allocate_result := fun m _ =>
    (NO_ERROR, match m with BDL_MEM => 0x200000 | CMD_BUF_MEM => cmd_phys end);
  map_result := fun m =>
    (NO_ERROR, match m with BDL_MEM => 0x8000000 | CMD_BUF_MEM => 0x9000000 end);
  new_stream_ok := fun _ => true;
  thrd_create_result := 0;
  device_add_result := NO_ERROR
|}.

(** A controller as its constructor leaves it. *)
Definition fresh_controller (K : Header) (id : Z) : IntelHDAController := {|
  pci_dev_ := None;
  pci_proto_ := None;
  irq_handle_ := MX_HANDLE_INVALID K;
  regs_handle_ := MX_HANDLE_INVALID K;
  msi_irq_ := false;
  regs_ := None;
  debug_tag_ := "";
  id_ := id;
  state_ := UNINITIALIZED;
  bdl_mem_ := mkMem 0 0 0;
  all_streams_ := replicate (Z.to_nat (MAX_STREAMS_PER_CONTROLLER K)) None;
  free_streams_ := [];
  cmd_buf_mem_ := mkMem 0 0 0;
  rirb_rd_ptr_ := 0;
  corb_entry_count_ := 0;
  rirb_entry_count_ := 0;
  corb_mask_ := 0;
  rirb_mask_ := 0;
  corb_max_in_flight_ := 0;
  corb_space_ := 0;
  corb_ := 0;
  rirb_ := 0;
  dev_node_ := mkDevice "" 0 false;
  irq_thread_started_ := false
|}.

Definition fresh_world (K : Header) (id : Z) : World :=
  mkWorld (fresh_controller K id) [].

(** The device of the end-to-end scenario: 16-entry CORB, 256-entry RIRB,
    4 input, 4 output and no bidirectional streams, 64-bit capable. *)
Definition demo_env : Env :=
  sim_env (sim_read 0x4401 0x20 0x40) (Some 0x00D8) 0x100000.

(** The controller with id 0, before Init. *)
Definition demo_world : World := fresh_world hda_header 0.

(** The same device behind a controller without 64-bit addressing, with the
    command buffer above 4 GiB. *)
Definition high_env_32 : Env :=
  sim_env (sim_read 0x4400 0x20 0x40) (Some 0x00D8) 0x100000080.

(** The 64-bit capable device with the command buffer above 4 GiB. *)
Definition high_env_64 : Env :=
  sim_env (sim_read 0x4401 0x20 0x40) (Some 0x00D8) 0x100000080.

(** A device whose bus address is not known. *)
Definition anonymous_env : Env :=
  sim_env (sim_read 0x4401 0x20 0x40) None 0x100000.

(** A device that holds HWINIT set for ever. *)
Definition stuck_env : Env := sim_env (stuck_read 1) (Some 0x00D8) 0x100000.

(** A device that reports no streams at all. *)
Definition no_stream_env : Env :=
  sim_env (sim_read 0x0001 0x20 0x40) (Some 0x00D8) 0x100000.

(** A device that reports 15 input, 15 output and 1 bidirectional stream. *)
Definition many_stream_env : Env :=
  sim_env (sim_read 0xFF09 0x20 0x40) (Some 0x00D8) 0x100000.

(** A size register that offers nothing. *)
Definition no_ring_env : Env :=
  sim_env (sim_read 0x4401 0x00 0x40) (Some 0x00D8) 0x100000.

(** A controller that has been through Init once. *)
Definition initialized_world : World :=
  (Init hda_header demo_env (Some 1) demo_world).2.

(** * Vocabulary of the properties

    What the theorems say about a run is phrased with the notions below:
    which events a stretch of trace contains, what a polling wait looks
    like, which descriptors the pool is to hold. *)

(** ** Stretches of trace *)

(** [e] is a write to one of the registers [rs]. *)
Definition writes_to (rs : list reg) (e : event) : bool :=
  match e with
  | EvWrite r _ => existsb (reg_eqb r) rs
  | _ => false
  end.

(** The writes a stretch of trace makes to the registers [rs], in order. *)
Definition written (rs : list reg) (d : list event) : list (reg * Z) :=
  omap (fun e => match e with
                 | EvWrite r v => if existsb (reg_eqb r) rs then Some (r, v) else None
                 | _ => None
                 end) d.

(** [e] is not a write to one of the registers [rs]. *)
Definition no_write_to (rs : list reg) (e : event) : bool := negb (writes_to rs e).

(** The four base address registers of the two rings. *)
Definition base_regs : list reg := [CORBLBASE; CORBUBASE; RIRBLBASE; RIRBUBASE].




(** ** Frames: what a routine leaves alone

    [preserves f ok m]: running [m] keeps the component [f] of the
    controller and adds to the trace only events accepted by [ok]. *)

Definition preserves {B A : Type} (f : IntelHDAController -> B) (ok : event -> bool)
    (m : M A) : Prop :=
  forall w, f (ctl (m w).2) = f (ctl w) /\
            exists d, trace (m w).2 = trace w ++ d /\ forallb ok d = true.

(** ** Polling waits *)

(** A polling wait on register [r] for the condition [p], following the
    schedule [sched]: reads that fail [p], each followed by the next wait of
    the schedule, ended by a read that satisfies [p] (success) or, once the
    schedule is used up, by a last failing read (timeout). *)
Inductive polled (r : reg) (p : Z -> bool)
  : list Z -> list event -> mx_status -> Prop :=
| polled_hit sched v :
    p v = true -> polled r p sched [EvRead r v] NO_ERROR
| polled_timeout v :
    p v = false -> polled r p [] [EvRead r v] ERR_TIMED_OUT
| polled_wait s sched v d res :
    p v = false -> polled r p sched d res ->
    polled r p (s :: sched) (EvRead r v :: EvSleep s :: d) res.

(** ** Rings and streams *)

(** The entry counts a ring can have. *)
Definition ring_sizes : list Z := [256; 16; 2].

(** The fields the ring negotiation and the mask computation decide. *)
Definition ring_fields (c : IntelHDAController) : Z * Z * Z * Z * Z :=
  (corb_entry_count_ c, rirb_entry_count_ c, corb_mask_ c, rirb_mask_ c,
   corb_max_in_flight_ c).

(** Equality of stream types. *)
Definition StreamType_eqb (a b : StreamType) : bool :=
  match a, b with
  | INPUT, INPUT | OUTPUT, OUTPUT | BIDIR, BIDIR => true
  | _, _ => false
  end.

(** How many descriptors of a list have type [t]. *)
Definition count_type (t : StreamType) (l : list IntelHDAStream) : Z :=
  Z.of_nat (length (List.filter (fun s => StreamType_eqb (stream_type s) t) l)).

(** The type of slot [i], in the words of the design: INPUT if
    [i < input], OUTPUT if [i < input + output], else BIDIR. *)
Definition classify (input output i : Z) : StreamType :=
  if i <? input then INPUT
  else if i <? input + output then OUTPUT
  else BIDIR.

Section Vocabulary.

Context (K : Header) (E : Env).

(** The three ring sizes with their capability bit and configuration code,
    as the register layout pairs them. *)
Definition ring_size_options : list (Z * Z * Z) :=
  [ (256, HDA_REG_CORBSIZE_CAP_256ENT K, HDA_REG_CORBSIZE_CFG_256ENT K);
    (16, HDA_REG_CORBSIZE_CAP_16ENT K, HDA_REG_CORBSIZE_CFG_16ENT K);
    (2, HDA_REG_CORBSIZE_CAP_2ENT K, HDA_REG_CORBSIZE_CFG_2ENT K) ].

(** The register value [tmp] offers [n] entries, configured by code [cfg]. *)
Definition offered (tmp n cfg : Z) : Prop :=
  exists cap, In (n, cap, cfg) ring_size_options /\ Z.land tmp cap <> 0.

(** The predicate of a wait: read [r] and test the value with [p]. *)
Definition reads (r : reg) (p : Z -> bool) : M bool :=
  v ← REG_RD E r; ret (p v).

(** The two conditions ResetControllerHW waits for. *)
Definition hwinit_clear (v : Z) : bool := Z.land v (HDA_REG_GCTL_HWINIT K) =? 0.
Definition hwinit_set (v : Z) : bool := negb (Z.land v (HDA_REG_GCTL_HWINIT K) =? 0).

(** The waits of a reset poll: 100 times 10 us. *)
Definition reset_schedule : list Z :=
  poll_schedule INTEL_HDA_RESET_TIMEOUT_NSEC INTEL_HDA_RESET_POLL_TIMEOUT_NSEC.

(** The first four steps, up to the end of the first wait. *)
Definition reset_asserted (v0 : Z) (d1 : list event) : list event :=
  [EvRead GCTL v0; EvWrite GCTL (u32 (Z.land v0 (Z.lnot (HDA_REG_GCTL_HWINIT K))));
   EvBarrier] ++ d1.

(** The hold time and the next three steps, up to the end of the second wait. *)
Definition reset_deasserted (v1 : Z) (d2 : list event) : list event :=
  [EvSleep INTEL_HDA_RESET_HOLD_TIME_NSEC;
   EvRead GCTL v1; EvWrite GCTL (u32 (Z.lor v1 (HDA_REG_GCTL_HWINIT K)));
   EvBarrier] ++ d2.

(** The three ways a reset can go. *)
Inductive reset_run : list event -> mx_status -> Prop :=
| reset_complete v0 d1 v1 d2 :
    polled GCTL hwinit_clear reset_schedule d1 NO_ERROR ->
    polled GCTL hwinit_set reset_schedule d2 NO_ERROR ->
    reset_run (reset_asserted v0 d1 ++ reset_deasserted v1 d2
               ++ [EvSleep INTEL_HDA_CODEC_DISCOVERY_WAIT_NSEC]) NO_ERROR
| reset_timeout_asserting v0 d1 :
    polled GCTL hwinit_clear reset_schedule d1 ERR_TIMED_OUT ->
    reset_run (reset_asserted v0 d1 ++ [EvLog "Timeout during reset\n"])
              ERR_TIMED_OUT
| reset_timeout_deasserting v0 d1 v1 d2 :
    polled GCTL hwinit_clear reset_schedule d1 NO_ERROR ->
    polled GCTL hwinit_set reset_schedule d2 ERR_TIMED_OUT ->
    reset_run (reset_asserted v0 d1 ++ reset_deasserted v1 d2
               ++ [EvLog "Timeout during reset\n"]) ERR_TIMED_OUT.

(** The bound on the commands in flight, as the design states it: the masks
    are the counts minus one, and corb_max_in_flight_ is
    min(corb_mask_, rirb_mask_ - RIRB_RESERVED_RESPONSE_SLOTS), at least 1. *)
Definition in_flight_bound (c : IntelHDAController) : Prop :=
  corb_mask_ c = corb_entry_count_ c - 1 /\
  rirb_mask_ c = rirb_entry_count_ c - 1 /\
  corb_max_in_flight_ c =
    Z.max 1 (Z.min (corb_mask_ c) (rirb_mask_ c - RIRB_RESERVED_RESPONSE_SLOTS K)) /\
  1 <= corb_max_in_flight_ c <= corb_mask_ c.

(** What SetupCommandBuffer does once the rings are negotiated. *)
Definition SetupCommandBuffer_rest : M mx_status :=
  SetupCommandBuffer_masks K ;;
  res ← SetupCommandBuffer_bases K E;
  if negb (is_ok res) then ret res else SetupCommandBuffer_enable K E.

(** The descriptor of slot [i], in the words of the design: 1-based id
    [i + 1], the type of the slot, bound to register slot [i] and to the BDL
    region at offset [i * bdl_size] of the allocation. *)
Definition descriptor (input output : Z) (mem : ContigPhysMem) (i : Z)
  : IntelHDAStream :=
  mkStream (classify input output i) (i + 1) i
           (u64 (mem_phys mem + i * bdl_size K))
           (u64 (mem_virt mem + i * bdl_size K)).

(** The descriptors of slots [0 .. total - 1]. *)
Definition descriptors (input output total : Z) (mem : ContigPhysMem)
  : list IntelHDAStream :=
  descriptor input output mem <$> seqZ 0 total.

(** The tag SetupPCIDevice derives from the bus address: bus:device.function
    when the property is available, a fixed string otherwise. *)
Definition bus_address_tag : string :=
  match dev_property_bdf E with
  | Some bdf_addr => bdf_debug_tag K bdf_addr
  | None => unknown_bdf_debug_tag K
  end.


End Vocabulary.

(** ** More vocabulary

    The notions used by the properties of SetupPCIDevice, of the stream
    descriptor loop, of the ring setup and of the orchestrator. *)

(** All the register writes of a stretch of trace, in order. *)
Definition writes (d : list event) : list (reg * Z) :=
  omap (fun e => match e with EvWrite r v => Some (r, v) | _ => None end) d.

(** What a DEBUG_ASSERT on [cond] adds to the trace. *)
Definition assert_events (cond : bool) (what : string) : list event :=
  if cond then [] else [EvAssertFailed what].

(** [e] is not a failed assertion. *)
Definition not_assert_failed (e : event) : bool :=
  match e with EvAssertFailed _ => false | _ => true end.

(** The interrupt modes a stretch of trace asks for, in order. *)
Definition irq_modes (d : list event) : list irq_mode :=
  omap (fun e => match e with EvSetIrqMode m => Some m | _ => None end) d.

(** [e] is a call to the device framework or to the PCI protocol made by
    SetupPCIDevice. *)
Definition is_host_call (e : event) : bool :=
  match e with
  | EvGetDevProperty | EvGetProtocol | EvClaimDevice | EvSetIrqMode _
  | EvMapInterrupt | EvMapMmio | EvEnableBusMaster => true
  | _ => false
  end.

(** The calls of a stretch of trace to these services, in order. *)
Definition host_calls (d : list event) : list event := List.filter is_host_call d.




(** [e] is none of the steps that name, start, publish or tear down the
    device. *)
Definition bringup_event (e : event) : bool :=
  match e with
  | EvDeviceInit _ | EvThrdCreate _ | EvDeviceAdd _ | EvAddRef | EvSetState _
  | EvWakeupIRQThread | EvDeviceShutdown => false
  | _ => true
  end.

(** [e] is none of the steps that follow a successful publication. *)
Definition not_operating (e : event) : bool :=
  match e with
  | EvAddRef | EvSetState OPERATING | EvWakeupIRQThread => false
  | _ => true
  end.

(** [e] is not the teardown. *)
Definition not_shutdown (e : event) : bool :=
  match e with EvDeviceShutdown => false | _ => true end.

Section RingVocabulary.

Context (K : Header).

(** The two conditions ResetCORBRdPtrLocked waits for. *)
Definition corbrp_rst_is_set (v : Z) : bool :=
  negb (Z.land v (HDA_REG_CORBRP_RST K) =? 0).
Definition corbrp_rst_is_clear (v : Z) : bool :=
  Z.land v (HDA_REG_CORBRP_RST K) =? 0.

(** The waits of a ring pointer reset poll. *)
Definition ring_reset_schedule : list Z :=
  poll_schedule INTEL_HDA_RING_BUF_RESET_TIMEOUT_NSEC INTEL_HDA_RESET_POLL_TIMEOUT_NSEC.

(** The three ways a reset of the CORB read pointer can go. *)
Inductive corb_reset_run : list event -> mx_status -> Prop :=
| corb_reset_complete d1 d2 :
    polled CORBRP corbrp_rst_is_set ring_reset_schedule d1 NO_ERROR ->
    polled CORBRP corbrp_rst_is_clear ring_reset_schedule d2 NO_ERROR ->
    corb_reset_run ([EvWrite CORBRP (HDA_REG_CORBRP_RST K)] ++ d1
                    ++ [EvWrite CORBRP 0] ++ d2) NO_ERROR
| corb_reset_not_acked d1 :
    polled CORBRP corbrp_rst_is_set ring_reset_schedule d1 ERR_TIMED_OUT ->
    corb_reset_run ([EvWrite CORBRP (HDA_REG_CORBRP_RST K)] ++ d1) ERR_TIMED_OUT
| corb_reset_not_released d1 d2 :
    polled CORBRP corbrp_rst_is_set ring_reset_schedule d1 NO_ERROR ->
    polled CORBRP corbrp_rst_is_clear ring_reset_schedule d2 ERR_TIMED_OUT ->
    corb_reset_run ([EvWrite CORBRP (HDA_REG_CORBRP_RST K)] ++ d1
                    ++ [EvWrite CORBRP 0] ++ d2) ERR_TIMED_OUT.

(** The entry count and the configuration code SetupCommandBufferSize picks
    for the register value [tmp]. *)
Definition negotiated (tmp : Z) : option (Z * Z) :=
  if test_bits tmp (HDA_REG_CORBSIZE_CAP_256ENT K) then
    Some (256, u8 (HDA_REG_CORBSIZE_CFG_256ENT K))
  else if test_bits tmp (HDA_REG_CORBSIZE_CAP_16ENT K) then
    Some (16, u8 (HDA_REG_CORBSIZE_CFG_16ENT K))
  else if test_bits tmp (HDA_REG_CORBSIZE_CAP_2ENT K) then
    Some (2, u8 (HDA_REG_CORBSIZE_CFG_2ENT K))
  else None.

(** The controller after a store through [p]. *)
Definition set_entry_count (p : entry_count_ptr) (n : Z) (c : IntelHDAController)
  : IntelHDAController :=
  match p with
  | corb_entry_count_ptr => set_corb_entry_count_ n c
  | rirb_entry_count_ptr => set_rirb_entry_count_ n c
  end.

(** The writes that stop both rings, reset their pointers and configure
    their sizes (lines 324-350), with the two configuration codes. *)
Definition ring_stop_writes (corb_cfg rirb_cfg : Z) : list (reg * Z) :=
  [(CORBCTL, 0); (RIRBCTL, 0); (CORBWP, 0);
   (CORBRP, HDA_REG_CORBRP_RST K); (CORBRP, 0);
   (RIRBWP, HDA_REG_RIRBWP_RST K);
   (CORBSIZE, corb_cfg); (RIRBSIZE, rirb_cfg)].

(** The writes that program the base addresses and the interrupt
    threshold, clear the status bits and start both rings (lines 376-414). *)
Definition ring_start_writes (corb_lo corb_hi rirb_lo rirb_hi thresh : Z)
  : list (reg * Z) :=
  [(CORBLBASE, corb_lo); (CORBUBASE, corb_hi);
   (RIRBLBASE, rirb_lo); (RIRBUBASE, rirb_hi);
   (RINTCNT, thresh);
   (CORBSTS, HDA_REG_CORBSTS_MEI K);
   (RIRBSTS, OR (HDA_REG_RIRBSTS_INTFL K) (HDA_REG_RIRBSTS_OIS K));
   (CORBCTL, OR (HDA_REG_CORBCTL_MEIE K) (HDA_REG_CORBCTL_DMA_EN K));
   (RIRBCTL, OR (OR (HDA_REG_RIRBCTL_INTCTL K) (HDA_REG_RIRBCTL_DMA_EN K))
                (HDA_REG_RIRBCTL_OIC K))].

End RingVocabulary.

(** ** More devices *)

(** The device of the end-to-end scenario behind a host with other
    answers: [irq] to the interrupt mode requests, [window] as the size of
    the register window, [alloc] to the allocation requests, [stream_ok] to
    the descriptor allocations. *)
Definition host_env (read : list event -> reg -> Z) (irq : irq_mode -> mx_status)
    (window : Z) (alloc : mx_status) (stream_ok : Z -> bool) : Env := {|
  hw_read := read;
  dev_property_bdf := Some 0x00D8;
  get_protocol_result := (NO_ERROR, Some 0x5000);
  claim_device_result := NO_ERROR;
  set_irq_mode_result := irq;
  map_interrupt_result := (NO_ERROR, 7);
  map_mmio_result := (NO_ERROR, (0x7000000, window, 9));
  enable_bus_master_result := NO_ERROR;
  allocate_result := fun m _ =>
    (alloc, match m with BDL_MEM => 0x200000 | CMD_BUF_MEM => 0x100000 end);
  map_result := fun m =>
    (NO_ERROR, match m with BDL_MEM => 0x8000000 | CMD_BUF_MEM => 0x9000000 end);
  new_stream_ok := stream_ok;
  thrd_create_result := 0;
  device_add_result := NO_ERROR
|}.

(** A host that grants legacy interrupts only. *)
Definition legacy_irq_env : Env :=
  host_env (sim_read 0x4401 0x20 0x40)
    (fun m => match m with
              | MX_PCIE_IRQ_MODE_MSI => ERR_NOT_SUPPORTED
              | _ => NO_ERROR
              end)
    0x2000 NO_ERROR (fun _ => true).

(** A register window of half the expected size. *)
Definition bad_window_env : Env :=
  host_env (sim_read 0x4401 0x20 0x40) (fun _ => NO_ERROR) 0x1000 NO_ERROR
    (fun _ => true).

(** A host that runs out of memory at the fourth stream descriptor. *)
Definition short_pool_env : Env :=
  host_env (sim_read 0x4401 0x20 0x40) (fun _ => NO_ERROR) 0x2000 NO_ERROR
    (fun i => i <? 3).

(** A host without contiguous memory to give. *)
Definition no_memory_env : Env :=
  host_env (sim_read 0x4401 0x20 0x40) (fun _ => NO_ERROR) 0x2000 ERR_NO_MEMORY
    (fun _ => true).

(** A controller of revision 2.0. *)
Definition old_revision_env : Env :=
  host_env (fun t r => match r with VMAJ => 2 | _ => sim_read 0x4401 0x20 0x40 t r end)
    (fun _ => NO_ERROR) 0x2000 NO_ERROR (fun _ => true).

(** * Properties *)

(** ** Reasoning about runs *)

Lemma test_bits_true a b : test_bits a b = true <-> Z.land a b <> 0.
Proof.
  unfold test_bits. rewrite negb_true_iff, Z.eqb_neq. reflexivity.
Qed.

Lemma test_bits_false a b : test_bits a b = false <-> Z.land a b = 0.
Proof.
  unfold test_bits. rewrite negb_false_iff, Z.eqb_eq. reflexivity.
Qed.

Lemma bind_run {A B} (m : M A) (k : A -> M B) (w : World) :
  (m ≫= k) w = k (m w).1 (m w).2.
Proof. unfold mbind, M_bind. destruct (m w); reflexivity. Qed.

Lemma bind_inv {A B} (m : M A) (k : A -> M B) (w w' : World) (b : B) :
  (m ≫= k) w = (b, w') -> exists a w0, m w = (a, w0) /\ k a w0 = (b, w').
Proof.
  rewrite bind_run. destruct (m w) as [a w0]. simpl. eauto.
Qed.

Ltac run := unfold LOG, DEBUG_ASSERT, hw_rmb, mx_nanosleep, REG_WR, REG_RD;
            unfold ret, when, emit, modify, gets, mret, M_ret, mbind, M_bind; cbn.

(** ** Ring size negotiation *)

Section RingSize.

Context (K : Header) (E : Env).

Lemma offered_inv tmp n cfg :
  offered K tmp n cfg ->
  (n = 256 /\ cfg = HDA_REG_CORBSIZE_CFG_256ENT K
           /\ test_bits tmp (HDA_REG_CORBSIZE_CAP_256ENT K) = true) \/
  (n = 16 /\ cfg = HDA_REG_CORBSIZE_CFG_16ENT K
          /\ test_bits tmp (HDA_REG_CORBSIZE_CAP_16ENT K) = true) \/
  (n = 2 /\ cfg = HDA_REG_CORBSIZE_CFG_2ENT K
         /\ test_bits tmp (HDA_REG_CORBSIZE_CAP_2ENT K) = true).
Proof.
  intros (cap & Hin & Hbit). apply test_bits_true in Hbit.
  simpl in Hin. destruct Hin as [H|[H|[H|[]]]]; inversion H; subst; tauto.
Qed.

(** C1: from any value read from a ring size register,
    SetupCommandBufferSize selects the largest entry count among 256, 16 and
    2 whose capability bit is set, stores it through [entry_count], and
    writes the configuration code paired with it back to the register; when
    none of the three capability bits is set it fails with ERR_BAD_STATE. *)
Theorem SetupCommandBufferSize_largest
    (size_reg : reg) (entry_count : entry_count_ptr) (w : World) :
  let raw := hw_read E (trace w) size_reg in
  let tmp := u8 raw in
  let '(res, w') := SetupCommandBufferSize K E size_reg entry_count w in
  (exists n cfg,
      offered K tmp n cfg /\
      (forall m cfg', offered K tmp m cfg' -> m <= n) /\
      (forall m cfg', offered K tmp m cfg' -> m <> n -> m < n) /\
      res = NO_ERROR /\
      load entry_count (ctl w') = n /\
      trace w' = trace w ++ [EvRead size_reg raw; EvWrite size_reg (u8 cfg)])
  \/ ((forall n cfg, ~ offered K tmp n cfg) /\ res = ERR_BAD_STATE).
Proof.
  intros raw tmp. unfold SetupCommandBufferSize. run. fold raw. fold tmp.
  destruct (test_bits tmp (HDA_REG_CORBSIZE_CAP_256ENT K)) eqn:H256;
    [|destruct (test_bits tmp (HDA_REG_CORBSIZE_CAP_16ENT K)) eqn:H16;
      [|destruct (test_bits tmp (HDA_REG_CORBSIZE_CAP_2ENT K)) eqn:H2]];
    destruct entry_count; unfold store; run; try rewrite <- app_assoc; cbn.
  1-2: left; exists 256, (HDA_REG_CORBSIZE_CFG_256ENT K);
    (split; [eexists; split; [left; reflexivity | by apply test_bits_true]|]);
    (split; [|split]; [| |done]);
    intros m cfg' Hm; apply offered_inv in Hm; lia.
  1-2: left; exists 16, (HDA_REG_CORBSIZE_CFG_16ENT K);
    (split; [eexists; split; [right; left; reflexivity | by apply test_bits_true]|]);
    (split; [|split]; [| |done]);
    intros m cfg' Hm; apply offered_inv in Hm;
    destruct Hm as [(_&_&?)|[?|?]]; try congruence; lia.
  1-2: left; exists 2, (HDA_REG_CORBSIZE_CFG_2ENT K);
    (split; [eexists; split; [right; right; left; reflexivity
                             | by apply test_bits_true]|]);
    (split; [|split]; [| |done]);
    intros m cfg' Hm; apply offered_inv in Hm;
    destruct Hm as [(_&_&?)|[(_&_&?)|?]]; try congruence; lia.
  1-2: right; (split; [|reflexivity]);
    intros n cfg Hn; apply offered_inv in Hn;
    destruct Hn as [(_&_&?)|[(_&_&?)|(_&_&?)]]; congruence.
Qed.

(** C10: when none of the three capability bits is set,
    SetupCommandBufferSize fails without writing the size register (it only
    reads it and logs) and leaves the controller, hence the entry count
    behind [entry_count], as it was; conversely a write to the register
    happens only on the successful path. *)
Theorem SetupCommandBufferSize_failure_writes_nothing
    (size_reg : reg) (entry_count : entry_count_ptr) (w : World) :
  let raw := hw_read E (trace w) size_reg in
  let tmp := u8 raw in
  let '(res, w') := SetupCommandBufferSize K E size_reg entry_count w in
  (Z.land tmp (HDA_REG_CORBSIZE_CAP_256ENT K) = 0 ->
   Z.land tmp (HDA_REG_CORBSIZE_CAP_16ENT K) = 0 ->
   Z.land tmp (HDA_REG_CORBSIZE_CAP_2ENT K) = 0 ->
   res = ERR_BAD_STATE /\
   ctl w' = ctl w /\
   load entry_count (ctl w') = load entry_count (ctl w) /\
   trace w' = trace w ++
     [EvRead size_reg raw; EvLog "Invalid ring buffer capabilities! (0x%02x)\n"]) /\
  (forall v, In (EvWrite size_reg v) (drop (length (trace w)) (trace w')) ->
             res = NO_ERROR).
Proof.
  intros raw tmp. unfold SetupCommandBufferSize. run. fold raw. fold tmp.
  destruct (test_bits tmp (HDA_REG_CORBSIZE_CAP_256ENT K)) eqn:H256;
    [|destruct (test_bits tmp (HDA_REG_CORBSIZE_CAP_16ENT K)) eqn:H16;
      [|destruct (test_bits tmp (HDA_REG_CORBSIZE_CAP_2ENT K)) eqn:H2]];
    destruct entry_count; unfold store; run.
  1-6: (split; [|done]); intros Ha Hb Hc;
       apply test_bits_false in Ha, Hb, Hc; congruence.
  all: rewrite <- app_assoc; cbn; (split; [done|]);
    intros v Hin; rewrite drop_app_length in Hin;
    simpl in Hin; destruct Hin as [?|[?|[]]]; discriminate.
Qed.

End RingSize.

(** ** Polling waits *)

Arguments WaitCondition : simpl never.

Lemma polled_status r p sched d res :
  polled r p sched d res -> res = NO_ERROR \/ res = ERR_TIMED_OUT.
Proof. induction 1; auto. Qed.

(** A wait makes at most one read more than the schedule has entries. *)
Lemma polled_bounded r p sched d res :
  polled r p sched d res -> (length d <= 2 * length sched + 1)%nat.
Proof. induction 1; simpl in *; lia. Qed.

Section Polling.

Context (K : Header) (E : Env).

Lemma reads_run r p w :
  reads E r p w =
  (p (hw_read E (trace w) r),
   mkWorld (ctl w) (trace w ++ [EvRead r (hw_read E (trace w) r)])).
Proof. reflexivity. Qed.

Lemma WaitCondition_loop_unfold sched (cond : M bool) w :
  WaitCondition_loop sched cond w =
  let (b, w1) := cond w in
  if b then (NO_ERROR, w1)
  else match sched with
       | [] => (ERR_TIMED_OUT, w1)
       | s :: sched' =>
         WaitCondition_loop sched' cond (mkWorld (ctl w1) (trace w1 ++ [EvSleep s]))
       end.
Proof.
  destruct sched; simpl; rewrite bind_run; destruct (cond w) as [[] w1]; reflexivity.
Qed.

Lemma WaitCondition_loop_polled r p sched w :
  exists d res,
    WaitCondition_loop sched (reads E r p) w = (res, mkWorld (ctl w) (trace w ++ d))
    /\ polled r p sched d res.
Proof.
  revert w. induction sched as [|s sched IH]; intros w;
    rewrite WaitCondition_loop_unfold, reads_run;
    destruct (p (hw_read E (trace w) r)) eqn:Hp.
  - eexists _, _. split; [reflexivity|]. by constructor.
  - eexists _, _. split; [reflexivity|]. by constructor.
  - eexists _, _. split; [reflexivity|]. by constructor.
  - cbn. 
    destruct (IH (mkWorld (ctl w)
                    ((trace w ++ [EvRead r (hw_read E (trace w) r)]) ++ [EvSleep s])))
      as (d & res & Heq & Hpolled).
    rewrite Heq. cbn.
    exists (EvRead r (hw_read E (trace w) r) :: EvSleep s :: d), res.
    split.
    + rewrite <- !app_assoc. reflexivity.
    + by constructor.
Qed.

Lemma WaitCondition_polled timeout poll r p w :
  exists d res,
    WaitCondition timeout poll (reads E r p) w = (res, mkWorld (ctl w) (trace w ++ d))
    /\ polled r p (poll_schedule timeout poll) d res.
Proof. apply WaitCondition_loop_polled. Qed.

End Polling.

(** ** The reset sequence *)

Section ResetSequence.

Context (K : Header) (E : Env).

(** C5: whatever the device answers, ResetControllerHW performs, in this
    order: clear the hardware-init bit, barrier, poll until the bit reads
    cleared, sleep the hold time, set the bit, barrier, poll until the bit
    reads set, sleep the codec-discovery time, and returns NO_ERROR; or one
    of the two polls times out, and then it does nothing of what follows
    that poll, logs the timeout and returns ERR_TIMED_OUT.  The controller
    object is not touched. *)
Theorem ResetControllerHW_sequence (w : World) :
  exists d res,
    ResetControllerHW K E w = (res, mkWorld (ctl w) (trace w ++ d))
    /\ reset_run K d res.
Proof.
  unfold ResetControllerHW, REG_CLR_BITS, REG_SET_BITS.
  change (gctl_hwinit_clear K E) with (reads E GCTL (hwinit_clear K)).
  change (gctl_hwinit_set K E) with (reads E GCTL (hwinit_set K)).
  run.
  set (v0 := hw_read E (trace w) GCTL).
  match goal with |- context [WaitCondition _ _ _ ?w1] =>
    destruct (WaitCondition_polled E INTEL_HDA_RESET_TIMEOUT_NSEC
                INTEL_HDA_RESET_POLL_TIMEOUT_NSEC GCTL (hwinit_clear K) w1)
      as (d1 & res1 & Heq1 & Hp1); rewrite Heq1; clear Heq1 end.
  cbn.
  destruct (polled_status _ _ _ _ _ Hp1) as [-> | ->]; cbn.
  - match goal with |- context [hw_read E ?t GCTL] =>
      match t with context [EvSleep] => set (v1 := hw_read E t GCTL) end end.
    match goal with |- context [WaitCondition _ _ _ ?w1] =>
      destruct (WaitCondition_polled E INTEL_HDA_RESET_TIMEOUT_NSEC
                  INTEL_HDA_RESET_POLL_TIMEOUT_NSEC GCTL (hwinit_set K) w1)
        as (d2 & res2 & Heq2 & Hp2); rewrite Heq2; clear Heq2 end.
    cbn.
    destruct (polled_status _ _ _ _ _ Hp2) as [-> | ->]; cbn.
    + eexists _, NO_ERROR. split; [|exact (reset_complete K v0 d1 v1 d2 Hp1 Hp2)].
      unfold reset_asserted, reset_deasserted. f_equal. f_equal.
      rewrite <- !app_assoc. reflexivity.
    + eexists _, ERR_TIMED_OUT.
      split; [|exact (reset_timeout_deasserting K v0 d1 v1 d2 Hp1 Hp2)].
      unfold reset_asserted, reset_deasserted. f_equal. f_equal.
      rewrite <- !app_assoc. reflexivity.
  - eexists _, ERR_TIMED_OUT.
    split; [|exact (reset_timeout_asserting K v0 d1 Hp1)].
    unfold reset_asserted. f_equal. f_equal.
    rewrite <- !app_assoc. reflexivity.
Qed.

End ResetSequence.

(** ** Frames *)

Section Frames.

Context {B : Type} (f : IntelHDAController -> B) (ok : event -> bool).

Lemma preserves_ret {A} (a : A) : preserves f ok (ret a).
Proof. intros w. split; [done|]. exists []. by rewrite app_nil_r. Qed.

Lemma preserves_bind {A C} (m : M A) (k : A -> M C) :
  preserves f ok m -> (forall a, preserves f ok (k a)) -> preserves f ok (m ≫= k).
Proof.
  intros Hm Hk w. rewrite bind_run.
  destruct (Hm w) as (Hf & d & Ht & Hd).
  destruct (Hk (m w).1 (m w).2) as (Hf' & d' & Ht' & Hd').
  split; [congruence|]. exists (d ++ d'). split.
  - rewrite Ht', Ht, app_assoc. reflexivity.
  - rewrite forallb_app, Hd, Hd'. reflexivity.
Qed.

Lemma preserves_emit e : ok e = true -> preserves f ok (emit e).
Proof.
  intros He w. split; [done|]. exists [e]. split; [done|]. simpl. by rewrite He.
Qed.

Lemma preserves_modify g : (forall c, f (g c) = f c) -> preserves f ok (modify g).
Proof. intros Hg w. split; [apply Hg|]. exists []. by rewrite app_nil_r. Qed.

Lemma preserves_gets {A} (g : IntelHDAController -> A) : preserves f ok (gets g).
Proof. intros w. split; [done|]. exists []. by rewrite app_nil_r. Qed.

Lemma preserves_REG_RD E r :
  (forall v, ok (EvRead r v) = true) -> preserves f ok (REG_RD E r).
Proof.
  intros Hr w. split; [done|]. eexists [_]. split; [reflexivity|]. simpl. by rewrite Hr.
Qed.

Lemma preserves_WaitCondition_loop sched (cond : M bool) :
  preserves f ok cond -> (forall s, ok (EvSleep s) = true) ->
  preserves f ok (WaitCondition_loop sched cond).
Proof.
  intros Hc Hs. induction sched as [|s sched IH]; simpl.
  - apply preserves_bind; [done|]. intros []; apply preserves_ret.
  - apply preserves_bind; [done|]. intros []; [apply preserves_ret|].
    apply preserves_bind; [|done]. apply preserves_emit, Hs.
Qed.

Lemma preserves_SetupStreamDescriptors_loop K E n i off input output total :
  (forall s b, ok (EvNewStream s b) = true) ->
  (forall m, ok (EvLog m) = true) ->
  (forall m, ok (EvAssertFailed m) = true) ->
  (forall x c, f (set_all_streams_ x c) = f c) ->
  (forall x c, f (set_free_streams_ x c) = f c) ->
  preserves f ok (SetupStreamDescriptors_loop K E n i off input output total).
Proof.
  intros Hnew Hlog Hassert Hall Hfree. revert i off.
  induction n as [|n IH]; intros i off; simpl; [apply preserves_ret|].
  apply preserves_bind; [apply preserves_gets|]. intros mem.
  apply preserves_bind; [by apply preserves_emit|]. intros _.
  destruct (negb (new_stream_ok E i)).
  - apply preserves_bind; [by apply preserves_emit|]. intros _. apply preserves_ret.
  - apply preserves_bind; [apply preserves_gets|]. intros slots.
    unfold DEBUG_ASSERT, when, ReturnStreamLocked.
    apply preserves_bind.
    { destruct (negb (i <? Z.of_nat (length slots)));
        [by apply preserves_emit | apply preserves_ret]. }
    intros _. apply preserves_bind.
    { destruct (negb match slots !! Z.to_nat i with
                     | Some None => true
                     | _ => false
                     end); [by apply preserves_emit | apply preserves_ret]. }
    intros _. apply preserves_bind; [by apply preserves_modify|]. intros _.
    apply preserves_bind; [|intros _; apply IH].
    apply preserves_modify. intros c. apply Hfree.
Qed.

End Frames.

(** Proves [preserves] goals on loop-free code, primitive by primitive. *)
Ltac frame_step :=
  first
    [ apply preserves_ret
    | apply preserves_bind; [|intros ?]
    | apply preserves_emit; reflexivity
    | apply preserves_modify; intros; reflexivity
    | apply preserves_gets
    | apply preserves_REG_RD; intros; reflexivity
    | apply preserves_WaitCondition_loop; [|intros; reflexivity]
    | apply preserves_SetupStreamDescriptors_loop; intros; reflexivity
    | match goal with
      | |- preserves _ _ (if ?b then _ else _) => destruct b
      | |- preserves _ _ (match ?x with _ => _ end) => destruct x
      end ].

Ltac frame :=
  unfold Init, DeviceShutdown, InitInternal, InitInternal_bringup,
         InitInternal_publish, SetupPCIDevice, SetupStreamDescriptors, set_dev_ctx,
         SetState, device_init, device_add, thrd_create_with_name,
         SetupCommandBuffer, SetupCommandBuffer_rings, SetupCommandBuffer_masks,
         SetupCommandBuffer_bases, SetupCommandBuffer_enable,
         ComputeCORBSpaceLocked, SetupCommandBufferSize, store,
         ResetCORBRdPtrLocked, ResetControllerHW, REG_CLR_BITS, REG_SET_BITS,
         WaitCondition, gctl_hwinit_clear, gctl_hwinit_set, corbrp_rst_set,
         corbrp_rst_clear, Allocate, Map, set_mem, ReturnStreamLocked,
         REG_WR, LOG, DEBUG_ASSERT, when, hw_rmb, mx_nanosleep;
  repeat frame_step.

Lemma written_app rs d1 d2 : written rs (d1 ++ d2) = written rs d1 ++ written rs d2.
Proof. apply omap_app. Qed.

Lemma written_none rs d : forallb (no_write_to rs) d = true -> written rs d = [].
Proof.
  induction d as [|e d IH]; [done|]. simpl. rewrite andb_true_iff.
  intros [He Hd]. unfold written in *. simpl. rewrite (IH Hd).
  destruct e; try reflexivity.
  unfold no_write_to, writes_to in He. apply negb_true_iff in He.
  by rewrite He.
Qed.

Section RingFrames.

Context (K : Header) (E : Env).

Lemma SetupCommandBuffer_rings_no_base_write :
  preserves (fun _ => tt) (no_write_to base_regs) (SetupCommandBuffer_rings K E).
Proof. frame. Qed.

Lemma SetupCommandBuffer_rings_no_rintcnt_write :
  preserves (fun _ => tt) (no_write_to [RINTCNT]) (SetupCommandBuffer_rings K E).
Proof. frame. Qed.

(** Decomposes a hypothesis [H : m w = (r, w')] along the binds and
    conditionals of [m]. *)
Ltac inv_run H :=
  repeat match type of H with
  | (_ ≫= _) _ = _ =>
    let a := fresh "a" in let w0 := fresh "w" in let Hm := fresh "Hm" in
    apply bind_inv in H; destruct H as (a & w0 & Hm & H)
  | (if ?b then _ else _) _ = _ => destruct b eqn:?
  | ret _ _ = (_, _) => cbv [ret mret M_ret] in H; simplify_eq
  end.

Arguments SetupCommandBufferSize : simpl never.

Lemma SetupCommandBufferSize_ok r p w w' :
  SetupCommandBufferSize K E r p w = (NO_ERROR, w') ->
  exists n, In n ring_sizes /\
    ctl w' = match p with
             | corb_entry_count_ptr => set_corb_entry_count_ n (ctl w)
             | rirb_entry_count_ptr => set_rirb_entry_count_ n (ctl w)
             end.
Proof.
  unfold SetupCommandBufferSize. run.
  repeat match goal with |- context [test_bits ?a ?b] => destruct (test_bits a b) end;
    destruct p; unfold store; run; intros [= <-];
    try discriminate; eexists; (split; [|reflexivity]); simpl; auto.
Qed.

Lemma SetupCommandBuffer_rings_ok w w1 :
  SetupCommandBuffer_rings K E w = (NO_ERROR, w1) ->
  In (corb_entry_count_ (ctl w1)) ring_sizes /\
  In (rirb_entry_count_ (ctl w1)) ring_sizes.
Proof.
  unfold SetupCommandBuffer_rings. intros H. inv_run H; try discriminate.
  repeat match goal with
         | Hb : negb (is_ok ?a) = false |- _ => destruct a; try discriminate Hb; clear Hb
         end.
  match goal with
  | H1 : SetupCommandBufferSize K E CORBSIZE _ _ = _,
    H2 : SetupCommandBufferSize K E RIRBSIZE _ _ = _ |- _ =>
    apply SetupCommandBufferSize_ok in H1 as (n & Hn & Hc);
    apply SetupCommandBufferSize_ok in H2 as (n' & Hn' & Hc')
  end.
  rewrite Hc', Hc. simpl. auto.
Qed.

End RingFrames.

(** ** The command buffer *)

Lemma u32_small x : 0 <= x < 2 ^ 32 -> u32 x = x.
Proof. intros. unfold u32, wrap. by apply Z.mod_small. Qed.

Lemma u64_range x : 0 <= u64 x < 2 ^ 64.
Proof. unfold u64, wrap. apply Z.mod_pos_bound. lia. Qed.

Lemma low_half x : 0 <= x -> u32 (Z.land x 0xFFFFFFFF) = x mod 2 ^ 32.
Proof.
  intros Hx. change 0xFFFFFFFF with (Z.ones 32). rewrite Z.land_ones by lia.
  apply u32_small. apply Z.mod_pos_bound. lia.
Qed.

Lemma high_half x : 0 <= x < 2 ^ 64 -> u32 (Z.shiftr x 32) = x / 2 ^ 32.
Proof.
  intros Hx. rewrite Z.shiftr_div_pow2 by lia. apply u32_small. split.
  - apply Z.div_pos; lia.
  - apply Z.div_lt_upper_bound; lia.
Qed.

Section CommandBuffer.

Context (K : Header) (E : Env).

Arguments SetupCommandBuffer_rings : simpl never.

Lemma drop_trace_app (t d : list event) : drop (length t) (t ++ d) = d.
Proof. apply drop_app_length. Qed.

Lemma SetupCommandBuffer_after_rings w r w1 :
  SetupCommandBuffer_rings K E w = (r, w1) ->
  SetupCommandBuffer K E w =
  if is_ok r then SetupCommandBuffer_rest K E w1 else (r, w1).
Proof.
  intros H. unfold SetupCommandBuffer. rewrite bind_run, H. simpl.
  destruct r; reflexivity.
Qed.

Lemma SetupCommandBuffer_masks_ring_fields w1 :
  ring_fields (ctl (SetupCommandBuffer_masks K w1).2) =
  let cc := corb_entry_count_ (ctl w1) in
  let rc := rirb_entry_count_ (ctl w1) in
  let R := RIRB_RESERVED_RESPONSE_SLOTS K in
  (cc, rc, u32 (cc - 1), u32 (rc - 1),
   Z.min (if u32 (rc - 1) >? R then u32 (u32 (rc - 1) - R) else 1) (u32 (cc - 1))).
Proof. reflexivity. Qed.

Lemma SetupCommandBuffer_rest_ring_fields w1 :
  ring_fields (ctl (SetupCommandBuffer_rest K E w1).2)
  = ring_fields (ctl (SetupCommandBuffer_masks K w1).2).
Proof.
  unfold SetupCommandBuffer_rest. rewrite bind_run.
  set (w2 := (SetupCommandBuffer_masks K w1).2).
  assert (H : preserves ring_fields (fun _ => true)
                (res ← SetupCommandBuffer_bases K E;
                 if negb (is_ok res) then ret res else SetupCommandBuffer_enable K E))
    by frame.
  apply (H w2).
Qed.

Lemma ring_fields_in_flight_bound (c : IntelHDAController) (cc rc : Z) :
  0 <= RIRB_RESERVED_RESPONSE_SLOTS K ->
  In cc ring_sizes -> In rc ring_sizes ->
  let R := RIRB_RESERVED_RESPONSE_SLOTS K in
  ring_fields c =
    (cc, rc, u32 (cc - 1), u32 (rc - 1),
     Z.min (if u32 (rc - 1) >? R then u32 (u32 (rc - 1) - R) else 1) (u32 (cc - 1))) ->
  corb_entry_count_ c = cc /\ rirb_entry_count_ c = rc /\ in_flight_bound K c.
Proof.
  intros HR Hc Hr R Hf. unfold ring_fields in Hf. unfold in_flight_bound. fold R.
  injection Hf as -> -> -> -> ->.
  assert (Hcm : u32 (cc - 1) = cc - 1).
  { apply u32_small. simpl in Hc. lia. }
  assert (Hrm : u32 (rc - 1) = rc - 1).
  { apply u32_small. simpl in Hr. lia. }
  assert (Hfl : (if u32 (rc - 1) >? R then u32 (u32 (rc - 1) - R) else 1)
                = Z.max 1 (rc - 1 - R)).
  { rewrite Hrm. destruct (Z.gtb_spec (rc - 1) R).
    - rewrite u32_small; [lia|]. simpl in Hr. lia.
    - lia. }
  rewrite Hfl, Hcm, Hrm. simpl in Hc, Hr. repeat split; lia.
Qed.

(** C2: for every pair of entry counts drawn from {256, 16, 2}, the mask
    computation of SetupCommandBuffer leaves the masks equal to the counts
    minus one and
    corb_max_in_flight_ = min(corb_mask_, rirb_mask_ - RIRB_RESERVED_RESPONSE_SLOTS)
    raised to at least 1, hence 1 <= corb_max_in_flight_ <= corb_mask_; and
    a run of SetupCommandBuffer whose ring sizes are negotiated ends with
    two such counts and with this bound.  With 16 CORB entries, 256 RIRB
    entries and 8 reserved slots the bound is 15. *)
Theorem SetupCommandBuffer_max_in_flight (w w1 : World) :
  0 <= RIRB_RESERVED_RESPONSE_SLOTS K ->
  (forall w0,
     In (corb_entry_count_ (ctl w0)) ring_sizes ->
     In (rirb_entry_count_ (ctl w0)) ring_sizes ->
     let c := ctl (SetupCommandBuffer_masks K w0).2 in
     corb_entry_count_ c = corb_entry_count_ (ctl w0) /\
     rirb_entry_count_ c = rirb_entry_count_ (ctl w0) /\
     in_flight_bound K c) /\
  (SetupCommandBuffer_rings K E w = (NO_ERROR, w1) ->
   let c := ctl (SetupCommandBuffer K E w).2 in
   In (corb_entry_count_ c) ring_sizes /\
   In (rirb_entry_count_ c) ring_sizes /\
   in_flight_bound K c /\
   (RIRB_RESERVED_RESPONSE_SLOTS K = 8 -> corb_entry_count_ c = 16 ->
    rirb_entry_count_ c = 256 -> corb_max_in_flight_ c = 15)).
Proof.
  intros HR. split.
  - intros w0 Hc Hr.
    apply (ring_fields_in_flight_bound _ _ _ HR Hc Hr).
    apply SetupCommandBuffer_masks_ring_fields.
  - intros Hrings.
    destruct (SetupCommandBuffer_rings_ok K E w w1 Hrings) as [Hc Hr].
    rewrite (SetupCommandBuffer_after_rings _ _ _ Hrings). simpl is_ok. cbv iota.
    pose proof (SetupCommandBuffer_rest_ring_fields w1) as Hf.
    rewrite SetupCommandBuffer_masks_ring_fields in Hf.
    destruct (ring_fields_in_flight_bound _ _ _ HR Hc Hr Hf) as (Hcc & Hrc & Hb).
    cbv zeta. rewrite Hcc, Hrc.
    split; [exact Hc|]. split; [exact Hr|]. split; [exact Hb|].
    intros H8 H16 H256. destruct Hb as (Hcm & Hrm & Hfl & _).
    rewrite Hfl, Hcm, Hrm, Hcc, Hrc, H8, H16, H256. reflexivity.
Qed.

Lemma shiftr32_zero paddr :
  0 <= paddr -> (Z.shiftr paddr 32 =? 0) = (paddr <? 2 ^ 32).
Proof.
  intros Hp. rewrite Z.shiftr_div_pow2 by lia.
  destruct (Z.ltb_spec paddr (2 ^ 32)).
  - apply Z.eqb_eq. apply Z.div_small. lia.
  - apply Z.eqb_neq. intros Hz.
    assert (2 ^ 32 * (paddr / 2 ^ 32) + paddr mod 2 ^ 32 = paddr)
      by (symmetry; apply Z.div_mod; lia).
    pose proof (Z.mod_pos_bound paddr (2 ^ 32)). lia.
Qed.

(** The base address phase, run from any state. *)
Lemma SetupCommandBuffer_bases_run (w2 : World) :
  let paddr := u64 (mem_phys (cmd_buf_mem_ (ctl w2))) in
  let rirb_paddr := u64 (paddr + HDA_CORB_MAX_BYTES K) in
  let gcap_64bit_ok := HDA_REG_GCAP_64OK K (hw_read E (trace w2) GCAP) in
  exists d,
    trace (SetupCommandBuffer_bases K E w2).2 = trace w2 ++ d /\
    written [RINTCNT] d = [] /\
    rirb_entry_count_ (ctl (SetupCommandBuffer_bases K E w2).2)
      = rirb_entry_count_ (ctl w2) /\
    if negb (paddr <? 2 ^ 32) && negb gcap_64bit_ok
    then (SetupCommandBuffer_bases K E w2).1 = ERR_NOT_SUPPORTED /\
         written base_regs d = []
    else (SetupCommandBuffer_bases K E w2).1 = NO_ERROR /\
         written base_regs d =
           [(CORBLBASE, paddr mod 2 ^ 32); (CORBUBASE, paddr / 2 ^ 32);
            (RIRBLBASE, rirb_paddr mod 2 ^ 32); (RIRBUBASE, rirb_paddr / 2 ^ 32)].
Proof.
  intros paddr rirb_paddr ok64.
  pose proof (u64_range (mem_phys (cmd_buf_mem_ (ctl w2)))) as Hp. fold paddr in Hp.
  pose proof (u64_range (paddr + HDA_CORB_MAX_BYTES K)) as Hp2. fold rirb_paddr in Hp2.
  unfold SetupCommandBuffer_bases. run. fold paddr. fold rirb_paddr. fold ok64.
  rewrite shiftr32_zero by lia.
  destruct (negb (paddr <? 2 ^ 32) && negb ok64); cbn.
  - eexists. split; [rewrite <- !app_assoc; reflexivity|]. done.
  - rewrite !low_half, !high_half by lia.
    destruct (negb (Z.land paddr 127 =? 0)), (negb (Z.land rirb_paddr 127 =? 0)); cbn;
      (eexists; split; [rewrite <- !app_assoc; reflexivity|]); done.
Qed.

(** The last phase, run from any state. *)
Lemma SetupCommandBuffer_enable_run (w3 : World) :
  exists d,
    trace (SetupCommandBuffer_enable K E w3).2 = trace w3 ++ d /\
    (SetupCommandBuffer_enable K E w3).1 = NO_ERROR /\
    rirb_entry_count_ (ctl (SetupCommandBuffer_enable K E w3).2)
      = rirb_entry_count_ (ctl w3) /\
    written base_regs d = [] /\
    written [RINTCNT] d = [(RINTCNT, rirb_threshold K (rirb_entry_count_ (ctl w3)))].
Proof.
  unfold SetupCommandBuffer_enable, ComputeCORBSpaceLocked. run.
  destruct (negb (negb (rirb_threshold K (rirb_entry_count_ (ctl w3)) =? 0))); cbn;
    (eexists; split; [rewrite <- !app_assoc; reflexivity|]); done.
Qed.

Lemma SetupCommandBuffer_rest_run (w1 : World) :
  SetupCommandBuffer_rest K E w1 =
  let w2 := (SetupCommandBuffer_masks K w1).2 in
  if is_ok (SetupCommandBuffer_bases K E w2).1
  then SetupCommandBuffer_enable K E (SetupCommandBuffer_bases K E w2).2
  else SetupCommandBuffer_bases K E w2.
Proof.
  unfold SetupCommandBuffer_rest. rewrite !bind_run. cbv zeta.
  destruct (SetupCommandBuffer_bases K E (SetupCommandBuffer_masks K w1).2)
    as [[] w3]; reflexivity.
Qed.

(** C3: with the rings negotiated, a command buffer whose physical address
    is at least 2^32 and a GCAP that does not advertise 64-bit addressing
    make SetupCommandBuffer fail with ERR_NOT_SUPPORTED without any write to
    the four base address registers.  Otherwise (the capability is
    advertised, or the address fits 32 bits) it succeeds and programs the
    CORB base with the low and high 32-bit halves of the address and the
    RIRB base with the halves of the address plus HDA_CORB_MAX_BYTES; for
    the address 0x1_0000_0080 the CORB registers get 0x00000080 and
    0x00000001. *)
Theorem SetupCommandBuffer_base_addresses (w w1 : World) :
  SetupCommandBuffer_rings K E w = (NO_ERROR, w1) ->
  let paddr := u64 (mem_phys (cmd_buf_mem_ (ctl w1))) in
  let rirb_paddr := u64 (paddr + HDA_CORB_MAX_BYTES K) in
  let gcap_64bit_ok := HDA_REG_GCAP_64OK K (hw_read E (trace w1) GCAP) in
  let res := (SetupCommandBuffer K E w).1 in
  let w' := (SetupCommandBuffer K E w).2 in
  let d := drop (length (trace w)) (trace w') in
  trace w' = trace w ++ d /\
  (2 ^ 32 <= paddr -> gcap_64bit_ok = false ->
   res = ERR_NOT_SUPPORTED /\ written base_regs d = []) /\
  (paddr < 2 ^ 32 \/ gcap_64bit_ok = true ->
   res = NO_ERROR /\
   written base_regs d =
     [(CORBLBASE, paddr mod 2 ^ 32); (CORBUBASE, paddr / 2 ^ 32);
      (RIRBLBASE, rirb_paddr mod 2 ^ 32); (RIRBUBASE, rirb_paddr / 2 ^ 32)]) /\
  (paddr = 0x100000080 -> gcap_64bit_ok = true ->
   res = NO_ERROR /\
   In (CORBLBASE, 0x00000080) (written base_regs d) /\
   In (CORBUBASE, 0x00000001) (written base_regs d)).
Proof.
  intros Hrings paddr rirb_paddr ok64.
  destruct (SetupCommandBuffer_rings_no_base_write K E w) as (_ & d1 & Hd1 & Hnone).
  rewrite Hrings in Hd1. simpl in Hd1. apply written_none in Hnone.
  rewrite (SetupCommandBuffer_after_rings _ _ _ Hrings). simpl is_ok. cbv iota.
  rewrite SetupCommandBuffer_rest_run. cbv zeta.
  set (w2 := (SetupCommandBuffer_masks K w1).2).
  destruct (SetupCommandBuffer_bases_run w2) as (d2 & Hd2 & _ & _ & Hb).
  change (trace w2) with (trace w1) in Hd2, Hb.
  change (cmd_buf_mem_ (ctl w2)) with (cmd_buf_mem_ (ctl w1)) in Hb.
  fold paddr rirb_paddr ok64 in Hb.
  assert (Hcase :
    (negb (paddr <? 2 ^ 32) && negb ok64 = true /\ 2 ^ 32 <= paddr /\ ok64 = false) \/
    (negb (paddr <? 2 ^ 32) && negb ok64 = false /\ (paddr < 2 ^ 32 \/ ok64 = true))).
  { destruct (Z.ltb_spec paddr (2 ^ 32)); destruct ok64; simpl; auto. }
  destruct Hcase as [(Hc & Hge & Hno) | (Hc & Hfit)]; rewrite Hc in Hb;
    destruct Hb as [Hres Hw]; rewrite Hres; simpl is_ok; cbv iota.
  - rewrite Hres, Hd2, Hd1, <- app_assoc, drop_trace_app, written_app, Hnone, Hw.
    split; [done|]. split; [done|]. split.
    + intros [?|?]; [lia|congruence].
    + intros _ Hyes. congruence.
  - destruct (SetupCommandBuffer_enable_run (SetupCommandBuffer_bases K E w2).2)
      as (d3 & Hd3 & Hres3 & _ & Hw3 & _).
    rewrite Hres3, Hd3, Hd2, Hd1, <- !app_assoc, drop_trace_app, !written_app,
      Hnone, Hw, Hw3.
    split; [done|]. split; [|split].
    + intros Hge Hno. destruct Hfit; [lia|congruence].
    + done.
    + intros Hpa _. split; [done|]. rewrite Hpa. cbn. auto.
Qed.

(** C7: for each ring size n in {2, 16, 256} the interrupt threshold is
    n - 1, reduced by RIRB_RESERVED_RESPONSE_SLOTS only when n - 1 exceeds
    it, and is at least 1; a successful SetupCommandBuffer writes RINTCNT
    exactly once, with the threshold of the negotiated rirb_entry_count_,
    and a failed one never writes it. *)
Theorem SetupCommandBuffer_rintcnt (w : World) :
  0 <= RIRB_RESERVED_RESPONSE_SLOTS K ->
  let R := RIRB_RESERVED_RESPONSE_SLOTS K in
  let res := (SetupCommandBuffer K E w).1 in
  let w' := (SetupCommandBuffer K E w).2 in
  let d := drop (length (trace w)) (trace w') in
  (forall n, In n ring_sizes ->
     rirb_threshold K n = (if n - 1 >? R then n - 1 - R else n - 1) /\
     1 <= rirb_threshold K n) /\
  trace w' = trace w ++ d /\
  (res = NO_ERROR ->
   In (rirb_entry_count_ (ctl w')) ring_sizes /\
   written [RINTCNT] d = [(RINTCNT, rirb_threshold K (rirb_entry_count_ (ctl w')))]) /\
  (res <> NO_ERROR -> written [RINTCNT] d = []).
Proof.
  intros HR R.
  assert (Hth : forall n, In n ring_sizes ->
     rirb_threshold K n = (if n - 1 >? R then n - 1 - R else n - 1) /\
     1 <= rirb_threshold K n).
  { intros n Hn. unfold rirb_threshold. fold R.
    assert (Hn1 : u32 (n - 1) = n - 1) by (apply u32_small; simpl in Hn; lia).
    rewrite Hn1. destruct (Z.gtb_spec (n - 1) R).
    - rewrite u32_small; [lia|]. simpl in Hn. lia.
    - simpl in Hn. lia. }
  split; [exact Hth|].
  destruct (SetupCommandBuffer_rings_no_rintcnt_write K E w) as (_ & d1 & Hd1 & Hnone).
  apply written_none in Hnone.
  destruct (SetupCommandBuffer_rings K E w) as [r w1] eqn:Hrings.
  simpl in Hd1.
  rewrite (SetupCommandBuffer_after_rings _ _ _ Hrings).
  destruct (is_ok r) eqn:Hr.
  2: { simpl. rewrite Hd1, drop_trace_app. split; [done|].
       split; [|done]. intros ->. discriminate. }
  destruct r; try discriminate.
  apply SetupCommandBuffer_rings_ok in Hrings as [_ Hrc].
  rewrite SetupCommandBuffer_rest_run. cbv zeta.
  set (w2 := (SetupCommandBuffer_masks K w1).2).
  destruct (SetupCommandBuffer_bases_run w2) as (d2 & Hd2 & Hw2 & Hrc2 & Hb).
  change (trace w2) with (trace w1) in Hd2.
  change (rirb_entry_count_ (ctl w2)) with (rirb_entry_count_ (ctl w1)) in Hrc2.
  destruct (is_ok (SetupCommandBuffer_bases K E w2).1) eqn:Hok.
  - destruct (SetupCommandBuffer_enable_run (SetupCommandBuffer_bases K E w2).2)
      as (d3 & Hd3 & Hres3 & Hrc3 & _ & Hw3).
    rewrite Hres3, Hd3, Hd2, Hd1, <- !app_assoc, drop_trace_app, !written_app,
      Hnone, Hw2, Hw3, Hrc3, Hrc2.
    split; [done|]. split; [done|]. done.
  - rewrite Hd2, Hd1, <- !app_assoc, drop_trace_app, !written_app, Hnone, Hw2.
    split; [done|]. split; [|done].
    intros Hres. rewrite Hres in Hok. discriminate.
Qed.

End CommandBuffer.

(** ** The stream descriptor pool *)

Lemma u16_small x : 0 <= x < 2 ^ 16 -> u16 x = x.
Proof. intros. unfold u16, wrap. by apply Z.mod_small. Qed.

Lemma u64_small x : 0 <= x < 2 ^ 64 -> u64 x = x.
Proof. intros. unfold u64, wrap. by apply Z.mod_small. Qed.

Lemma count_type_app t l1 l2 :
  count_type t (l1 ++ l2) = count_type t l1 + count_type t l2.
Proof. unfold count_type. rewrite List.filter_app, length_app. lia. Qed.

Lemma count_type_all t l :
  Forall (fun s => stream_type s = t) l -> count_type t l = Z.of_nat (length l).
Proof.
  unfold count_type. induction 1 as [|s l Hs _ IH]; [done|].
  simpl. rewrite Hs. destruct t; simpl; lia.
Qed.

Lemma count_type_none t l :
  Forall (fun s => stream_type s <> t) l -> count_type t l = 0.
Proof.
  unfold count_type. induction 1 as [|s l Hs _ IH]; [done|].
  simpl. destruct (stream_type s), t; simpl; try congruence; lia.
Qed.

Section StreamPool.

Context (K : Header) (E : Env).

Lemma SetupStreamDescriptors_loop_run (input output total : Z) (n : nat) :
  forall (i : Z) (w : World),
    0 <= i -> 0 <= input -> 0 <= output ->
    i + Z.of_nat n <= total -> total < 2 ^ 16 ->
    input + output < 2 ^ 32 ->
    0 <= bdl_size K -> bdl_size K * total < 2 ^ 32 ->
    (forall j, i <= j < i + Z.of_nat n -> new_stream_ok E j = true) ->
    exists w',
      SetupStreamDescriptors_loop K E n i (i * bdl_size K) input output total w
        = (NO_ERROR, w') /\
      bdl_mem_ (ctl w') = bdl_mem_ (ctl w) /\
      free_streams_ (ctl w') =
        free_streams_ (ctl w)
        ++ (descriptor K input output (bdl_mem_ (ctl w)) <$> seqZ i (Z.of_nat n)).
Proof.
  induction n as [|n IH]; intros i w Hi Hin Hout Hn Htot Hio Hb Hbt Hok.
  - exists w. simpl. rewrite app_nil_r. done.
  - rewrite seqZ_cons by lia.
    replace (Z.pred (Z.of_nat (S n))) with (Z.of_nat n) by lia.
    assert (Hid : u16 (i + 1) = i + 1) by (apply u16_small; lia).
    assert (Hi1 : u32 (i + 1) = i + 1) by (apply u32_small; lia).
    assert (Hoff : u32 (i * bdl_size K + bdl_size K) = (i + 1) * bdl_size K).
    { rewrite u32_small; [lia|]. nia. }
    assert (Hsum : u32 (input + output) = input + output) by (apply u32_small; lia).
    simpl SetupStreamDescriptors_loop. run.
    rewrite Hid, Hi1, Hoff, Hsum, (Hok i) by lia. cbn.
    fold (classify input output i).
    fold (descriptor K input output (bdl_mem_ (ctl w)) i).
    set (s := descriptor K input output (bdl_mem_ (ctl w)) i).
    destruct (negb (i <? Z.of_nat (length (all_streams_ (ctl w))))); cbn;
      destruct (negb match all_streams_ (ctl w) !! Z.to_nat i with
                     | Some None => true
                     | _ => false
                     end); cbn;
      match goal with
      | |- context [SetupStreamDescriptors_loop K E n (i + 1) _ _ _ _ ?w0] =>
        destruct (IH (i + 1) w0) as (w' & Hrun & Hmem & Hfree);
          [lia | lia | lia | lia | lia | lia | lia | lia
          | intros; apply Hok; lia |]
      end;
      exists w'; rewrite Hrun; (split; [done|]); (split; [exact Hmem|]);
      rewrite Hfree; cbn; rewrite <- app_assoc; reflexivity.
Qed.

Lemma descriptors_lookup input output total mem (i : nat) s :
  descriptors K input output total mem !! i = Some s ->
  s = descriptor K input output mem (Z.of_nat i) /\ Z.of_nat i < total.
Proof.
  unfold descriptors. rewrite list_lookup_fmap.
  destruct (seqZ 0 total !! i) as [k|] eqn:Hk; [|done].
  apply lookup_seqZ in Hk as [-> Hlt]. simpl. intros [= <-]. done.
Qed.

Lemma descriptors_elem input output total mem s :
  s ∈ descriptors K input output total mem ->
  exists i, s = descriptor K input output mem i /\ 0 <= i < total.
Proof.
  unfold descriptors. rewrite list_elem_of_fmap. intros (i & -> & Hi).
  apply elem_of_seqZ in Hi. exists i. split; [done|lia].
Qed.

Lemma descriptors_count input output bidir mem :
  0 <= input -> 0 <= output -> 0 <= bidir ->
  let l := descriptors K input output (input + output + bidir) mem in
  count_type INPUT l = input /\ count_type OUTPUT l = output /\
  count_type BIDIR l = bidir.
Proof.
  intros Hi Ho Hb l. unfold l, descriptors.
  rewrite seqZ_app, seqZ_app, !fmap_app, !count_type_app by lia.
  assert (H1 : Forall (fun s => stream_type s = INPUT)
                 (descriptor K input output mem <$> seqZ 0 input)).
  { apply Forall_fmap, Forall_seqZ. intros k Hk. simpl. unfold classify.
    destruct (Z.ltb_spec k input); [done|lia]. }
  assert (H2 : Forall (fun s => stream_type s = OUTPUT)
                 (descriptor K input output mem <$> seqZ (0 + input) output)).
  { apply Forall_fmap, Forall_seqZ. intros k Hk. simpl. unfold classify.
    destruct (Z.ltb_spec k input); [lia|].
    destruct (Z.ltb_spec k (input + output)); [done|lia]. }
  assert (H3 : Forall (fun s => stream_type s = BIDIR)
                 (descriptor K input output mem <$> seqZ (0 + (input + output)) bidir)).
  { apply Forall_fmap, Forall_seqZ. intros k Hk. simpl. unfold classify.
    destruct (Z.ltb_spec k input); [lia|].
    destruct (Z.ltb_spec k (input + output)); [lia|done]. }
  repeat split.
  - rewrite (count_type_all _ _ H1), length_fmap, length_seqZ.
    rewrite !count_type_none; [lia| |].
    + eapply Forall_impl; [exact H3|]. simpl. congruence.
    + eapply Forall_impl; [exact H2|]. simpl. congruence.
  - rewrite (count_type_all _ _ H2), length_fmap, length_seqZ.
    rewrite !count_type_none; [lia| |].
    + eapply Forall_impl; [exact H3|]. simpl. congruence.
    + eapply Forall_impl; [exact H1|]. simpl. congruence.
  - rewrite (count_type_all _ _ H3), length_fmap, length_seqZ.
    rewrite !count_type_none; [lia| |].
    + eapply Forall_impl; [exact H2|]. simpl. congruence.
    + eapply Forall_impl; [exact H1|]. simpl. congruence.
Qed.

Lemma descriptors_ids_NoDup input output total mem :
  NoDup (stream_id <$> descriptors K input output total mem).
Proof.
  unfold descriptors. rewrite <- list_fmap_compose.
  apply NoDup_fmap_2; [|apply NoDup_seqZ].
  intros i j. simpl. lia.
Qed.

Lemma descriptors_regs_NoDup input output total mem :
  NoDup (stream_regs <$> descriptors K input output total mem).
Proof.
  unfold descriptors. rewrite <- list_fmap_compose.
  apply NoDup_fmap_2; [|apply NoDup_seqZ].
  intros i j. simpl. done.
Qed.

(** C6: when the stream counts of GCAP sum to zero or to more than
    MAX_STREAMS_PER_CONTROLLER, SetupStreamDescriptors fails with
    ERR_INTERNAL after reading GCAP and logging: it allocates no BDL memory
    and creates no descriptor, the controller is unchanged. *)
Theorem SetupStreamDescriptors_bad_counts (w : World) :
  let raw := hw_read E (trace w) GCAP in
  let input := HDA_REG_GCAP_ISS K (u16 raw) in
  let output := HDA_REG_GCAP_OSS K (u16 raw) in
  let bidir := HDA_REG_GCAP_BSS K (u16 raw) in
  0 <= input -> 0 <= output -> 0 <= bidir ->
  input + output + bidir < 2 ^ 32 ->
  input + output + bidir = 0 \/
  input + output + bidir > MAX_STREAMS_PER_CONTROLLER K ->
  SetupStreamDescriptors K E w =
  (ERR_INTERNAL,
   mkWorld (ctl w)
     (trace w ++
      [EvRead GCAP raw;
       EvLog "Invalid stream counts in GCAP register (In %u Out %u Bidir %u; Max %zu)\n"])).
Proof.
  intros raw input output bidir Hi Ho Hb Hfit Hbad.
  unfold SetupStreamDescriptors. run.
  fold raw. fold input. fold output. fold bidir.
  rewrite !(u32_small input), !(u32_small output), !(u32_small bidir) by lia.
  rewrite u32_small by lia.
  assert (Hc : (input + output + bidir =? 0)
               || (input + output + bidir >? MAX_STREAMS_PER_CONTROLLER K) = true).
  { apply orb_true_iff. destruct Hbad as [Hz|Hgt].
    - left. by apply Z.eqb_eq.
    - right. by apply Z.gtb_gt. }
  rewrite Hc. cbn. rewrite <- app_assoc. reflexivity.
Qed.

(** C4: for stream counts with a nonzero sum of at most
    MAX_STREAMS_PER_CONTROLLER, and with the allocations granted,
    SetupStreamDescriptors succeeds and adds to the free pool exactly
    [input] INPUT, [output] OUTPUT and [bidir] BIDIR descriptors; the
    descriptor of slot [i] has id [i + 1], is bound to the stream registers
    of slot [i], and gets the BDL region at offset [i * bdl_size] of the
    allocation, both by its physical and by its mapped address; so the ids
    are distinct and lie in [1, total], and the regions are pairwise
    disjoint and inside the allocation, in the physical address space and
    in the mapping alike. *)
Theorem SetupStreamDescriptors_creates (w : World) (phys virt : Z) :
  let raw := hw_read E (trace w) GCAP in
  let input := HDA_REG_GCAP_ISS K (u16 raw) in
  let output := HDA_REG_GCAP_OSS K (u16 raw) in
  let bidir := HDA_REG_GCAP_BSS K (u16 raw) in
  let total := input + output + bidir in
  0 <= input -> 0 <= output -> 0 <= bidir ->
  0 < total <= MAX_STREAMS_PER_CONTROLLER K ->
  MAX_STREAMS_PER_CONTROLLER K < 2 ^ 16 ->
  0 < bdl_size K ->
  bdl_size K * MAX_STREAMS_PER_CONTROLLER K < 2 ^ 32 ->
  allocate_result E BDL_MEM (bdl_size K * total) = (NO_ERROR, phys) ->
  map_result E BDL_MEM = (NO_ERROR, virt) ->
  (forall i, 0 <= i < total -> new_stream_ok E i = true) ->
  0 <= phys -> phys + bdl_size K * total <= 2 ^ 64 ->
  0 <= virt -> virt + bdl_size K * total <= 2 ^ 64 ->
  exists w' created,
    SetupStreamDescriptors K E w = (NO_ERROR, w') /\
    free_streams_ (ctl w') = free_streams_ (ctl w) ++ created /\
    bdl_mem_ (ctl w') = mkMem (bdl_size K * total) phys virt /\
    Z.of_nat (length created) = total /\
    count_type INPUT created = input /\
    count_type OUTPUT created = output /\
    count_type BIDIR created = bidir /\
    (forall (i : nat) s, created !! i = Some s ->
       stream_id s = Z.of_nat i + 1 /\
       stream_type s = classify input output (Z.of_nat i) /\
       stream_regs s = Z.of_nat i /\
       bdl_phys s = phys + Z.of_nat i * bdl_size K /\
       bdl_virt s = virt + Z.of_nat i * bdl_size K) /\
    NoDup (stream_id <$> created) /\
    NoDup (stream_regs <$> created) /\
    (forall s, s ∈ created -> 1 <= stream_id s <= total) /\
    (forall (i j : nat) si sj,
       i <> j -> created !! i = Some si -> created !! j = Some sj ->
       (bdl_phys si + bdl_size K <= bdl_phys sj \/
        bdl_phys sj + bdl_size K <= bdl_phys si) /\
       (bdl_virt si + bdl_size K <= bdl_virt sj \/
        bdl_virt sj + bdl_size K <= bdl_virt si)) /\
    (forall s, s ∈ created ->
       phys <= bdl_phys s /\ bdl_phys s + bdl_size K <= phys + bdl_size K * total /\
       virt <= bdl_virt s /\ bdl_virt s + bdl_size K <= virt + bdl_size K * total).
Proof.
  intros raw input output bidir total Hi Ho Hb Htot Hmax Hbs Hbmax Halloc Hmap Hnew
    Hphys Hfit Hvirt Hvfit.
  assert (Hbt : bdl_size K * total < 2 ^ 32) by nia.
  unfold SetupStreamDescriptors. run.
  fold raw. fold input. fold output. fold bidir.
  rewrite !(u32_small input), !(u32_small output), !(u32_small bidir) by lia.
  rewrite (u32_small (input + output + bidir)) by lia. fold total.
  assert (Hc : (total =? 0) || (total >? MAX_STREAMS_PER_CONTROLLER K) = false).
  { apply orb_false_iff. split; [apply Z.eqb_neq; lia|].
    rewrite Z.gtb_ltb. apply Z.ltb_ge. lia. }
  rewrite Hc. rewrite (u32_small (bdl_size K * total)) by nia.
  unfold Allocate, Map. run. rewrite Halloc. cbn. rewrite Hmap. cbn.
  match goal with
  | |- context [SetupStreamDescriptors_loop K E _ 0 0 _ _ _ ?w0] =>
    destruct (SetupStreamDescriptors_loop_run input output total (Z.to_nat total) 0 w0)
      as (w' & Hrun & Hmem & Hfree);
      [lia | lia | lia | lia | lia | lia | lia | lia | intros; apply Hnew; lia |]
  end.
  rewrite Z.mul_0_l in Hrun. cbn in Hmem, Hfree.
  rewrite Z2Nat.id in Hfree by lia.
  set (mem := mkMem (bdl_size K * total) phys virt) in *.
  fold (descriptors K input output total mem) in Hfree.
  exists w', (descriptors K input output total mem).
  rewrite Hrun, Hmem.
  assert (Hdphys : forall i, 0 <= i < total ->
            bdl_phys (descriptor K input output mem i) = phys + i * bdl_size K).
  { intros i Hi'. simpl. apply u64_small. nia. }
  assert (Hdvirt : forall i, 0 <= i < total ->
            bdl_virt (descriptor K input output mem i) = virt + i * bdl_size K).
  { intros i Hi'. simpl. apply u64_small. nia. }
  split; [done|]. split; [exact Hfree|]. split; [done|].
  split; [unfold descriptors; rewrite length_fmap, length_seqZ; lia|].
  destruct (descriptors_count input output bidir mem Hi Ho Hb) as (C1 & C2 & C3).
  split; [exact C1|]. split; [exact C2|]. split; [exact C3|].
  split; [|split; [|split; [|split; [|split]]]].
  - intros i s Hs. apply descriptors_lookup in Hs as [-> Hlt].
    rewrite Hdphys, Hdvirt by lia. done.
  - apply descriptors_ids_NoDup.
  - apply descriptors_regs_NoDup.
  - intros s Hs. apply descriptors_elem in Hs as (i & -> & Hir). simpl. lia.
  - intros i j si sj Hij Hsi Hsj.
    apply descriptors_lookup in Hsi as [-> Hlti].
    apply descriptors_lookup in Hsj as [-> Hltj].
    rewrite !Hdphys, !Hdvirt by lia.
    destruct (Z.lt_total (Z.of_nat i) (Z.of_nat j)) as [?|[?|?]];
      [split; left; nia | lia | split; right; nia].
  - intros s Hs. apply descriptors_elem in Hs as (i & -> & Hir).
    rewrite Hdphys, Hdvirt by lia. nia.
Qed.

End StreamPool.

(** ** The orchestrator *)




Lemma frame_after {A B X} (f : IntelHDAController -> X) (m : M A) (k : A -> M B)
    (w : World) :
  (forall a, preserves f (fun _ => true) (k a)) ->
  f (ctl ((m ≫= k) w).2) = f (ctl (m w).2).
Proof. intros Hk. rewrite bind_run. apply (Hk (m w).1 (m w).2). Qed.

(** *** Lengths of the formatted tags *)







Section TagLengths.

Context (K : Header).




End TagLengths.

Section Orchestrator.

Context (K : Header) (E : Env).






(** C8: InitInternal, and so Init, rejects a null device pointer with
    ERR_INVALID_ARGS before doing anything at all, and rejects a call on a
    controller whose pci_dev_ is already set with ERR_BAD_STATE after
    nothing but a log message: no register access, no host service call,
    no allocation, no change to the controller. *)
Theorem Init_rejects (w : World) :
  InitInternal K E None w = (ERR_INVALID_ARGS, w) /\
  (Init K E None w).1 = ERR_INVALID_ARGS /\
  (forall pci_dev cur,
     pci_dev_ (ctl w) = Some cur ->
     InitInternal K E (Some pci_dev) w =
       (ERR_BAD_STATE,
        mkWorld (ctl w) (trace w ++ [EvLog "Device already initialized!\n"])) /\
     (Init K E (Some pci_dev) w).1 = ERR_BAD_STATE).
Proof.
  split; [|split].
  - destruct w. reflexivity.
  - reflexivity.
  - intros pci_dev cur Hcur.
    unfold Init, InitInternal, InitInternal_bringup, SetupPCIDevice.
    run. rewrite Hcur. cbn. done.
Qed.

End Orchestrator.

(** * More of the code

    SetupPCIDevice, the reset of the CORB read pointer, the stream
    descriptor loop, the ring setup as a whole and the orchestrator. *)

(** ** Forward execution of a run *)

Lemma DEBUG_ASSERT_run c s w :
  DEBUG_ASSERT c s w = (tt, mkWorld (ctl w) (trace w ++ assert_events c s)).
Proof. destruct c, w; cbn; [rewrite app_nil_r|]; reflexivity. Qed.

Ltac steps_in H :=
  unfold LOG, hw_rmb, mx_nanosleep, REG_WR, REG_RD in H;
  unfold ret, emit, modify, gets, mret, M_ret, mbind, M_bind in H;
  cbn -[DEBUG_ASSERT bdf_debug_tag unknown_bdf_debug_tag device_name_tag] in H;
  repeat (rewrite DEBUG_ASSERT_run in H;
          cbn -[DEBUG_ASSERT bdf_debug_tag unknown_bdf_debug_tag device_name_tag] in H).

Ltac head_scrutinee t :=
  lazymatch t with
  | (match ?x with _ => _ end) => head_scrutinee x
  | (match ?x with _ => _ end) _ => head_scrutinee x
  | _ => t
  end.

Lemma is_ok_true r : is_ok r = true -> r = NO_ERROR.
Proof. by destruct r. Qed.

Lemma is_ok_false r : is_ok r = false -> r <> NO_ERROR.
Proof. by destruct r. Qed.

(** Case analysis on the status [m]: either it is NO_ERROR, or [is_ok m]
    is false. *)
Ltac case_status H m :=
  let Hm := fresh "Hok" in
  destruct (is_ok m) eqn:Hm;
  [apply is_ok_true in Hm; first [subst m | rewrite ?Hm in H] |].

Ltac case_scrutinee H y :=
  lazymatch y with
  | negb (is_ok ?m) => case_status H m
  | is_ok ?m => case_status H m
  | _ => destruct y eqn:?
  end.

Ltac known_status H :=
  repeat match goal with
         | H0 : is_ok _ = false |- _ => rewrite H0 in H
         end.

Ltac settle hook H :=
  steps_in H;
  repeat (progress (hook H; known_status H); steps_in H).

(** Forward execution of a run [H : m w = (res, w')]: evaluates the
    primitives, and splits on whatever the next conditional inspects.
    [hook] rewrites the calls that have a run lemma. *)
Ltac fwd_with hook H :=
  settle hook H;
  repeat (lazymatch type of H with
          | (match ?x with _ => _ end) = _ =>
            let y := head_scrutinee x in case_scrutinee H y
          | (match ?x with _ => _ end) _ = _ =>
            let y := head_scrutinee x in case_scrutinee H y
          end;
          settle hook H).

Ltac fwd H := fwd_with ltac:(fun _ => idtac) H.

Ltac ok_facts :=
  repeat match goal with
         | H : is_ok ?r = false |- _ =>
           lazymatch goal with
           | _ : r <> NO_ERROR |- _ => fail
           | _ => pose proof (is_ok_false _ H)
           end
         end;
  repeat match goal with
         | H : is_ok ?r = _ |- context [is_ok ?r] => rewrite H
         | H : ?r = NO_ERROR |- context [is_ok ?r] => rewrite H
         end.

(** ** Traces *)

Lemma writes_app d1 d2 : writes (d1 ++ d2) = writes d1 ++ writes d2.
Proof. apply omap_app. Qed.

Lemma writes_cons e d : writes (e :: d) = writes [e] ++ writes d.
Proof. apply (writes_app [e] d). Qed.

Lemma writes_assert c s : writes (assert_events c s) = [].
Proof. by destruct c. Qed.

Lemma polled_writes r p sched d res : polled r p sched d res -> writes d = [].
Proof. by induction 1. Qed.

Lemma polled_no_assert r p sched d res :
  polled r p sched d res -> forallb not_assert_failed d = true.
Proof. by induction 1. Qed.

Lemma corb_reset_run_writes K d res :
  corb_reset_run K d res ->
  exists ws, writes d = (CORBRP, HDA_REG_CORBRP_RST K) :: ws /\
    (res = NO_ERROR -> ws = [(CORBRP, 0)]) /\
    (ws = [] \/ ws = [(CORBRP, 0)]).
Proof.
  destruct 1 as [d1 d2 H1 H2 | d1 H1 | d1 d2 H1 H2];
    rewrite ?writes_app, (polled_writes _ _ _ _ _ H1), ?(polled_writes _ _ _ _ _ H2);
    cbn; eexists; (split; [reflexivity|]); split; intros; try done; auto.
Qed.

Lemma corb_reset_run_no_assert K d res :
  corb_reset_run K d res -> forallb not_assert_failed d = true.
Proof.
  destruct 1 as [d1 d2 H1 H2 | d1 H1 | d1 d2 H1 H2]; cbn;
    rewrite ?forallb_app, (polled_no_assert _ _ _ _ _ H1); cbn;
    rewrite ?(polled_no_assert _ _ _ _ _ H2); reflexivity.
Qed.

Lemma forallb_assert_events c s :
  forallb not_assert_failed (assert_events c s) = c.
Proof. by destruct c. Qed.

Lemma negotiated_sizes K tmp n cfg :
  negotiated K tmp = Some (n, cfg) -> In n ring_sizes.
Proof.
  unfold negotiated.
  repeat match goal with |- context [test_bits ?a ?b] => destruct (test_bits a b) end;
    intros [= <- <-]; simpl; auto.
Qed.

Lemma rirb_threshold_nonzero K n :
  0 <= RIRB_RESERVED_RESPONSE_SLOTS K -> In n ring_sizes ->
  negb (rirb_threshold K n =? 0) = true.
Proof.
  intros HR Hn. apply negb_true_iff, Z.eqb_neq. unfold rirb_threshold.
  assert (Hn1 : u32 (n - 1) = n - 1) by (apply u32_small; simpl in Hn; lia).
  rewrite Hn1. destruct (Z.gtb_spec (n - 1) (RIRB_RESERVED_RESPONSE_SLOTS K)).
  - rewrite u32_small; [lia|]. simpl in Hn. lia.
  - simpl in Hn. lia.
Qed.

Lemma bringup_event_not_operating d :
  forallb bringup_event d = true -> forallb not_operating d = true.
Proof.
  induction d as [|e d IH]; [done|]. simpl. rewrite !andb_true_iff.
  intros [He Hd]. split; [|auto]. by destruct e as [| | | | | | | | | | | | | | | | | | |[]| | |].
Qed.

Lemma bringup_event_not_shutdown d :
  forallb bringup_event d = true -> forallb not_shutdown d = true.
Proof.
  induction d as [|e d IH]; [done|]. simpl. rewrite !andb_true_iff.
  intros [He Hd]. split; [|auto]. by destruct e.
Qed.

Lemma REG_RD_run E r w :
  REG_RD E r w =
  (hw_read E (trace w) r,
   mkWorld (ctl w) (trace w ++ [EvRead r (hw_read E (trace w) r)])).
Proof. reflexivity. Qed.

(** ** The reset of the CORB read pointer *)

Section CorbReset.

Context (K : Header) (E : Env).

Lemma polled_written r p sched d res rs :
  polled r p sched d res -> written rs d = [].
Proof. by induction 1. Qed.

Lemma ResetCORBRdPtrLocked_run (w : World) :
  exists d res,
    ResetCORBRdPtrLocked K E w = (res, mkWorld (ctl w) (trace w ++ d))
    /\ corb_reset_run K d res.
Proof.
  unfold ResetCORBRdPtrLocked.
  change (corbrp_rst_set K E) with (reads E CORBRP (corbrp_rst_is_set K)).
  change (corbrp_rst_clear K E) with (reads E CORBRP (corbrp_rst_is_clear K)).
  run.
  match goal with |- context [WaitCondition _ _ _ ?w1] =>
    destruct (WaitCondition_polled E INTEL_HDA_RING_BUF_RESET_TIMEOUT_NSEC
                INTEL_HDA_RESET_POLL_TIMEOUT_NSEC CORBRP (corbrp_rst_is_set K) w1)
      as (d1 & res1 & Heq1 & Hp1); rewrite Heq1; clear Heq1 end.
  cbn.
  destruct (polled_status _ _ _ _ _ Hp1) as [-> | ->]; cbn.
  - match goal with |- context [WaitCondition _ _ _ ?w1] =>
      destruct (WaitCondition_polled E INTEL_HDA_RING_BUF_RESET_TIMEOUT_NSEC
                  INTEL_HDA_RESET_POLL_TIMEOUT_NSEC CORBRP (corbrp_rst_is_clear K) w1)
        as (d2 & res2 & Heq2 & Hp2); rewrite Heq2; clear Heq2 end.
    cbn.
    destruct (polled_status _ _ _ _ _ Hp2) as [-> | ->]; cbn.
    + eexists _, NO_ERROR. split; [|exact (corb_reset_complete K d1 d2 Hp1 Hp2)].
      f_equal. f_equal. rewrite <- !app_assoc. reflexivity.
    + eexists _, ERR_TIMED_OUT.
      split; [|exact (corb_reset_not_released K d1 d2 Hp1 Hp2)].
      f_equal. f_equal. rewrite <- !app_assoc. reflexivity.
  - eexists _, ERR_TIMED_OUT. split; [|exact (corb_reset_not_acked K d1 Hp1)].
    f_equal. f_equal. rewrite <- !app_assoc. reflexivity.
Qed.

(** X1: ResetCORBRdPtrLocked sets the reset bit of CORBRP, polls until the
    hardware shows it set, writes 0 and polls until it reads back clear;
    a wait that runs out ends the routine with ERR_TIMED_OUT, the second
    write being made only after the first wait succeeded.  The routine
    writes to no register but CORBRP and leaves the controller as it was. *)
Theorem ResetCORBRdPtrLocked_sequence (w : World) :
  exists d res,
    ResetCORBRdPtrLocked K E w = (res, mkWorld (ctl w) (trace w ++ d)) /\
    corb_reset_run K d res /\
    (res = NO_ERROR \/ res = ERR_TIMED_OUT) /\
    (res = NO_ERROR ->
     writes d = [(CORBRP, HDA_REG_CORBRP_RST K); (CORBRP, 0)]) /\
    (forall r v, In (r, v) (writes d) -> r = CORBRP).
Proof.
  destruct (ResetCORBRdPtrLocked_run w) as (d & res & Hrun & Hd).
  exists d, res. split; [exact Hrun|]. split; [exact Hd|].
  destruct (corb_reset_run_writes _ _ _ Hd) as (ws & Hws & Hok & Hany).
  split; [destruct Hd; auto|]. split.
  - intros Hres. rewrite Hws, (Hok Hres). reflexivity.
  - intros r v. rewrite Hws. destruct Hany as [-> | ->]; simpl; intuition congruence.
Qed.

End CorbReset.

(** ** SetupPCIDevice *)

Section Pci.

Context (K : Header) (E : Env).

(** X2: on a controller not yet set up, SetupPCIDevice records the device
    whatever happens next; on success it has stored the protocol, the
    interrupt handle, the register window and its handle as the host gave
    them, the window having the expected size; regs_ is set exactly when it
    succeeds. *)
Theorem SetupPCIDevice_populates (dev : Z) (w : World) :
  pci_dev_ (ctl w) = None -> regs_ (ctl w) = None ->
  let res := (SetupPCIDevice K E (Some dev) w).1 in
  let c := ctl (SetupPCIDevice K E (Some dev) w).2 in
  pci_dev_ c = Some dev /\
  (res = NO_ERROR <-> regs_ c <> None) /\
  (res = NO_ERROR ->
   pci_proto_ c = (get_protocol_result E).2 /\
   irq_handle_ c = (map_interrupt_result E).2 /\
   exists regs,
     map_mmio_result E = (NO_ERROR, (regs, sizeof_all_regs K, regs_handle_ c)) /\
     regs_ c = Some regs).
Proof.
  intros Hfresh Hregs.
  destruct (SetupPCIDevice K E (Some dev) w) as [res w'] eqn:Hrun. simpl.
  unfold SetupPCIDevice in Hrun. fwd Hrun.
  all: try congruence.
  all: apply pair_equal_spec in Hrun as [<- <-]; cbn.
  all: ok_facts.
  all: rewrite ?Hregs; (split; [done|]); (split; [split; intros; done|]).
  all: try (intros; congruence).
  all: intros _;
    repeat match goal with
           | H : negb (_ =? _) = false |- _ => apply negb_false_iff, Z.eqb_eq in H
           | H : get_protocol_result E = _ |- _ => rewrite H; clear H
           | H : map_interrupt_result E = _ |- _ => rewrite H; clear H
           | H : map_mmio_result E = _ |- _ => rewrite H; clear H
           end; cbn; (split; [reflexivity|]); (split; [reflexivity|]);
    eexists; split; [|reflexivity]; congruence.
Qed.

Lemma irq_modes_app d1 d2 : irq_modes (d1 ++ d2) = irq_modes d1 ++ irq_modes d2.
Proof. apply omap_app. Qed.

Lemma irq_modes_assert c s : irq_modes (assert_events c s) = [].
Proof. by destruct c. Qed.

Lemma host_calls_app d1 d2 : host_calls (d1 ++ d2) = host_calls d1 ++ host_calls d2.
Proof. apply List.filter_app. Qed.

Lemma host_calls_assert c s : host_calls (assert_events c s) = [].
Proof. by destruct c. Qed.


Ltac pci_leaves Hrun :=
  unfold SetupPCIDevice in Hrun; fwd Hrun; try congruence;
  apply pair_equal_spec in Hrun as [<- <-]; cbn;
  rewrite <- ?app_assoc, ?drop_app_length; ok_facts.

(** X3: SetupPCIDevice asks for MSI first and for legacy interrupts only
    when MSI was refused; msi_irq_ tells which mode was granted; when both
    are refused it returns the second refusal and goes no further. *)
Theorem SetupPCIDevice_irq_mode (dev : Z) (w : World) :
  pci_dev_ (ctl w) = None ->
  let res := (SetupPCIDevice K E (Some dev) w).1 in
  let w' := (SetupPCIDevice K E (Some dev) w).2 in
  let calls := host_calls (drop (length (trace w)) (trace w')) in
  let modes := irq_modes (drop (length (trace w)) (trace w')) in
  let msi := set_irq_mode_result E MX_PCIE_IRQ_MODE_MSI in
  let legacy := set_irq_mode_result E MX_PCIE_IRQ_MODE_LEGACY in
  (modes = [] \/ modes = [MX_PCIE_IRQ_MODE_MSI] /\ msi = NO_ERROR
   \/ modes = [MX_PCIE_IRQ_MODE_MSI; MX_PCIE_IRQ_MODE_LEGACY] /\ msi <> NO_ERROR) /\
  (res = NO_ERROR ->
   msi_irq_ (ctl w') = is_ok msi /\ (msi = NO_ERROR \/ legacy = NO_ERROR) /\
   modes = if is_ok msi then [MX_PCIE_IRQ_MODE_MSI]
           else [MX_PCIE_IRQ_MODE_MSI; MX_PCIE_IRQ_MODE_LEGACY]) /\
  (modes = [MX_PCIE_IRQ_MODE_MSI; MX_PCIE_IRQ_MODE_LEGACY] -> legacy <> NO_ERROR ->
   res = legacy /\
   calls = [EvGetDevProperty; EvGetProtocol; EvClaimDevice;
            EvSetIrqMode MX_PCIE_IRQ_MODE_MSI; EvSetIrqMode MX_PCIE_IRQ_MODE_LEGACY]).
Proof.
  intros Hfresh.
  destruct (SetupPCIDevice K E (Some dev) w) as [res w'] eqn:Hrun. simpl.
  pci_leaves Hrun.
  all: rewrite ?irq_modes_app, ?irq_modes_assert, ?host_calls_app, ?host_calls_assert;
    cbn.
  all: intuition congruence.
Qed.




(** X5: when the mapped register window has not the size of the register
    block, SetupPCIDevice fails, with ERR_INVALID_ARGS once the window is
    mapped; it keeps the handle of the mapping, does not set regs_ and never
    enables bus mastering. *)
Theorem SetupPCIDevice_window_size (dev : Z) (w : World) (regs window handle : Z) :
  pci_dev_ (ctl w) = None -> regs_ (ctl w) = None ->
  map_mmio_result E = (NO_ERROR, (regs, window, handle)) ->
  window <> sizeof_all_regs K ->
  let res := (SetupPCIDevice K E (Some dev) w).1 in
  let w' := (SetupPCIDevice K E (Some dev) w).2 in
  let calls := host_calls (drop (length (trace w)) (trace w')) in
  res <> NO_ERROR /\
  regs_ (ctl w') = None /\
  ~ In EvEnableBusMaster calls /\
  (In EvMapMmio calls -> res = ERR_INVALID_ARGS /\ regs_handle_ (ctl w') = handle).
Proof.
  intros Hfresh Hregs Hmmio Hsize.
  destruct (SetupPCIDevice K E (Some dev) w) as [res w'] eqn:Hrun. simpl.
  pci_leaves Hrun.
  all: rewrite ?host_calls_app, ?host_calls_assert; cbn.
  all: repeat match goal with
              | H : negb (_ =? _) = false |- _ =>
                apply negb_false_iff, Z.eqb_eq in H
              end.
  all: try congruence.
  all: rewrite ?Hregs; intuition congruence.
Qed.

End Pci.

(** ** The stream descriptor loop *)

Section Streams.

Context (K : Header) (E : Env).

(** One round of the loop, for a slot whose descriptor can be allocated. *)
Lemma SetupStreamDescriptors_loop_step (input output total : Z) (n : nat) (i : Z)
    (w : World) :
  0 <= i -> i + 1 <= total -> total < 2 ^ 16 -> 0 <= input -> 0 <= output ->
  input + output < 2 ^ 32 -> 0 <= bdl_size K -> bdl_size K * total < 2 ^ 32 ->
  new_stream_ok E i = true ->
  let s := descriptor K input output (bdl_mem_ (ctl w)) i in
  let slots := all_streams_ (ctl w) in
  SetupStreamDescriptors_loop K E (S n) i (i * bdl_size K) input output total w =
  SetupStreamDescriptors_loop K E n (i + 1) ((i + 1) * bdl_size K) input output total
    (mkWorld
       (set_free_streams_ (free_streams_ (ctl w) ++ [s])
          (set_all_streams_ (<[Z.to_nat i := Some s]> slots) (ctl w)))
       (trace w ++ [EvNewStream s true]
        ++ assert_events (i <? Z.of_nat (length slots)) "i < countof(all_streams_)"
        ++ assert_events (match slots !! Z.to_nat i with Some None => true | _ => false end)
                         "all_streams_[i] == nullptr")).
Proof.
  intros Hi Hn Htot Hin Hout Hio Hb Hbt Hok s slots.
  assert (Hid : u16 (i + 1) = i + 1) by (apply u16_small; lia).
  assert (Hi1 : u32 (i + 1) = i + 1) by (apply u32_small; lia).
  assert (Hoff : u32 (i * bdl_size K + bdl_size K) = (i + 1) * bdl_size K).
  { rewrite u32_small; [lia|]. nia. }
  assert (Hsum : u32 (input + output) = input + output) by (apply u32_small; lia).
  simpl SetupStreamDescriptors_loop.
  unfold LOG, ReturnStreamLocked, ret, emit, modify, gets, mret, M_ret, mbind, M_bind.
  cbn -[DEBUG_ASSERT SetupStreamDescriptors_loop].
  rewrite Hid, Hi1, Hoff, Hsum, Hok.
  cbn -[DEBUG_ASSERT SetupStreamDescriptors_loop].
  repeat (rewrite DEBUG_ASSERT_run; cbn -[DEBUG_ASSERT SetupStreamDescriptors_loop]).
  rewrite <- !app_assoc. reflexivity.
Qed.

(** One round of the loop, for a slot whose descriptor cannot be allocated. *)
Lemma SetupStreamDescriptors_loop_stop (input output total : Z) (n : nat) (i : Z)
    (w : World) :
  0 <= i -> i + 1 <= total -> total < 2 ^ 16 -> 0 <= input -> 0 <= output ->
  input + output < 2 ^ 32 ->
  new_stream_ok E i = false ->
  let s := descriptor K input output (bdl_mem_ (ctl w)) i in
  SetupStreamDescriptors_loop K E (S n) i (i * bdl_size K) input output total w =
  (ERR_NO_MEMORY,
   mkWorld (ctl w)
     (trace w ++ [EvNewStream s false;
                  EvLog "Failed to allocate IntelHDAStream %hu/%u!\n"])).
Proof.
  intros Hi Hn Htot Hin Hout Hio Hok s.
  assert (Hid : u16 (i + 1) = i + 1) by (apply u16_small; lia).
  assert (Hsum : u32 (input + output) = input + output) by (apply u32_small; lia).
  simpl SetupStreamDescriptors_loop.
  unfold LOG, ReturnStreamLocked, ret, emit, modify, gets, mret, M_ret, mbind, M_bind.
  cbn -[DEBUG_ASSERT SetupStreamDescriptors_loop].
  rewrite Hid, Hsum, Hok.
  cbn -[DEBUG_ASSERT SetupStreamDescriptors_loop].
  rewrite <- !app_assoc. reflexivity.
Qed.

(** The rounds for slots [i .. k - 1] succeed, the round for slot [k] fails. *)
Lemma SetupStreamDescriptors_loop_fails (input output total k : Z) (n : nat) :
  forall (i : Z) (w : World),
    0 <= i <= k -> k < i + Z.of_nat n -> i + Z.of_nat n <= total -> total < 2 ^ 16 ->
    0 <= input -> 0 <= output -> input + output < 2 ^ 32 ->
    0 <= bdl_size K -> bdl_size K * total < 2 ^ 32 ->
    (forall j, i <= j < k -> new_stream_ok E j = true) ->
    new_stream_ok E k = false ->
    exists w',
      SetupStreamDescriptors_loop K E n i (i * bdl_size K) input output total w
        = (ERR_NO_MEMORY, w') /\
      bdl_mem_ (ctl w') = bdl_mem_ (ctl w) /\
      free_streams_ (ctl w') =
        free_streams_ (ctl w)
        ++ (descriptor K input output (bdl_mem_ (ctl w)) <$> seqZ i (k - i)).
Proof.
  induction n as [|n IH]; intros i w Hik Hk Hn Htot Hin Hout Hio Hb Hbt Hok Hno.
  - lia.
  - destruct (Z.eq_dec i k) as [->|Hne].
    + rewrite SetupStreamDescriptors_loop_stop by (try done; lia).
      eexists. split; [reflexivity|]. rewrite Z.sub_diag. cbn.
      by rewrite app_nil_r.
    + rewrite SetupStreamDescriptors_loop_step by (try done; try lia; apply Hok; lia).
      match goal with
      | |- context [SetupStreamDescriptors_loop K E n (i + 1) _ _ _ _ ?w0] =>
        destruct (IH (i + 1) w0) as (w' & Hrun & Hmem & Hfree);
          [lia | lia | lia | lia | lia | lia | lia | lia | lia
          | intros; apply Hok; lia | done |]
      end.
      exists w'. split; [exact Hrun|]. split; [exact Hmem|].
      rewrite Hfree. cbn. rewrite (seqZ_cons i (k - i)) by lia.
      replace (Z.pred (k - i)) with (k - (i + 1)) by lia.
      rewrite fmap_cons, <- app_assoc. reflexivity.
Qed.

(** All rounds succeed: the slots are filled and no assertion fails. *)
Lemma SetupStreamDescriptors_loop_slots (input output total : Z) (n : nat) :
  forall (i : Z) (w : World),
    0 <= i -> i + Z.of_nat n <= total -> total < 2 ^ 16 ->
    0 <= input -> 0 <= output -> input + output < 2 ^ 32 ->
    0 <= bdl_size K -> bdl_size K * total < 2 ^ 32 ->
    (forall j, i <= j < i + Z.of_nat n -> new_stream_ok E j = true) ->
    (forall j, i <= j < i + Z.of_nat n ->
               all_streams_ (ctl w) !! Z.to_nat j = Some None) ->
    exists w' d,
      SetupStreamDescriptors_loop K E n i (i * bdl_size K) input output total w
        = (NO_ERROR, w') /\
      trace w' = trace w ++ d /\
      forallb not_assert_failed d = true /\
      length (all_streams_ (ctl w')) = length (all_streams_ (ctl w)) /\
      (forall j, i <= j < i + Z.of_nat n ->
         all_streams_ (ctl w') !! Z.to_nat j
         = Some (Some (descriptor K input output (bdl_mem_ (ctl w)) j))) /\
      (forall j : nat, ~ (i <= Z.of_nat j < i + Z.of_nat n) ->
         all_streams_ (ctl w') !! j = all_streams_ (ctl w) !! j).
Proof.
  induction n as [|n IH]; intros i w Hi Hn Htot Hin Hout Hio Hb Hbt Hok Hnull.
  - exists w, []. cbn. rewrite app_nil_r. repeat split; try done. intros; lia.
  - rewrite SetupStreamDescriptors_loop_step by (try done; try lia; apply Hok; lia).
    assert (Hslot : all_streams_ (ctl w) !! Z.to_nat i = Some None) by (apply Hnull; lia).
    assert (Hlen : (Z.to_nat i < length (all_streams_ (ctl w)))%nat).
    { apply lookup_lt_is_Some. eauto. }
    rewrite Hslot.
    assert (Hlt : (i <? Z.of_nat (length (all_streams_ (ctl w)))) = true).
    { apply Z.ltb_lt. lia. }
    rewrite Hlt. cbn [assert_events]. rewrite !app_nil_r.
    match goal with
    | |- context [SetupStreamDescriptors_loop K E n (i + 1) _ _ _ _ ?w0] =>
      destruct (IH (i + 1) w0) as (w' & d & Hrun & Htr & Hd & Hl & Hfill & Hrest);
        [lia | lia | lia | lia | lia | lia | lia | lia
        | intros; apply Hok; lia
        | intros j Hj; cbn; rewrite list_lookup_insert_ne by lia; apply Hnull; lia |]
    end.
    cbn in Htr, Hl, Hfill, Hrest.
    eexists w', (_ :: d). split; [exact Hrun|]. split; [|split; [|split; [|split]]].
    + rewrite Htr, <- app_assoc. reflexivity.
    + cbn. exact Hd.
    + rewrite Hl, length_insert. reflexivity.
    + intros j Hj. destruct (Z.eq_dec j i) as [->|Hne].
      * rewrite Hrest by lia. rewrite list_lookup_insert_eq by done. reflexivity.
      * apply Hfill. lia.
    + intros j Hj. rewrite Hrest by lia.
      apply list_lookup_insert_ne. lia.
Qed.


(** The prefix of SetupStreamDescriptors, up to the loop, when the counts
    are valid and both the allocation and the mapping succeed. *)
Lemma SetupStreamDescriptors_enter_loop (w : World) (phys virt : Z) :
  let raw := hw_read E (trace w) GCAP in
  let input := HDA_REG_GCAP_ISS K (u16 raw) in
  let output := HDA_REG_GCAP_OSS K (u16 raw) in
  let bidir := HDA_REG_GCAP_BSS K (u16 raw) in
  let total := input + output + bidir in
  0 <= input -> 0 <= output -> 0 <= bidir ->
  0 < total <= MAX_STREAMS_PER_CONTROLLER K ->
  MAX_STREAMS_PER_CONTROLLER K < 2 ^ 16 ->
  0 <= bdl_size K ->
  bdl_size K * MAX_STREAMS_PER_CONTROLLER K < 2 ^ 32 ->
  allocate_result E BDL_MEM (bdl_size K * total) = (NO_ERROR, phys) ->
  map_result E BDL_MEM = (NO_ERROR, virt) ->
  SetupStreamDescriptors K E w =
  SetupStreamDescriptors_loop K E (Z.to_nat total) 0 (0 * bdl_size K) input output total
    (mkWorld (set_bdl_mem_ (mkMem (bdl_size K * total) phys virt) (ctl w))
       (trace w ++ [EvRead GCAP raw; EvAllocate BDL_MEM (bdl_size K * total);
                    EvMap BDL_MEM])).
Proof.
  intros raw input output bidir total Hi Ho Hb Htot Hmax Hbs Hbmax Halloc Hmap.
  unfold SetupStreamDescriptors. run.
  fold raw. fold input. fold output. fold bidir.
  rewrite !(u32_small input), !(u32_small output), !(u32_small bidir) by lia.
  rewrite (u32_small (input + output + bidir)) by lia. fold total.
  assert (Hc : (total =? 0) || (total >? MAX_STREAMS_PER_CONTROLLER K) = false).
  { apply orb_false_iff. split; [apply Z.eqb_neq; lia|].
    rewrite Z.gtb_ltb. apply Z.ltb_ge. lia. }
  rewrite Hc. rewrite (u32_small (bdl_size K * total)) by nia.
  unfold Allocate, Map. run. rewrite Halloc. cbn. rewrite Hmap. cbn.
  rewrite <- !app_assoc. reflexivity.
Qed.

(** X6: when the allocation of the descriptor of slot [k] fails,
    SetupStreamDescriptors returns ERR_NO_MEMORY; the descriptors of the
    slots before [k] stay in the free pool and the BDL memory stays
    allocated and mapped. *)
Theorem SetupStreamDescriptors_partial (w : World) (phys virt k : Z) :
  let raw := hw_read E (trace w) GCAP in
  let input := HDA_REG_GCAP_ISS K (u16 raw) in
  let output := HDA_REG_GCAP_OSS K (u16 raw) in
  let bidir := HDA_REG_GCAP_BSS K (u16 raw) in
  let total := input + output + bidir in
  0 <= input -> 0 <= output -> 0 <= bidir ->
  0 < total <= MAX_STREAMS_PER_CONTROLLER K ->
  MAX_STREAMS_PER_CONTROLLER K < 2 ^ 16 ->
  0 <= bdl_size K ->
  bdl_size K * MAX_STREAMS_PER_CONTROLLER K < 2 ^ 32 ->
  allocate_result E BDL_MEM (bdl_size K * total) = (NO_ERROR, phys) ->
  map_result E BDL_MEM = (NO_ERROR, virt) ->
  0 <= k < total ->
  (forall i, 0 <= i < k -> new_stream_ok E i = true) ->
  new_stream_ok E k = false ->
  let mem := mkMem (bdl_size K * total) phys virt in
  exists w',
    SetupStreamDescriptors K E w = (ERR_NO_MEMORY, w') /\
    bdl_mem_ (ctl w') = mem /\
    free_streams_ (ctl w') = free_streams_ (ctl w) ++ descriptors K input output k mem.
Proof.
  intros raw input output bidir total Hi Ho Hb Htot Hmax Hbs Hbmax Halloc Hmap Hk
    Hok Hno mem.
  rewrite (SetupStreamDescriptors_enter_loop w phys virt) by assumption.
  fold raw input output bidir total.
  match goal with
  | |- context [SetupStreamDescriptors_loop K E _ 0 _ _ _ _ ?w0] =>
    destruct (SetupStreamDescriptors_loop_fails input output total k (Z.to_nat total) 0 w0)
      as (w' & Hrun & Hmem & Hfree);
      [lia | lia | lia | lia | lia | lia | lia | lia | nia
      | intros; apply Hok; lia | done |]
  end.
  exists w'. split; [exact Hrun|]. split; [exact Hmem|].
  rewrite Hfree. cbn. rewrite Z.sub_0_r. reflexivity.
Qed.

(** X7: on a controller whose first [total] slots of all_streams_ are
    empty, a successful SetupStreamDescriptors stores in slot [j] the very
    descriptor it returned to the free pool as the [j]-th, leaves the other
    slots alone, and fails no assertion. *)
Theorem SetupStreamDescriptors_slots (w : World) (phys virt : Z) :
  let raw := hw_read E (trace w) GCAP in
  let input := HDA_REG_GCAP_ISS K (u16 raw) in
  let output := HDA_REG_GCAP_OSS K (u16 raw) in
  let bidir := HDA_REG_GCAP_BSS K (u16 raw) in
  let total := input + output + bidir in
  0 <= input -> 0 <= output -> 0 <= bidir ->
  0 < total <= MAX_STREAMS_PER_CONTROLLER K ->
  MAX_STREAMS_PER_CONTROLLER K < 2 ^ 16 ->
  0 <= bdl_size K ->
  bdl_size K * MAX_STREAMS_PER_CONTROLLER K < 2 ^ 32 ->
  allocate_result E BDL_MEM (bdl_size K * total) = (NO_ERROR, phys) ->
  map_result E BDL_MEM = (NO_ERROR, virt) ->
  (forall i, 0 <= i < total -> new_stream_ok E i = true) ->
  (forall j : nat, Z.of_nat j < total -> all_streams_ (ctl w) !! j = Some None) ->
  let w' := (SetupStreamDescriptors K E w).2 in
  let created := drop (length (free_streams_ (ctl w))) (free_streams_ (ctl w')) in
  (SetupStreamDescriptors K E w).1 = NO_ERROR /\
  forallb not_assert_failed (drop (length (trace w)) (trace w')) = true /\
  length (all_streams_ (ctl w')) = length (all_streams_ (ctl w)) /\
  Z.of_nat (length created) = total /\
  (forall (j : nat) s, created !! j = Some s ->
                       all_streams_ (ctl w') !! j = Some (Some s)) /\
  (forall j : nat, total <= Z.of_nat j ->
                   all_streams_ (ctl w') !! j = all_streams_ (ctl w) !! j).
Proof.
  intros raw input output bidir total Hi Ho Hb Htot Hmax Hbs Hbmax Halloc Hmap Hnew
    Hnull.
  rewrite (SetupStreamDescriptors_enter_loop w phys virt) by assumption.
  fold raw input output bidir total.
  match goal with
  | |- context [SetupStreamDescriptors_loop K E _ 0 _ _ _ _ ?w0] =>
    set (w0' := w0);
    destruct (SetupStreamDescriptors_loop_slots input output total (Z.to_nat total) 0 w0')
      as (w' & d & Hrun & Htr & Hd & Hl & Hfill & Hrest);
      [lia | lia | lia | lia | lia | lia | lia | nia
      | intros; apply Hnew; lia
      | intros j Hj; cbn; apply Hnull; lia |];
    destruct (SetupStreamDescriptors_loop_run K E input output total (Z.to_nat total) 0 w0')
      as (w'' & Hrun' & Hmem & Hfree);
      [lia | lia | lia | lia | lia | lia | lia | nia
      | intros; apply Hnew; lia |]
  end.
  rewrite Hrun in Hrun'. injection Hrun' as <-.
  rewrite Hrun. cbn [fst snd]. cbn in Htr, Hl, Hfill, Hrest, Hfree.
  rewrite Z2Nat.id in Hfree by lia.
  rewrite Hfree, drop_app_length, Htr, <- app_assoc, drop_app_length.
  split; [done|]. split; [|split; [exact Hl|split; [|split]]].
  - cbn. exact Hd.
  - rewrite length_fmap, length_seqZ. lia.
  - intros j s Hs. rewrite list_lookup_fmap in Hs.
    destruct (seqZ 0 total !! j) as [i|] eqn:Hj; [|done].
    apply lookup_seqZ in Hj as [-> Hlt]. cbn in Hs. injection Hs as <-.
    rewrite <- (Nat2Z.id j) at 1. apply Hfill. lia.
  - intros j Hj. apply Hrest. lia.
Qed.

(** X8: when the BDL memory cannot be allocated, or cannot be mapped,
    SetupStreamDescriptors returns the error after logging it, and creates
    no descriptor. *)
Theorem SetupStreamDescriptors_no_memory (w : World) (res : mx_status) (phys virt : Z) :
  let raw := hw_read E (trace w) GCAP in
  let input := HDA_REG_GCAP_ISS K (u16 raw) in
  let output := HDA_REG_GCAP_OSS K (u16 raw) in
  let bidir := HDA_REG_GCAP_BSS K (u16 raw) in
  let total := input + output + bidir in
  let size := bdl_size K * total in
  0 <= input -> 0 <= output -> 0 <= bidir ->
  0 < total <= MAX_STREAMS_PER_CONTROLLER K ->
  MAX_STREAMS_PER_CONTROLLER K < 2 ^ 16 ->
  0 <= bdl_size K ->
  bdl_size K * MAX_STREAMS_PER_CONTROLLER K < 2 ^ 32 ->
  res <> NO_ERROR ->
  (allocate_result E BDL_MEM size = (res, phys) ->
   SetupStreamDescriptors K E w =
   (res, mkWorld (ctl w)
           (trace w ++
            [EvRead GCAP raw; EvAllocate BDL_MEM size;
             EvLog ("Failed to allocate %u bytes of contiguous physical memory for "
                    +:+ "buffer descriptor lists!  (res %d)\n")]))) /\
  (allocate_result E BDL_MEM size = (NO_ERROR, phys) ->
   map_result E BDL_MEM = (res, virt) ->
   SetupStreamDescriptors K E w =
   (res, mkWorld (set_bdl_mem_ (mkMem size phys (mem_virt (bdl_mem_ (ctl w)))) (ctl w))
           (trace w ++
            [EvRead GCAP raw; EvAllocate BDL_MEM size; EvMap BDL_MEM;
             EvLog "Failed to map BDL memory!  (res %d)\n"]))).
Proof.
  intros raw input output bidir total size Hi Ho Hb Htot Hmax Hbs Hbmax Hres.
  assert (Hnok : is_ok res = false) by (by destruct res).
  unfold SetupStreamDescriptors. run.
  fold raw. fold input. fold output. fold bidir.
  rewrite !(u32_small input), !(u32_small output), !(u32_small bidir) by lia.
  rewrite (u32_small (input + output + bidir)) by lia. fold total.
  assert (Hc : (total =? 0) || (total >? MAX_STREAMS_PER_CONTROLLER K) = false).
  { apply orb_false_iff. split; [apply Z.eqb_neq; lia|].
    rewrite Z.gtb_ltb. apply Z.ltb_ge. lia. }
  rewrite Hc. rewrite (u32_small (bdl_size K * total)) by nia. fold size.
  unfold Allocate, Map. run. split.
  - intros ->. cbn. rewrite ?Hnok. cbn. rewrite ?Hnok. cbn.
    rewrite <- !app_assoc. reflexivity.
  - intros -> ->. cbn. rewrite ?Hnok. cbn. rewrite ?Hnok. cbn.
    rewrite <- !app_assoc. reflexivity.
Qed.

End Streams.

(** ** The ring setup as a whole *)

Section Rings.

Context (K : Header) (E : Env).

Lemma SetupCommandBufferSize_exact (r : reg) (p : entry_count_ptr) (w : World) :
  SetupCommandBufferSize K E r p w =
  match negotiated K (u8 (hw_read E (trace w) r)) with
  | Some (n, cfg) =>
    (NO_ERROR, mkWorld (set_entry_count p n (ctl w))
                 (trace w ++ [EvRead r (hw_read E (trace w) r); EvWrite r cfg]))
  | None =>
    (ERR_BAD_STATE,
     mkWorld (ctl w)
       (trace w ++ [EvRead r (hw_read E (trace w) r);
                    EvLog "Invalid ring buffer capabilities! (0x%02x)\n"]))
  end.
Proof.
  unfold SetupCommandBufferSize, negotiated. run.
  repeat match goal with |- context [test_bits ?a ?b] => destruct (test_bits a b) end;
    destruct p; unfold store; run; rewrite <- ?app_assoc; reflexivity.
Qed.

#[local] Arguments ResetCORBRdPtrLocked : simpl never.
#[local] Arguments SetupCommandBufferSize : simpl never.
#[local] Arguments negotiated : simpl never.
#[local] Arguments rirb_threshold : simpl never.
#[local] Arguments OR : simpl never.

#[local] Arguments ResetCORBRdPtrLocked : simpl never.
#[local] Arguments SetupCommandBufferSize : simpl never.
#[local] Arguments negotiated : simpl never.

Ltac forget_reads H :=
  repeat match type of H with
         | context [hw_read ?E0 ?t ?r] =>
           let v := fresh "v" in set (v := hw_read E0 t r) in *; clearbody v
         end.

(** Rewrites the calls of SetupCommandBuffer_rings that have a run lemma. *)
Ltac ring_calls H :=
  forget_reads H;
  rewrite ?SetupCommandBufferSize_exact in H;
  try match type of H with
      | context [ResetCORBRdPtrLocked ?K0 ?E0 ?w0] =>
        let d := fresh "d" in let r := fresh "r" in
        let Hr := fresh "Hr" in let Hd := fresh "Hreset" in
        destruct (ResetCORBRdPtrLocked_run K0 E0 w0) as (d & r & Hr & Hd);
        rewrite Hr in H; clear Hr
      end.

Ltac absurd_status :=
  solve [ discriminate | congruence
        | match goal with
          | H : is_ok ?r = false, H' : ?r = NO_ERROR |- _ =>
            rewrite H' in H; discriminate H
          end ].

(** What the first phase of SetupCommandBuffer leaves behind. *)
Lemma SetupCommandBuffer_rings_run (w : World) (r : mx_status) (w1 : World) :
  SetupCommandBuffer_rings K E w = (r, w1) ->
  exists d1 corb_cfg rirb_cfg,
    trace w1 = trace w ++ d1 /\
    writes d1 `prefix_of` ring_stop_writes K corb_cfg rirb_cfg /\
    corb_ (ctl w1) = corb_ (ctl w) /\ rirb_ (ctl w1) = rirb_ (ctl w) /\
    ((map_result E CMD_BUF_MEM).2 <> 0 -> forallb not_assert_failed d1 = true) /\
    (r = NO_ERROR ->
     writes d1 = ring_stop_writes K corb_cfg rirb_cfg /\
     rirb_rd_ptr_ (ctl w1) = 0 /\
     exists phys virt,
       allocate_result E CMD_BUF_MEM CMD_BUFFER_SIZE = (NO_ERROR, phys) /\
       map_result E CMD_BUF_MEM = (NO_ERROR, virt) /\
       cmd_buf_mem_ (ctl w1) = mkMem CMD_BUFFER_SIZE phys virt).
Proof.
  intros Hrun.
  unfold SetupCommandBuffer_rings, Allocate, Map, set_mem in Hrun.
  fwd_with ring_calls Hrun.
  all: apply pair_equal_spec in Hrun as [<- <-]; cbn; rewrite <- ?app_assoc.
  all: try (destruct (corb_reset_run_writes _ _ _ Hreset) as (ws & Hws & Hwok & Hany);
            pose proof (corb_reset_run_no_assert _ _ _ Hreset) as Hquiet).
  all: try (specialize (Hwok eq_refl); subst ws; clear Hany).
  all: try (destruct Hany as [-> | ->]).
  all: unshelve
    (eexists _, _, _; (split; [reflexivity|]);
     rewrite ?writes_app, ?writes_assert, ?Hws, ?forallb_app, ?Hquiet,
       ?forallb_assert_events, ?Heqp0; cbn;
     (split; [eexists; reflexivity|]);
     (split; [reflexivity|]); (split; [reflexivity|]);
     (split; [intros Hv; rewrite ?andb_true_r;
              first [reflexivity | apply negb_true_iff, Z.eqb_neq; exact Hv]|]);
     intros Hr;
     first [ absurd_status
           | (split; [reflexivity|]); (split; [reflexivity|]);
             eexists _, _; (split; [reflexivity|]); split; reflexivity ]);
    exact 0.
Qed.


Ltac steps :=
  unfold LOG, hw_rmb, mx_nanosleep, REG_WR, REG_RD;
  unfold ret, emit, modify, gets, mret, M_ret, mbind, M_bind;
  cbn -[DEBUG_ASSERT bdf_debug_tag unknown_bdf_debug_tag device_name_tag];
  repeat (rewrite DEBUG_ASSERT_run;
          cbn -[DEBUG_ASSERT bdf_debug_tag unknown_bdf_debug_tag device_name_tag]).

Lemma SetupCommandBuffer_masks_run w :
  exists c,
    SetupCommandBuffer_masks K w = (tt, mkWorld c (trace w)) /\
    cmd_buf_mem_ c = cmd_buf_mem_ (ctl w) /\
    rirb_entry_count_ c = rirb_entry_count_ (ctl w) /\
    rirb_rd_ptr_ c = rirb_rd_ptr_ (ctl w) /\
    corb_ c = corb_ (ctl w) /\
    rirb_ c = rirb_ (ctl w).
Proof. destruct w. eexists. split; [reflexivity|]. done. Qed.

Lemma SetupCommandBuffer_enable_exact (w : World) :
  let wp := hw_read E (trace w) CORBWP in
  let rp := hw_read E (trace w ++ [EvRead CORBWP wp]) CORBRP in
  let capacity := corb_entry_count_ (ctl w) in
  let thresh := rirb_threshold K (rirb_entry_count_ (ctl w)) in
  SetupCommandBuffer_enable K E w =
  (NO_ERROR,
   mkWorld (set_corb_space_ ((capacity - (wp - rp) mod capacity) mod capacity) (ctl w))
     (trace w ++ [EvRead CORBWP wp; EvRead CORBRP rp]
      ++ assert_events (negb (thresh =? 0)) "thresh"
      ++ [EvWrite RINTCNT thresh;
          EvWrite CORBSTS (HDA_REG_CORBSTS_MEI K);
          EvWrite RIRBSTS (OR (HDA_REG_RIRBSTS_INTFL K) (HDA_REG_RIRBSTS_OIS K));
          EvWrite CORBCTL (OR (HDA_REG_CORBCTL_MEIE K) (HDA_REG_CORBCTL_DMA_EN K));
          EvWrite RIRBCTL (OR (OR (HDA_REG_RIRBCTL_INTCTL K) (HDA_REG_RIRBCTL_DMA_EN K))
                              (HDA_REG_RIRBCTL_OIC K))])).
Proof.
  intros wp rp capacity thresh.
  unfold SetupCommandBuffer_enable, ComputeCORBSpaceLocked. steps.
  rewrite <- !app_assoc. reflexivity.
Qed.

Lemma SetupCommandBuffer_bases_exact (w : World) :
  let mem := cmd_buf_mem_ (ctl w) in
  let paddr := u64 (mem_phys mem) in
  let rirb_paddr := u64 (paddr + HDA_CORB_MAX_BYTES K) in
  let gcap := hw_read E (trace w) GCAP in
  SetupCommandBuffer_bases K E w =
  if negb (Z.shiftr paddr 32 =? 0) && negb (HDA_REG_GCAP_64OK K gcap) then
    (ERR_NOT_SUPPORTED,
     mkWorld (ctl w)
       (trace w ++
        [EvRead GCAP gcap;
         EvLog "Intel HDA controller does not support 64-bit physical addressing!\n"]))
  else
    (NO_ERROR,
     mkWorld (set_rirb_ (u64 (mem_virt mem + HDA_CORB_MAX_BYTES K))
                (set_corb_ (mem_virt mem) (ctl w)))
       (trace w ++ [EvRead GCAP gcap]
        ++ assert_events (Z.land paddr 0x7F =? 0) "!(cmd_buf_paddr64 & 0x7F)"
        ++ [EvWrite CORBLBASE (u32 (Z.land paddr 0xFFFFFFFF));
            EvWrite CORBUBASE (u32 (Z.shiftr paddr 32))]
        ++ assert_events (Z.land rirb_paddr 0x7F =? 0) "!(cmd_buf_paddr64 & 0x7F)"
        ++ [EvWrite RIRBLBASE (u32 (Z.land rirb_paddr 0xFFFFFFFF));
            EvWrite RIRBUBASE (u32 (Z.shiftr rirb_paddr 32))])).
Proof.
  intros mem paddr rirb_paddr gcap.
  unfold SetupCommandBuffer_bases. steps. fold mem paddr gcap.
  destruct (negb (Z.shiftr paddr 32 =? 0) && negb (HDA_REG_GCAP_64OK K gcap)); steps.
  - rewrite <- !app_assoc. reflexivity.
  - rewrite <- !app_assoc. reflexivity.
Qed.

#[local] Arguments SetupCommandBuffer_masks : simpl never.
#[local] Arguments rirb_threshold : simpl never.
#[local] Arguments OR : simpl never.

(** The run of SetupCommandBuffer after a successful first phase. *)
Lemma SetupCommandBuffer_rest_exact (w1 : World) :
  exists c,
    cmd_buf_mem_ c = cmd_buf_mem_ (ctl w1) /\
    rirb_entry_count_ c = rirb_entry_count_ (ctl w1) /\
    rirb_rd_ptr_ c = rirb_rd_ptr_ (ctl w1) /\
    corb_ c = corb_ (ctl w1) /\
    rirb_ c = rirb_ (ctl w1) /\
    SetupCommandBuffer_rest K E w1 =
    let w2 := mkWorld c (trace w1) in
    if is_ok (SetupCommandBuffer_bases K E w2).1
    then SetupCommandBuffer_enable K E (SetupCommandBuffer_bases K E w2).2
    else SetupCommandBuffer_bases K E w2.
Proof.
  destruct (SetupCommandBuffer_masks_run w1) as (c & Hm & H1 & H2 & H3 & H4 & H5).
  exists c. do 5 (split; [assumption|]).
  rewrite SetupCommandBuffer_rest_run. cbv zeta. rewrite Hm. reflexivity.
Qed.

(** X10: a successful SetupCommandBuffer writes the registers in one
    order: both rings stopped, the pointers reset, the sizes configured,
    the four base addresses, the interrupt threshold, the status bits
    cleared, and last of all the two control registers with the DMA engines
    enabled.  A failed run stops among the writes that precede the base
    addresses: it never enables a DMA engine. *)
Theorem SetupCommandBuffer_write_order (w : World) :
  let res := (SetupCommandBuffer K E w).1 in
  let w' := (SetupCommandBuffer K E w).2 in
  let d := drop (length (trace w)) (trace w') in
  trace w' = trace w ++ d /\
  (res = NO_ERROR ->
   (exists corb_cfg rirb_cfg corb_lo corb_hi rirb_lo rirb_hi thresh,
      writes d = ring_stop_writes K corb_cfg rirb_cfg
                 ++ ring_start_writes K corb_lo corb_hi rirb_lo rirb_hi thresh) /\
   last d = Some (EvWrite RIRBCTL
                    (OR (OR (HDA_REG_RIRBCTL_INTCTL K) (HDA_REG_RIRBCTL_DMA_EN K))
                        (HDA_REG_RIRBCTL_OIC K)))) /\
  (res <> NO_ERROR ->
   exists corb_cfg rirb_cfg, writes d `prefix_of` ring_stop_writes K corb_cfg rirb_cfg).
Proof.
  cbv zeta.
  destruct (SetupCommandBuffer_rings K E w) as [r w1] eqn:Hrings.
  destruct (SetupCommandBuffer_rings_run w r w1 Hrings)
    as (d1 & cc & rc & Hd1 & Hpre & _ & _ & _ & Hok).
  rewrite (SetupCommandBuffer_after_rings _ _ _ _ _ Hrings).
  destruct (is_ok r) eqn:Hr.
  2: { cbn [fst snd]. rewrite Hd1, drop_app_length. split; [done|].
       split; [intros ->; discriminate|]. intros _. eauto. }
  assert (r = NO_ERROR) as -> by (by destruct r).
  destruct (Hok eq_refl) as (Hw1 & _).
  destruct (SetupCommandBuffer_rest_exact w1) as (c & _ & _ & _ & _ & _ & ->).
  cbv zeta. rewrite SetupCommandBuffer_bases_exact. cbv zeta. cbn [ctl trace].
  match goal with |- context [if ?b then (ERR_NOT_SUPPORTED, _) else _] =>
    destruct b end; cbn [fst snd is_ok ctl trace].
  - rewrite Hd1, <- app_assoc, drop_app_length, writes_app, Hw1. cbn [writes omap].
    split; [done|]. split; [intros [=]|]. intros _. exists cc, rc.
    rewrite app_nil_r. done.
  - rewrite SetupCommandBuffer_enable_exact. cbv zeta. cbn [ctl trace fst snd].
    rewrite Hd1, <- !app_assoc, drop_app_length.
    split; [done|]. split; [|intros []; done]. intros _. split.
    + rewrite !writes_app, !writes_assert, Hw1. cbn.
      by eexists cc, rc, _, _, _, _, _.
    + rewrite !app_assoc.
      match goal with |- last (?l ++ [?a; ?b; ?c0; ?d0; ?e]) = _ =>
        change (last (l ++ [a; b; c0; d0] ++ [e]) = Some e) end.
      rewrite app_assoc. apply last_snoc.
Qed.

(** X11: after a successful SetupCommandBuffer the command buffer is the
    allocation the host gave, the CORB lies at its start and the RIRB
    HDA_CORB_MAX_BYTES above, and the software read pointer of the RIRB is
    0; a failed run leaves corb_ and rirb_ as they were. *)
Theorem SetupCommandBuffer_layout (w : World) :
  let res := (SetupCommandBuffer K E w).1 in
  let w' := (SetupCommandBuffer K E w).2 in
  (res = NO_ERROR ->
   exists phys virt,
     allocate_result E CMD_BUF_MEM CMD_BUFFER_SIZE = (NO_ERROR, phys) /\
     map_result E CMD_BUF_MEM = (NO_ERROR, virt) /\
     cmd_buf_mem_ (ctl w') = mkMem CMD_BUFFER_SIZE phys virt /\
     corb_ (ctl w') = virt /\
     rirb_ (ctl w') = u64 (virt + HDA_CORB_MAX_BYTES K) /\
     rirb_rd_ptr_ (ctl w') = 0) /\
  (res <> NO_ERROR ->
   corb_ (ctl w') = corb_ (ctl w) /\ rirb_ (ctl w') = rirb_ (ctl w)).
Proof.
  cbv zeta.
  destruct (SetupCommandBuffer_rings K E w) as [r w1] eqn:Hrings.
  destruct (SetupCommandBuffer_rings_run w r w1 Hrings)
    as (d1 & cc & rc & _ & _ & Hcorb & Hrirb & _ & Hok).
  rewrite (SetupCommandBuffer_after_rings _ _ _ _ _ Hrings).
  destruct (is_ok r) eqn:Hr.
  2: { cbn [fst snd]. split; [intros ->; discriminate|]. done. }
  assert (r = NO_ERROR) as -> by (by destruct r).
  destruct (Hok eq_refl) as (_ & Hrd & phys & virt & Halloc & Hmap & Hmem).
  destruct (SetupCommandBuffer_rest_exact w1)
    as (c & Hcmem & _ & Hcrd & Hccorb & Hcrirb & ->).
  cbv zeta. rewrite SetupCommandBuffer_bases_exact. cbv zeta. cbn [ctl trace].
  match goal with |- context [if ?b then (ERR_NOT_SUPPORTED, _) else _] =>
    destruct b end; cbn [fst snd is_ok ctl trace].
  - split; [intros [=]|]. intros _. split; congruence.
  - rewrite SetupCommandBuffer_enable_exact. cbv zeta. cbn [ctl trace fst snd].
    split; [|intros []; done]. intros _. exists phys, virt.
    split; [exact Halloc|]. split; [exact Hmap|]. cbn.
    rewrite Hcmem, Hmem, Hcrd, Hrd. done.
Qed.

Lemma u64_mod_128 (p : Z) : u64 p mod 128 = p mod 128.
Proof.
  unfold u64, wrap. apply Z.mod_mod_divide. exists (2 ^ 57). reflexivity.
Qed.

Lemma aligned_128 (p : Z) : p mod 128 = 0 -> (Z.land (u64 p) 0x7F =? 0) = true.
Proof.
  intros Hp. apply Z.eqb_eq. change 0x7F with (Z.ones 7).
  rewrite Z.land_ones by lia. change (2 ^ 7) with 128.
  by rewrite u64_mod_128.
Qed.

(** X12: when the command buffer is mapped at a non-null address and
    allocated at a multiple of 128, HDA_CORB_MAX_BYTES being one too, no
    assertion of SetupCommandBuffer fails: both rings are 128-byte aligned
    and the interrupt threshold is not 0. *)
Theorem SetupCommandBuffer_assertions (w : World) :
  0 <= RIRB_RESERVED_RESPONSE_SLOTS K ->
  HDA_CORB_MAX_BYTES K mod 128 = 0 ->
  (allocate_result E CMD_BUF_MEM CMD_BUFFER_SIZE).2 mod 128 = 0 ->
  (map_result E CMD_BUF_MEM).2 <> 0 ->
  let w' := (SetupCommandBuffer K E w).2 in
  forallb not_assert_failed (drop (length (trace w)) (trace w')) = true.
Proof.
  intros HR Hcorb Hphys Hvirt. cbv zeta.
  destruct (SetupCommandBuffer_rings K E w) as [r w1] eqn:Hrings.
  destruct (SetupCommandBuffer_rings_run w r w1 Hrings)
    as (d1 & cc & rc & Hd1 & _ & _ & _ & Hquiet & Hok).
  specialize (Hquiet Hvirt).
  rewrite (SetupCommandBuffer_after_rings _ _ _ _ _ Hrings).
  destruct (is_ok r) eqn:Hr.
  2: { cbn [fst snd]. by rewrite Hd1, drop_app_length. }
  assert (r = NO_ERROR) as -> by (by destruct r).
  destruct (Hok eq_refl) as (_ & _ & phys & virt & Halloc & Hmap & Hmem).
  rewrite Halloc in Hphys. cbn [snd] in Hphys.
  apply SetupCommandBuffer_rings_ok in Hrings as [_ Hrc].
  destruct (SetupCommandBuffer_rest_exact w1)
    as (c & Hcmem & Hcrc & _ & _ & _ & ->).
  cbv zeta. rewrite SetupCommandBuffer_bases_exact. cbv zeta. cbn [ctl trace].
  rewrite Hcmem, Hmem. cbn [mem_phys mem_virt].
  match goal with |- context [if ?b then (ERR_NOT_SUPPORTED, _) else _] =>
    destruct b end; cbn [fst snd is_ok ctl trace].
  - rewrite Hd1, <- app_assoc, drop_app_length, forallb_app, Hquiet. reflexivity.
  - rewrite SetupCommandBuffer_enable_exact. cbv zeta. cbn [ctl trace fst snd].
    rewrite Hd1, <- !app_assoc, drop_app_length.
    rewrite !forallb_app, !forallb_assert_events, Hquiet.
    rewrite (aligned_128 phys Hphys).
    rewrite (aligned_128 (u64 phys + HDA_CORB_MAX_BYTES K))
      by (rewrite Z.add_mod, u64_mod_128, Hphys, Hcorb by lia; reflexivity).
    cbn [rirb_entry_count_ set_rirb_ set_corb_].
    replace (rirb_entry_count_ _) with (rirb_entry_count_ (ctl w1))
      by (rewrite <- Hcrc; reflexivity).
    rewrite (rirb_threshold_nonzero K _ HR Hrc). reflexivity.
Qed.

End Rings.

Section RingMemory.
Context (K : Header) (E : Env).

(** X9: when the command buffer cannot be allocated, or cannot be mapped,
    SetupCommandBuffer returns the error after logging it, and touches no
    register. *)
Theorem SetupCommandBuffer_no_memory (w : World) (res : mx_status) (phys virt : Z) :
  res <> NO_ERROR ->
  (allocate_result E CMD_BUF_MEM CMD_BUFFER_SIZE = (res, phys) ->
   SetupCommandBuffer K E w =
   (res, mkWorld (ctl w)
           (trace w ++
            [EvAllocate CMD_BUF_MEM CMD_BUFFER_SIZE;
             EvLog "Failed to allocate %zu bytes for CORB/RIRB command buffers! (res %d)\n"]))) /\
  (allocate_result E CMD_BUF_MEM CMD_BUFFER_SIZE = (NO_ERROR, phys) ->
   map_result E CMD_BUF_MEM = (res, virt) ->
   SetupCommandBuffer K E w =
   (res, mkWorld (set_cmd_buf_mem_
                    (mkMem CMD_BUFFER_SIZE phys (mem_virt (cmd_buf_mem_ (ctl w)))) (ctl w))
           (trace w ++
            [EvAllocate CMD_BUF_MEM CMD_BUFFER_SIZE; EvMap CMD_BUF_MEM;
             EvLog "Failed to map CORB/RIRB command buffer (res %d)\n"]))).
Proof.
  intros Hres. assert (Hnok : is_ok res = false) by (by destruct res).
  unfold SetupCommandBuffer, SetupCommandBuffer_rings, Allocate, Map. run. split.
  - intros ->. cbn. rewrite ?Hnok. cbn. rewrite ?Hnok. cbn.
    rewrite <- !app_assoc. reflexivity.
  - intros -> ->. cbn. rewrite ?Hnok. cbn. rewrite ?Hnok. cbn.
    rewrite <- !app_assoc. reflexivity.
Qed.

End RingMemory.

(** ** The orchestrator, step by step *)

Section Lifecycle.

Context (K : Header) (E : Env).

(** X13: when the controller does not report revision 1.0, InitInternal
    fails with ERR_NOT_SUPPORTED right after the two version reads: no
    register is written, nothing is reset or allocated. *)
Theorem InitInternal_version_check (pci_dev : option Z) (w w1 : World) :
  SetupPCIDevice K E pci_dev w = (NO_ERROR, w1) ->
  let major := hw_read E (trace w1) VMAJ in
  let minor := hw_read E (trace w1 ++ [EvRead VMAJ major]) VMIN in
  u8 major <> 1 \/ u8 minor <> 0 ->
  InitInternal K E pci_dev w =
  (ERR_NOT_SUPPORTED,
   mkWorld (ctl w1)
     (trace w1 ++ [EvRead VMAJ major; EvRead VMIN minor;
                   EvLog "Unexpected HW revision %d.%d!\n"])).
Proof.
  intros Hsetup major minor Hver.
  assert (Hc : negb (1 =? u8 major) || negb (0 =? u8 minor) = true).
  { apply orb_true_iff. rewrite !negb_true_iff, !Z.eqb_neq. destruct Hver; [left|right]; lia. }
  unfold InitInternal, InitInternal_bringup.
  rewrite (bind_run (SetupPCIDevice K E pci_dev ≫= _)).
  rewrite (bind_run (SetupPCIDevice K E pci_dev)), Hsetup. cbn [fst snd is_ok negb].
  rewrite (bind_run (REG_RD E VMAJ)), REG_RD_run. cbn [fst snd ctl trace].
  rewrite (bind_run (REG_RD E VMIN)), REG_RD_run. cbn [fst snd ctl trace].
  fold major. fold minor. rewrite Hc.
  unfold LOG. run. rewrite <- !app_assoc. reflexivity.
Qed.

Lemma InitInternal_bringup_quiet pci_dev :
  preserves (fun c => (state_ c, dev_node_ c, irq_thread_started_ c, id_ c))
    bringup_event (InitInternal_bringup K E pci_dev).
Proof. frame. Qed.

Lemma InitInternal_publish_lifecycle (w : World) :
  let name := device_name_tag K (id_ (ctl w)) in
  let res := (InitInternal_publish K E w).1 in
  let w' := (InitInternal_publish K E w).2 in
  exists d,
    trace w' = trace w ++ d /\
    forallb not_shutdown d = true /\
    (res = NO_ERROR ->
     d = [EvDeviceInit name; EvThrdCreate name; EvDeviceAdd name; EvAddRef;
          EvSetState OPERATING; EvWakeupIRQThread] /\
     state_ (ctl w') = OPERATING /\
     irq_thread_started_ (ctl w') = true /\
     dev_node_ (ctl w') = mkDevice name (MX_PROTOCOL_IHDA K) true) /\
    (res <> NO_ERROR ->
     forallb not_operating d = true /\
     (state_ (ctl w') = state_ (ctl w) \/ state_ (ctl w') = SHUT_DOWN) /\
     (dev_ctx (dev_node_ (ctl w')) = dev_ctx (dev_node_ (ctl w)) \/
      dev_ctx (dev_node_ (ctl w')) = false)).
Proof.
  unfold InitInternal_publish, device_init, thrd_create_with_name, device_add,
    SetState, set_dev_ctx.
  run.
  destruct (thrd_create_result E <? 0); cbn.
  - eexists. split; [rewrite <- !app_assoc; reflexivity|]. cbn.
    split; [reflexivity|]. split; [intros [=]|]. intros _. auto.
  - destruct (device_add_result E) eqn:Hadd; cbn;
      (eexists; split; [rewrite <- !app_assoc; reflexivity|]); cbn;
      (split; [reflexivity|]); (split; [intros Hr; try discriminate Hr|]);
      try (intros Hr; try (by destruct Hr); auto).
    done.
Qed.

(** X14: a successful InitInternal ends with device_init, the start of
    the IRQ thread, device_add, AddRef, the transition to OPERATING and the
    wake-up of the IRQ thread, in this order and under one name, nothing of
    the kind happening before; the device node carries the protocol tag and
    the controller as context.  A failed InitInternal never takes a
    reference, never enters OPERATING and never wakes the thread; it leaves
    the state as it was or SHUT_DOWN, and the context as it was or null.
    InitInternal itself never calls DeviceShutdown. *)
Theorem InitInternal_lifecycle (pci_dev : option Z) (w : World) :
  let name := device_name_tag K (id_ (ctl w)) in
  let res := (InitInternal K E pci_dev w).1 in
  let w' := (InitInternal K E pci_dev w).2 in
  let d := drop (length (trace w)) (trace w') in
  trace w' = trace w ++ d /\
  forallb not_shutdown d = true /\
  (res = NO_ERROR ->
   state_ (ctl w') = OPERATING /\
   irq_thread_started_ (ctl w') = true /\
   dev_node_ (ctl w') = mkDevice name (MX_PROTOCOL_IHDA K) true /\
   exists d0,
     d = d0 ++ [EvDeviceInit name; EvThrdCreate name; EvDeviceAdd name; EvAddRef;
                EvSetState OPERATING; EvWakeupIRQThread] /\
     forallb bringup_event d0 = true) /\
  (res <> NO_ERROR ->
   forallb not_operating d = true /\
   (state_ (ctl w') = state_ (ctl w) \/ state_ (ctl w') = SHUT_DOWN) /\
   (dev_ctx (dev_node_ (ctl w')) = dev_ctx (dev_node_ (ctl w)) \/
    dev_ctx (dev_node_ (ctl w')) = false)).
Proof.
  cbv zeta. unfold InitInternal. rewrite bind_run.
  destruct (InitInternal_bringup_quiet pci_dev w) as (Hf & d1 & Hd1 & Hquiet).
  injection Hf as Hstate Hnode Hthread Hid.
  destruct (is_ok (InitInternal_bringup K E pci_dev w).1) eqn:Hok; cbn [negb].
  - destruct (InitInternal_publish_lifecycle (InitInternal_bringup K E pci_dev w).2)
      as (d2 & Hd2 & Hns & Hgood & Hbad).
    cbv zeta in Hgood, Hbad. rewrite Hid in Hgood.
    rewrite Hd2, Hd1, <- app_assoc, drop_app_length.
    split; [done|].
    split; [rewrite forallb_app, (bringup_event_not_shutdown _ Hquiet), Hns; done|].
    split.
    + intros Hres. destruct (Hgood Hres) as (-> & H1 & H2 & H3).
      split; [exact H1|]. split; [exact H2|]. split; [exact H3|]. eauto.
    + intros Hres. destruct (Hbad Hres) as (H1 & H2 & H3).
      rewrite forallb_app, (bringup_event_not_operating _ Hquiet), H1.
      rewrite <- Hstate, <- Hnode. done.
  - cbn. rewrite Hd1, drop_app_length.
    split; [done|]. split; [by apply bringup_event_not_shutdown|].
    split; [intros Hres; rewrite Hres in Hok; discriminate|]. intros _.
    split; [by apply bringup_event_not_operating|].
    rewrite Hstate, Hnode. auto.
Qed.

Lemma SetupPCIDevice_pci_dev (dev : Z) (w : World) :
  pci_dev_ (ctl w) = None ->
  pci_dev_ (ctl (SetupPCIDevice K E (Some dev) w).2) = Some dev.
Proof.
  intros Hfresh. unfold SetupPCIDevice.
  rewrite bind_run. change (gets pci_dev_ w) with (pci_dev_ (ctl w), w).
  cbn [fst snd]. rewrite Hfresh.
  do 4 (rewrite bind_run; cbv beta).
  etrans; [apply frame_after; intros a; frame|]. reflexivity.
Qed.

(** X15: InitInternal keeps the device pointer it was given, whether it
    succeeds or not; a second call is rejected with ERR_BAD_STATE after
    nothing but the log line. *)
Theorem InitInternal_once (dev dev' : Z) (w : World) :
  pci_dev_ (ctl w) = None ->
  let w' := (InitInternal K E (Some dev) w).2 in
  pci_dev_ (ctl w') = Some dev /\
  InitInternal K E (Some dev') w' =
    (ERR_BAD_STATE, mkWorld (ctl w') (trace w' ++ [EvLog "Device already initialized!\n"])).
Proof.
  intros Hfresh w'.
  assert (Hdev : pci_dev_ (ctl w') = Some dev).
  { unfold w', InitInternal, InitInternal_bringup.
    etrans; [apply frame_after; intros a; frame|].
    etrans; [apply frame_after; intros a; frame|].
    by apply SetupPCIDevice_pci_dev. }
  split; [exact Hdev|].
  unfold InitInternal, InitInternal_bringup, SetupPCIDevice.
  run. rewrite Hdev. cbn. done.
Qed.

Lemma InitInternal_no_shutdown pci_dev :
  preserves (fun _ => tt) not_shutdown (InitInternal K E pci_dev).
Proof. frame. Qed.

(** X16: Init returns what InitInternal returns; it calls DeviceShutdown
    exactly when InitInternal failed, as its last step, and changes nothing
    when InitInternal succeeded. *)
Theorem Init_shutdown (pci_dev : option Z) (w : World) :
  let run := InitInternal K E pci_dev w in
  let res := (Init K E pci_dev w).1 in
  let w' := (Init K E pci_dev w).2 in
  res = run.1 /\
  (res = NO_ERROR ->
   w' = run.2 /\
   forallb not_shutdown (drop (length (trace w)) (trace w')) = true) /\
  (res <> NO_ERROR ->
   trace w' = trace run.2 ++ [EvDeviceShutdown] /\
   forallb not_shutdown (drop (length (trace w)) (trace run.2)) = true).
Proof.
  cbv zeta. unfold Init. rewrite bind_run.
  destruct (InitInternal_no_shutdown pci_dev w) as (_ & d & Hd & Hquiet).
  destruct (InitInternal K E pci_dev w) as [r wi]. cbn [fst snd] in *.
  destruct (is_ok r) eqn:Hok; cbn [negb].
  - run. split; [done|]. split; [|intros Hr; destruct r; done].
    intros _. destruct wi; cbn in *. rewrite Hd, drop_app_length. done.
  - unfold DeviceShutdown. run. split; [done|].
    split; [intros ->; discriminate|]. intros _.
    rewrite Hd, drop_app_length. done.
Qed.

End Lifecycle.

(** ** Runs of the concrete controller *)

(** End to end: 16 CORB entries, 256 RIRB entries, at most 15 commands in
    flight, eight descriptors with the ids 1 to 8, the controller
    operating. *)
Example Init_demo :
  let '(res, w) := Init hda_header demo_env (Some 1) demo_world in
  res = NO_ERROR /\
  corb_entry_count_ (ctl w) = 16 /\ rirb_entry_count_ (ctl w) = 256 /\
  corb_max_in_flight_ (ctl w) = 15 /\
  stream_id <$> free_streams_ (ctl w) = [1; 2; 3; 4; 5; 6; 7; 8] /\
  stream_type <$> free_streams_ (ctl w)
    = [INPUT; INPUT; INPUT; INPUT; OUTPUT; OUTPUT; OUTPUT; OUTPUT] /\
  written [RINTCNT] (trace w) = [(RINTCNT, 247)] /\
  state_ (ctl w) = OPERATING.
Proof. vm_compute. repeat split. Qed.

Example ResetControllerHW_demo :
  ResetControllerHW hda_header demo_env demo_world =
  (NO_ERROR,
   mkWorld (ctl demo_world)
     [EvRead GCTL 0; EvWrite GCTL 0; EvBarrier; EvRead GCTL 0; EvSleep 100000;
      EvRead GCTL 0; EvWrite GCTL 1; EvBarrier; EvRead GCTL 1; EvSleep 521000]).
Proof. vm_compute. reflexivity. Qed.

(** A device that never clears HWINIT: 101 reads and 100 waits of 10 us,
    then the timeout, logged. *)
Example ResetControllerHW_stuck :
  let '(res, w) := ResetControllerHW hda_header stuck_env demo_world in
  res = ERR_TIMED_OUT /\
  length (trace w) = 205%nat /\
  last (trace w) = Some (EvLog "Timeout during reset\n") /\
  existsb (fun e => match e with EvSleep 100000 | EvSleep 521000 => true | _ => false end)
          (trace w) = false.
Proof. vm_compute. repeat split. Qed.

(** A size register that offers all three sizes gets 256 entries. *)
Example SetupCommandBufferSize_all_offered :
  let env := sim_env (sim_read 0x4401 0x70 0x70) (Some 0x00D8) 0x100000 in
  let '(res, w) :=
    SetupCommandBufferSize hda_header env RIRBSIZE rirb_entry_count_ptr demo_world in
  res = NO_ERROR /\ rirb_entry_count_ (ctl w) = 256 /\
  trace w = [EvRead RIRBSIZE 0x70; EvWrite RIRBSIZE 0x2].
Proof. vm_compute. repeat split. Qed.

Example SetupStreamDescriptors_too_many :
  let '(res, w) := SetupStreamDescriptors hda_header many_stream_env demo_world in
  res = ERR_INTERNAL /\ ctl w = ctl demo_world /\ length (trace w) = 2%nat.
Proof. vm_compute. repeat split. Qed.

Example SetupCommandBuffer_high_32 :
  let '(res, w) := SetupCommandBuffer hda_header high_env_32 demo_world in
  res = ERR_NOT_SUPPORTED /\ written base_regs (trace w) = [].
Proof. vm_compute. repeat split. Qed.

Example SetupCommandBuffer_high_64 :
  let '(res, w) := SetupCommandBuffer hda_header high_env_64 demo_world in
  res = NO_ERROR /\
  written base_regs (trace w) =
    [(CORBLBASE, 0x00000080); (CORBUBASE, 0x00000001);
     (RIRBLBASE, 0x00000480); (RIRBUBASE, 0x00000001)].
Proof. vm_compute. repeat split. Qed.

Example debug_tag_demo :
  bus_address_tag hda_header demo_env = "IHDA Controller 00:1b.0" /\
  bus_address_tag hda_header anonymous_env = "IHDA Controller (unknown BDF)" /\
  device_name_tag hda_header 0 = "intel-hda-000" /\
  device_name_tag hda_header 42 = "intel-hda-042".
Proof. vm_compute. repeat split. Qed.


(** ** The theorems at the concrete controller *)

Lemma SetupCommandBufferSize_largest_demo :
  let raw := hw_read demo_env (trace demo_world) CORBSIZE in
  let tmp := u8 raw in
  let '(res, w') :=
    SetupCommandBufferSize hda_header demo_env CORBSIZE corb_entry_count_ptr demo_world in
  (exists n cfg,
      offered hda_header tmp n cfg /\
      (forall m cfg', offered hda_header tmp m cfg' -> m <= n) /\
      (forall m cfg', offered hda_header tmp m cfg' -> m <> n -> m < n) /\
      res = NO_ERROR /\
      load corb_entry_count_ptr (ctl w') = n /\
      trace w' = trace demo_world ++ [EvRead CORBSIZE raw; EvWrite CORBSIZE (u8 cfg)])
  \/ ((forall n cfg, ~ offered hda_header tmp n cfg) /\ res = ERR_BAD_STATE).
Proof.
  exact (SetupCommandBufferSize_largest hda_header demo_env CORBSIZE
           corb_entry_count_ptr demo_world).
Defined.

Lemma SetupCommandBufferSize_failure_demo :
  let w' := (SetupCommandBufferSize hda_header no_ring_env CORBSIZE
               corb_entry_count_ptr demo_world).2 in
  (SetupCommandBufferSize hda_header no_ring_env CORBSIZE
     corb_entry_count_ptr demo_world).1 = ERR_BAD_STATE /\
  ctl w' = ctl demo_world /\
  trace w' = [EvRead CORBSIZE 0;
              EvLog "Invalid ring buffer capabilities! (0x%02x)\n"].
Proof.
  pose proof (SetupCommandBufferSize_failure_writes_nothing hda_header no_ring_env
                CORBSIZE corb_entry_count_ptr demo_world) as H.
  cbv zeta in H.
  destruct (SetupCommandBufferSize hda_header no_ring_env CORBSIZE
              corb_entry_count_ptr demo_world) as [res w'].
  destruct H as [H _].
  destruct (H eq_refl eq_refl eq_refl) as (Hres & Hctl & _ & Htrace).
  simpl. repeat split; assumption.
Defined.

Lemma ResetControllerHW_sequence_demo :
  exists d res,
    ResetControllerHW hda_header stuck_env demo_world
      = (res, mkWorld (ctl demo_world) (trace demo_world ++ d))
    /\ reset_run hda_header d res.
Proof. exact (ResetControllerHW_sequence hda_header stuck_env demo_world). Defined.

Lemma SetupCommandBuffer_max_in_flight_demo :
  let c := ctl (SetupCommandBuffer hda_header demo_env demo_world).2 in
  In (corb_entry_count_ c) ring_sizes /\
  In (rirb_entry_count_ c) ring_sizes /\
  in_flight_bound hda_header c /\
  (RIRB_RESERVED_RESPONSE_SLOTS hda_header = 8 -> corb_entry_count_ c = 16 ->
   rirb_entry_count_ c = 256 -> corb_max_in_flight_ c = 15).
Proof.
  apply (SetupCommandBuffer_max_in_flight hda_header demo_env demo_world
           (SetupCommandBuffer_rings hda_header demo_env demo_world).2).
  - apply Z.leb_le. vm_compute. reflexivity.
  - vm_compute. reflexivity.
Defined.

Lemma SetupCommandBuffer_base_addresses_demo :
  let res := (SetupCommandBuffer hda_header high_env_32 demo_world).1 in
  let w' := (SetupCommandBuffer hda_header high_env_32 demo_world).2 in
  let d := drop (length (trace demo_world)) (trace w') in
  res = ERR_NOT_SUPPORTED /\ written base_regs d = [].
Proof.
  pose proof (SetupCommandBuffer_base_addresses hda_header high_env_32 demo_world
                (SetupCommandBuffer_rings hda_header high_env_32 demo_world).2) as H.
  cbv zeta in H. destruct H as (_ & H & _).
  - vm_compute. reflexivity.
  - apply H.
    + apply Z.leb_le. vm_compute. reflexivity.
    + vm_compute. reflexivity.
Defined.

Lemma SetupCommandBuffer_rintcnt_demo :
  let w' := (SetupCommandBuffer hda_header demo_env demo_world).2 in
  let d := drop (length (trace demo_world)) (trace w') in
  In (rirb_entry_count_ (ctl w')) ring_sizes /\
  written [RINTCNT] d
    = [(RINTCNT, rirb_threshold hda_header (rirb_entry_count_ (ctl w')))].
Proof.
  pose proof (SetupCommandBuffer_rintcnt hda_header demo_env demo_world) as H.
  cbv zeta in H. destruct H as (_ & _ & H & _).
  - apply Z.leb_le. vm_compute. reflexivity.
  - apply H. vm_compute. reflexivity.
Defined.

Lemma SetupStreamDescriptors_bad_counts_demo :
  SetupStreamDescriptors hda_header no_stream_env demo_world =
  (ERR_INTERNAL,
   mkWorld (ctl demo_world)
     (trace demo_world ++
      [EvRead GCAP (hw_read no_stream_env (trace demo_world) GCAP);
       EvLog "Invalid stream counts in GCAP register (In %u Out %u Bidir %u; Max %zu)\n"])).
Proof.
  apply (SetupStreamDescriptors_bad_counts hda_header no_stream_env demo_world).
  - apply Z.leb_le. vm_compute. reflexivity.
  - apply Z.leb_le. vm_compute. reflexivity.
  - apply Z.leb_le. vm_compute. reflexivity.
  - vm_compute. reflexivity.
  - left. vm_compute. reflexivity.
Defined.

Lemma SetupStreamDescriptors_creates_demo :
  exists w' created,
    SetupStreamDescriptors hda_header demo_env demo_world = (NO_ERROR, w') /\
    free_streams_ (ctl w') = free_streams_ (ctl demo_world) ++ created /\
    Z.of_nat (length created) = 8 /\
    count_type INPUT created = 4 /\
    count_type OUTPUT created = 4 /\
    count_type BIDIR created = 0 /\
    (forall (i : nat) s, created !! i = Some s ->
       stream_id s = Z.of_nat i + 1 /\
       stream_type s = classify 4 4 (Z.of_nat i) /\
       stream_regs s = Z.of_nat i /\
       bdl_phys s = 0x200000 + Z.of_nat i * bdl_size hda_header /\
       bdl_virt s = 0x8000000 + Z.of_nat i * bdl_size hda_header) /\
    NoDup (stream_id <$> created) /\
    NoDup (stream_regs <$> created).
Proof.
  destruct (SetupStreamDescriptors_creates hda_header demo_env demo_world
              0x200000 0x8000000)
    as (w' & created & Hrun & Hfree & _ & Hlen & Hin & Hout & Hbi & Hslot & Hnd
        & Hregs & _).
  - apply Z.leb_le. vm_compute. reflexivity.
  - apply Z.leb_le. vm_compute. reflexivity.
  - apply Z.leb_le. vm_compute. reflexivity.
  - split; [apply Z.ltb_lt | apply Z.leb_le]; vm_compute; reflexivity.
  - vm_compute. reflexivity.
  - vm_compute. reflexivity.
  - vm_compute. reflexivity.
  - vm_compute. reflexivity.
  - vm_compute. reflexivity.
  - intros i _. reflexivity.
  - apply Z.leb_le. vm_compute. reflexivity.
  - apply Z.leb_le. vm_compute. reflexivity.
  - apply Z.leb_le. vm_compute. reflexivity.
  - apply Z.leb_le. vm_compute. reflexivity.
  - exists w', created. repeat split; try assumption; apply Hslot; assumption.
Defined.

Lemma Init_rejects_demo :
  (Init hda_header demo_env None demo_world).1 = ERR_INVALID_ARGS /\
  (Init hda_header demo_env (Some 2) initialized_world).1 = ERR_BAD_STATE.
Proof.
  destruct (Init_rejects hda_header demo_env demo_world) as (_ & Hnull & _).
  destruct (Init_rejects hda_header demo_env initialized_world) as (_ & _ & Hagain).
  destruct (Hagain 2 1) as [_ Hbad].
  - vm_compute. reflexivity.
  - split; assumption.
Defined.


(** ** More of the theorems at concrete controllers *)

Lemma SetupPCIDevice_populates_demo :
  let res := (SetupPCIDevice hda_header demo_env (Some 1) demo_world).1 in
  let c := ctl (SetupPCIDevice hda_header demo_env (Some 1) demo_world).2 in
  pci_dev_ c = Some 1 /\
  (res = NO_ERROR <-> regs_ c <> None) /\
  (res = NO_ERROR ->
   pci_proto_ c = Some 0x5000 /\
   irq_handle_ c = 7 /\
   exists regs,
     map_mmio_result demo_env = (NO_ERROR, (regs, 0x2000, regs_handle_ c)) /\
     regs_ c = Some regs).
Proof.
  apply (SetupPCIDevice_populates hda_header demo_env 1 demo_world); reflexivity.
Defined.

Lemma SetupPCIDevice_irq_mode_demo :
  let w' := (SetupPCIDevice hda_header legacy_irq_env (Some 1) demo_world).2 in
  msi_irq_ (ctl w') = false /\
  irq_modes (trace w') = [MX_PCIE_IRQ_MODE_MSI; MX_PCIE_IRQ_MODE_LEGACY].
Proof.
  destruct (SetupPCIDevice_irq_mode hda_header legacy_irq_env 1 demo_world)
    as (_ & Hok & _).
  - reflexivity.
  - destruct Hok as (Hmsi & _ & Hmodes); [vm_compute; reflexivity|].
    split; [exact Hmsi | exact Hmodes].
Defined.


Lemma SetupPCIDevice_window_size_demo :
  let res := (SetupPCIDevice hda_header bad_window_env (Some 1) demo_world).1 in
  let w' := (SetupPCIDevice hda_header bad_window_env (Some 1) demo_world).2 in
  let calls := host_calls (drop (length (trace demo_world)) (trace w')) in
  res <> NO_ERROR /\
  regs_ (ctl w') = None /\
  ~ In EvEnableBusMaster calls /\
  (In EvMapMmio calls -> res = ERR_INVALID_ARGS /\ regs_handle_ (ctl w') = 9).
Proof.
  apply (SetupPCIDevice_window_size hda_header bad_window_env 1 demo_world
           0x7000000 0x1000 9).
  - reflexivity.
  - reflexivity.
  - reflexivity.
  - apply Z.eqb_neq. vm_compute. reflexivity.
Defined.

Lemma SetupStreamDescriptors_partial_demo :
  exists w',
    SetupStreamDescriptors hda_header short_pool_env demo_world = (ERR_NO_MEMORY, w') /\
    bdl_mem_ (ctl w') = mkMem 4096 0x200000 0x8000000 /\
    stream_id <$> free_streams_ (ctl w') = [1; 2; 3].
Proof.
  destruct (SetupStreamDescriptors_partial hda_header short_pool_env demo_world
              0x200000 0x8000000 3)
    as (w' & Hrun & Hmem & Hfree).
  - apply Z.leb_le. vm_compute. reflexivity.
  - apply Z.leb_le. vm_compute. reflexivity.
  - apply Z.leb_le. vm_compute. reflexivity.
  - split; [apply Z.ltb_lt | apply Z.leb_le]; vm_compute; reflexivity.
  - vm_compute. reflexivity.
  - apply Z.leb_le. vm_compute. reflexivity.
  - vm_compute. reflexivity.
  - vm_compute. reflexivity.
  - vm_compute. reflexivity.
  - split; [apply Z.leb_le | apply Z.ltb_lt]; vm_compute; reflexivity.
  - intros i [_ Hi]. apply Z.ltb_lt. exact Hi.
  - reflexivity.
  - exists w'. split; [exact Hrun|]. split; [exact Hmem|].
    rewrite Hfree. vm_compute. reflexivity.
Defined.

Lemma SetupStreamDescriptors_slots_demo :
  let w' := (SetupStreamDescriptors hda_header demo_env demo_world).2 in
  let created := drop (length (free_streams_ (ctl demo_world))) (free_streams_ (ctl w')) in
  (SetupStreamDescriptors hda_header demo_env demo_world).1 = NO_ERROR /\
  forallb not_assert_failed (drop (length (trace demo_world)) (trace w')) = true /\
  length (all_streams_ (ctl w')) = length (all_streams_ (ctl demo_world)) /\
  Z.of_nat (length created) = 8 /\
  (forall (j : nat) s, created !! j = Some s ->
                       all_streams_ (ctl w') !! j = Some (Some s)) /\
  (forall j : nat, 8 <= Z.of_nat j ->
                   all_streams_ (ctl w') !! j = all_streams_ (ctl demo_world) !! j).
Proof.
  apply (SetupStreamDescriptors_slots hda_header demo_env demo_world
           0x200000 0x8000000).
  - apply Z.leb_le. vm_compute. reflexivity.
  - apply Z.leb_le. vm_compute. reflexivity.
  - apply Z.leb_le. vm_compute. reflexivity.
  - split; [apply Z.ltb_lt | apply Z.leb_le]; vm_compute; reflexivity.
  - vm_compute. reflexivity.
  - apply Z.leb_le. vm_compute. reflexivity.
  - vm_compute. reflexivity.
  - vm_compute. reflexivity.
  - vm_compute. reflexivity.
  - intros i _. reflexivity.
  - intros j Hj. change (Z.of_nat j < 8) in Hj.
    apply (lookup_replicate_2 30 (None : option IntelHDAStream) j). lia.
Defined.

Lemma SetupStreamDescriptors_no_memory_demo :
  SetupStreamDescriptors hda_header no_memory_env demo_world =
  (ERR_NO_MEMORY,
   mkWorld (ctl demo_world)
     [EvRead GCAP 0x4401; EvAllocate BDL_MEM 4096;
      EvLog ("Failed to allocate %u bytes of contiguous physical memory for "
             +:+ "buffer descriptor lists!  (res %d)\n")]).
Proof.
  apply (SetupStreamDescriptors_no_memory hda_header no_memory_env demo_world
           ERR_NO_MEMORY 0x200000 0).
  - apply Z.leb_le. vm_compute. reflexivity.
  - apply Z.leb_le. vm_compute. reflexivity.
  - apply Z.leb_le. vm_compute. reflexivity.
  - split; [apply Z.ltb_lt | apply Z.leb_le]; vm_compute; reflexivity.
  - vm_compute. reflexivity.
  - apply Z.leb_le. vm_compute. reflexivity.
  - vm_compute. reflexivity.
  - discriminate.
  - reflexivity.
Defined.

Lemma SetupCommandBuffer_no_memory_demo :
  SetupCommandBuffer hda_header no_memory_env demo_world =
  (ERR_NO_MEMORY,
   mkWorld (ctl demo_world)
     [EvAllocate CMD_BUF_MEM CMD_BUFFER_SIZE;
      EvLog "Failed to allocate %zu bytes for CORB/RIRB command buffers! (res %d)\n"]).
Proof.
  apply (SetupCommandBuffer_no_memory hda_header no_memory_env demo_world
           ERR_NO_MEMORY 0x100000 0).
  - discriminate.
  - reflexivity.
Defined.

Lemma SetupCommandBuffer_write_order_demo :
  let d := drop (length (trace demo_world))
             (trace (SetupCommandBuffer hda_header demo_env demo_world).2) in
  (exists corb_cfg rirb_cfg corb_lo corb_hi rirb_lo rirb_hi thresh,
     writes d = ring_stop_writes hda_header corb_cfg rirb_cfg
                ++ ring_start_writes hda_header corb_lo corb_hi rirb_lo rirb_hi thresh) /\
  last d = Some (EvWrite RIRBCTL 7).
Proof.
  apply (SetupCommandBuffer_write_order hda_header demo_env demo_world).
  vm_compute. reflexivity.
Defined.

Lemma SetupCommandBuffer_layout_demo :
  let w' := (SetupCommandBuffer hda_header demo_env demo_world).2 in
  exists phys virt,
    allocate_result demo_env CMD_BUF_MEM CMD_BUFFER_SIZE = (NO_ERROR, phys) /\
    map_result demo_env CMD_BUF_MEM = (NO_ERROR, virt) /\
    cmd_buf_mem_ (ctl w') = mkMem CMD_BUFFER_SIZE phys virt /\
    corb_ (ctl w') = virt /\
    rirb_ (ctl w') = u64 (virt + 1024) /\
    rirb_rd_ptr_ (ctl w') = 0.
Proof.
  apply (SetupCommandBuffer_layout hda_header demo_env demo_world).
  vm_compute. reflexivity.
Defined.

Lemma SetupCommandBuffer_assertions_demo :
  forallb not_assert_failed
    (drop (length (trace demo_world))
       (trace (SetupCommandBuffer hda_header demo_env demo_world).2)) = true.
Proof.
  apply (SetupCommandBuffer_assertions hda_header demo_env demo_world).
  - apply Z.leb_le. vm_compute. reflexivity.
  - vm_compute. reflexivity.
  - vm_compute. reflexivity.
  - apply Z.eqb_neq. vm_compute. reflexivity.
Defined.

Lemma InitInternal_version_check_demo :
  (InitInternal hda_header old_revision_env (Some 1) demo_world).1 = ERR_NOT_SUPPORTED /\
  writes (trace (InitInternal hda_header old_revision_env (Some 1) demo_world).2) = [].
Proof.
  rewrite (InitInternal_version_check hda_header old_revision_env (Some 1) demo_world
             (SetupPCIDevice hda_header old_revision_env (Some 1) demo_world).2).
  - split; vm_compute; reflexivity.
  - vm_compute. reflexivity.
  - left. apply Z.eqb_neq. vm_compute. reflexivity.
Defined.

Lemma InitInternal_lifecycle_demo :
  let w' := (InitInternal hda_header demo_env (Some 1) demo_world).2 in
  state_ (ctl w') = OPERATING /\
  irq_thread_started_ (ctl w') = true /\
  dev_node_ (ctl w') = mkDevice "intel-hda-000" 0x49484441 true.
Proof.
  destruct (InitInternal_lifecycle hda_header demo_env (Some 1) demo_world)
    as (_ & _ & Hok & _).
  destruct Hok as (Hstate & Hthread & Hnode & _); [vm_compute; reflexivity|].
  split; [exact Hstate|]. split; [exact Hthread|exact Hnode].
Defined.

Lemma InitInternal_once_demo :
  let w' := (InitInternal hda_header demo_env (Some 1) demo_world).2 in
  pci_dev_ (ctl w') = Some 1 /\
  InitInternal hda_header demo_env (Some 2) w' =
    (ERR_BAD_STATE, mkWorld (ctl w') (trace w' ++ [EvLog "Device already initialized!\n"])).
Proof.
  apply (InitInternal_once hda_header demo_env 1 2 demo_world). reflexivity.
Defined.

Lemma Init_shutdown_demo :
  let run := InitInternal hda_header stuck_env (Some 1) demo_world in
  let w' := (Init hda_header stuck_env (Some 1) demo_world).2 in
  trace w' = trace run.2 ++ [EvDeviceShutdown] /\
  forallb not_shutdown (drop (length (trace demo_world)) (trace run.2)) = true.
Proof.
  apply (Init_shutdown hda_header stuck_env (Some 1) demo_world).
  apply is_ok_false. vm_compute. reflexivity.
Defined.
